(** * Sports-venue booking platform: slot availability and booking lifecycle

    A shallow embedding of the server-side services of the booking platform
    (BookingService, SlotService, ReviewService) together with the part of
    the JavaScript platform and of the Prisma record store that they rely on.

    - Tables of the relational store are finite maps from the primary key
      (a uuid string) to the row.
    - A service method is a computation in a state-and-error monad over the
      store; [transaction] gives the all-or-nothing behaviour of
      [prisma.$transaction].
    - JavaScript numbers are exact rationals extended with NaN; the rounding
      error of binary64 arithmetic is outside the model.
    - A JavaScript [Date] is its time value in milliseconds since the epoch,
      or NaN (an "Invalid Date").  The local time zone of the server is UTC.
*)

From Stdlib Require Import ZArith QArith Qround Lqa String Ascii List Lia Bool.
From stdpp Require Import base option list strings gmap fin_maps.

Local Open Scope string_scope.
Local Open Scope Z_scope.

(** ** The JavaScript platform *)

Module JS.

(** A JavaScript number: [None] is NaN. *)
Definition number : Type := option Q.

Definition num (z : Z) : number := Some (inject_Z z).

Definition NaN : number := None.

Definition add (a b : number) : number :=
  match a, b with Some x, Some y => Some (x + y)%Q | _, _ => None end.

Definition sub (a b : number) : number :=
  match a, b with Some x, Some y => Some (x - y)%Q | _, _ => None end.

Definition mul (a b : number) : number :=
  match a, b with Some x, Some y => Some (x * y)%Q | _, _ => None end.

(** Division; every divisor in the services is a non-zero literal. *)
Definition div (a b : number) : number :=
  match a, b with Some x, Some y => Some (x / y)%Q | _, _ => None end.

(** Relational operators: any comparison with NaN is false. *)
Definition gt (a b : number) : bool :=
  match a, b with Some x, Some y => negb (Qle_bool x y) | _, _ => false end.

Definition ge (a b : number) : bool :=
  match a, b with Some x, Some y => Qle_bool y x | _, _ => false end.

Definition lt (a b : number) : bool := gt b a.

(** [Math.round]: the nearest integer, a tie going up. *)
Definition Math_round (a : number) : number :=
  match a with
  | Some x => Some (inject_Z (Qfloor (x + (1 # 2))%Q))
  | None => None
  end.

(** Equality of numbers as values ([NaN] only matches itself here; this is
    the meta-level comparison used in statements, not the [===] operator). *)
Definition num_eq (a b : number) : Prop :=
  match a, b with
  | Some x, Some y => (x == y)%Q
  | None, None => True
  | _, _ => False
  end.

(** *** Strings *)

Definition digit_val (c : ascii) : option Z :=
  let n := Z.of_N (N_of_ascii c) in
  if (48 <=? n) && (n <=? 57) then Some (n - 48) else None.

Fixpoint digits_val (acc : Z) (l : list ascii) : option Z :=
  match l with
  | [] => Some acc
  | c :: l' =>
      match digit_val c with
      | Some d => digits_val (10 * acc + d) l'
      | None => None
      end
  end.

(** [Number(s)] on the strings the services hand to it: a run of decimal
    digits is its value and the empty string is [0]; anything else is taken
    to be NaN (signs, fractions, exponents, radix prefixes and surrounding
    white space do not occur in the fields of a stored time). *)
Definition Number (s : string) : number :=
  match digits_val 0 (list_ascii_of_string s) with
  | Some n => num n
  | None => NaN
  end.

(** [s.split(':')]. *)
Fixpoint split_colon_aux (cur : list ascii) (l : list ascii) : list string :=
  match l with
  | [] => [string_of_list_ascii (rev cur)]
  | c :: l' =>
      if Ascii.eqb c ":"%char
      then string_of_list_ascii (rev cur) :: split_colon_aux [] l'
      else split_colon_aux (c :: cur) l'
  end.

Definition split_colon (s : string) : list string :=
  split_colon_aux [] (list_ascii_of_string s).

(** Array destructuring [const [a, b] = xs.map(Number)]: a missing element
    is [undefined], which is NaN in arithmetic. *)
Definition nth_number (i : nat) (xs : list string) : number :=
  match xs !! i with
  | Some s => Number s
  | None => NaN
  end.

(** The relational operators on strings compare code units
    lexicographically. *)
Definition str_lt (a b : string) : bool := String.ltb a b.
Definition str_le (a b : string) : bool := String.leb a b.
Definition str_gt (a b : string) : bool := String.ltb b a.
Definition str_ge (a b : string) : bool := String.leb b a.

Definition lower_char (c : ascii) : ascii :=
  let n := N_of_ascii c in
  if (65 <=? n)%N && (n <=? 90)%N then ascii_of_N (n + 32) else c.

Fixpoint toLowerCase (s : string) : string :=
  match s with
  | EmptyString => EmptyString
  | String c s' => String (lower_char c) (toLowerCase s')
  end.

(** *** Dates *)

(** The time value of a [Date]; [None] is an Invalid Date. *)
Definition Date : Type := option Z.

Definition msPerMinute : Z := 60000.
Definition msPerHour : Z := 3600000.
Definition msPerDay : Z := 86400000.

(** Days from the epoch to the civil date [y]-[m]-[d]. *)
Definition days_from_civil (y m d : Z) : Z :=
  let y' := if m <=? 2 then y - 1 else y in
  let era := y' / 400 in
  let yoe := y' - era * 400 in
  let mp := if 2 <? m then m - 3 else m + 9 in
  let doy := (153 * mp + 2) / 5 + d - 1 in
  let doe := yoe * 365 + yoe / 4 - yoe / 100 + doy in
  era * 146097 + doe - 719468.

Definition digits2 (a b : ascii) : option Z :=
  x ← digit_val a; y ← digit_val b; Some (10 * x + y).

(** The fraction of a second: the first three digits count. *)
Definition millis (l : list ascii) : option Z :=
  match l with
  | [] => None
  | [a] => x ← digit_val a; Some (100 * x)
  | [a; b] => x ← digits2 a b; Some (10 * x)
  | a :: b :: c :: l' =>
      x ← digits2 a b; y ← digit_val c; _ ← digits_val 0 l'; Some (10 * x + y)
  end.

(** Drops a final [Z] (the UTC designator). *)
Fixpoint strip_Z (l : list ascii) : list ascii :=
  match l with
  | [] => []
  | c :: l' =>
      match l' with
      | [] => if Ascii.eqb c "Z"%char then [] else [c]
      | _ => c :: strip_Z l'
      end
  end.

(** The seconds of the time part: nothing, [:ss] or [:ss.sss], in
    milliseconds. *)
Definition parse_seconds (l : list ascii) : option Z :=
  match l with
  | [] => Some 0
  | c :: s1 :: s2 :: rest =>
      if Ascii.eqb c ":"%char then
        s ← digits2 s1 s2;
        if s <=? 59 then
          match rest with
          | [] => Some (s * 1000)
          | c' :: frac =>
              if Ascii.eqb c' "."%char then ms ← millis frac; Some (s * 1000 + ms)
              else None
          end
        else None
      else None
  | _ => None
  end.

(** The time part of the date-time string format, after the date:
    nothing, or [THH:mm], [THH:mm:ss], [THH:mm:ss.sss], with an optional
    [Z] (a time without offset is local time, which is UTC here). *)
Definition parse_time (l : list ascii) : option Z :=
  match l with
  | [] => Some 0
  | t :: h1 :: h2 :: c :: m1 :: m2 :: rest =>
      if Ascii.eqb t "T"%char && Ascii.eqb c ":"%char then
        h ← digits2 h1 h2;
        m ← digits2 m1 m2;
        if (h <=? 23) && (m <=? 59) then
          s ← parse_seconds (strip_Z rest);
          Some (h * msPerHour + m * msPerMinute + s)
        else None
      else None
  | _ => None
  end.

(** [new Date(s)] for a string: the ECMAScript date-time string format
    [YYYY-MM-DD] and [YYYY-MM-DDTHH:mm(:ss(.sss))(Z)].  A string outside
    the format is an Invalid Date; in particular a bare time of day such
    as ["10:00"] has no date part and is an Invalid Date. *)
Definition Date_new (s : string) : Date :=
  match list_ascii_of_string s with
  | y1 :: y2 :: y3 :: y4 :: c1 :: m1 :: m2 :: c2 :: d1 :: d2 :: rest =>
      if Ascii.eqb c1 "-"%char && Ascii.eqb c2 "-"%char then
        yh ← digits2 y1 y2;
        yl ← digits2 y3 y4;
        m ← digits2 m1 m2;
        d ← digits2 d1 d2;
        if (1 <=? m) && (m <=? 12) && (1 <=? d) && (d <=? 31) then
          t ← parse_time rest;
          Some (days_from_civil (100 * yh + yl) m d * msPerDay + t)
        else None
      else None
  | _ => None
  end.

(** [a < b] on dates compares the time values as numbers. *)
Definition Date_lt (a b : Date) : bool :=
  match a, b with Some x, Some y => x <? y | _, _ => false end.

Definition Date_le (a b : Date) : bool :=
  match a, b with Some x, Some y => x <=? y | _, _ => false end.

Definition getTime (d : Date) : number :=
  match d with Some t => num t | None => NaN end.

(** Truncation of a number to an integer, as the date setters do. *)
Definition trunc (q : Q) : Z := Z.quot (Qnum q) (Z.pos (Qden q)).

(** [d.setHours(h, m, 0, 0)] in local time. *)
Definition Date_setHours (d : Date) (h m : number) : Date :=
  match d, h, m with
  | Some t, Some h, Some m =>
      Some (t / msPerDay * msPerDay + trunc h * msPerHour + trunc m * msPerMinute)
  | _, _, _ => None
  end.

(** [d.setDate(d.getDate() + n)]. *)
Definition Date_addDays (d : Date) (n : Z) : Date :=
  match d with Some t => Some (t + n * msPerDay) | None => None end.

Definition digit_char (n : Z) : ascii := ascii_of_N (Z.to_N (48 + n)).

Definition pad2 (n : Z) : string :=
  String (digit_char (n / 10 mod 10)) (String (digit_char (n mod 10)) EmptyString).

(** ["HH:MM"], the first five characters of [toTimeString()]. *)
Definition HHMM (h m : Z) : string := pad2 h ++ ":" ++ pad2 m.

(** [d.toTimeString().slice(0, 5)]. *)
Definition toTimeString5 (d : Date) : string :=
  match d with
  | Some t =>
      let ms := t mod msPerDay in
      HHMM (ms / msPerHour) (ms mod msPerHour / msPerMinute)
  | None => "Inval"
  end.

End JS.

(** ** The data model (prisma schema) *)

Inductive SlotStatus := AVAILABLE | BOOKED | BLOCKED.

Module BookingStatus.
Inductive t := PENDING | CONFIRMED | CANCELLED | COMPLETED.
End BookingStatus.

Module PaymentStatus.
Inductive t := PENDING | PAID | REFUNDED | FAILED.
End PaymentStatus.

Inductive Role := USER | ADMIN.

#[global] Instance SlotStatus_eq_dec : EqDecision SlotStatus.
Proof. solve_decision. Defined.
#[global] Instance BookingStatus_eq_dec : EqDecision BookingStatus.t.
Proof. solve_decision. Defined.
#[global] Instance PaymentStatus_eq_dec : EqDecision PaymentStatus.t.
Proof. solve_decision. Defined.
#[global] Instance Role_eq_dec : EqDecision Role.
Proof. solve_decision. Defined.

(** The name of an enum member, as the string the client library hands out. *)
Definition SlotStatus_name (s : SlotStatus) : string :=
  match s with
  | AVAILABLE => "AVAILABLE"
  | BOOKED => "BOOKED"
  | BLOCKED => "BLOCKED"
  end.

Module User.
Record t := mk { role : Role }.
End User.

Module Venue.
Record t := mk { pricePerHour : JS.number; isActive : bool }.
End Venue.

Module Slot.
(** [date] is the calendar day (days since the epoch) of the DATE column;
    [startTime] and [endTime] are TEXT columns. *)
Record t := mk {
  venueId : string;
  date : Z;
  startTime : string;
  endTime : string;
  status : SlotStatus
}.

Definition set_status (st : SlotStatus) (s : t) : t :=
  mk (venueId s) (date s) (startTime s) (endTime s) st.
End Slot.

Module Booking.
Record t := mk {
  userId : string;
  slotId : string;
  status : BookingStatus.t;
  totalPrice : JS.number;
  paymentStatus : PaymentStatus.t;
  refundAmount : option JS.number
}.
End Booking.

Module Review.
Record t := mk {
  userId : string;
  venueId : string;
  rating : Z;
  comment : option string
}.
End Review.

(** The store: one finite map per table, keyed by the primary key. *)
Record Db := mkDb {
  users : gmap string User.t;
  venues : gmap string Venue.t;
  slots : gmap string Slot.t;
  bookings : gmap string Booking.t;
  reviews : gmap string Review.t
}.

(** ** Errors and the service monad *)

Inductive error :=
  | AppError (statusCode : Z) (code message : string)
  | PrismaError (code : string)
  | TypeError.

(** The error kinds of the interface. *)
Inductive Kind := NotFound | Forbidden | Conflict | BadRequest | Internal.

(** The kind under which [errorHandler] reports an error: an [AppError] by
    its status, a unique-constraint error of the client as a conflict and a
    missing record as not found. *)
Definition kind_of (e : error) : Kind :=
  match e with
  | AppError 404 _ _ => NotFound
  | AppError 403 _ _ => Forbidden
  | AppError 409 _ _ => Conflict
  | AppError 400 _ _ => BadRequest
  | AppError _ _ _ => Internal
  | PrismaError code =>
      if String.eqb code "P2002" then Conflict
      else if String.eqb code "P2025" then NotFound
      else Internal
  | TypeError => Internal
  end.

Inductive result (A : Type) :=
  | Ok (a : A)
  | Err (e : error).
Arguments Ok {A} a.
Arguments Err {A} e.

(** A service computation: the store after the call and the value returned
    or the error thrown.  A throw keeps the writes made so far. *)
Definition M (A : Type) : Type := Db -> Db * result A.

#[global] Instance M_ret : MRet M := fun A a db => (db, Ok a).

#[global] Instance M_bind : MBind M := fun A B f m db =>
  match m db with
  | (db', Ok a) => f a db'
  | (db', Err e) => (db', Err e)
  end.

Definition throw {A : Type} (e : error) : M A := fun db => (db, Err e).

Definition get : M Db := fun db => (db, Ok db).

Definition put (db' : Db) : M unit := fun _ => (db', Ok tt).

(** ** The Prisma client *)

Module Prisma.

(** [prisma.$transaction(async tx => ...)]: the writes of the body are
    committed together, or, when the body throws, rolled back together. *)
Definition transaction {A : Type} (body : M A) : M A := fun db =>
  match body db with
  | (db', Ok a) => (db', Ok a)
  | (_, Err e) => (db, Err e)
  end.

Definition RecordNotFound : error := PrismaError "P2025".
Definition UniqueConstraint : error := PrismaError "P2002".
Definition ForeignKey : error := PrismaError "P2003".
(** A required relation that has no row ([include] of a dangling key). *)
Definition Inconsistent : error := PrismaError "InconsistentQueryResult".
(** An argument the client rejects (an Invalid Date). *)
Definition Validation : error := PrismaError "ValidationError".

Definition set_slots (m : gmap string Slot.t) (db : Db) : Db :=
  mkDb (users db) (venues db) m (bookings db) (reviews db).

Definition set_bookings (m : gmap string Booking.t) (db : Db) : Db :=
  mkDb (users db) (venues db) (slots db) m (reviews db).

Definition set_reviews (m : gmap string Review.t) (db : Db) : Db :=
  mkDb (users db) (venues db) (slots db) (bookings db) m.

(** [slot.update({where: {id}, data})]. *)
Definition slot_update (id : string) (f : Slot.t -> Slot.t) : M Slot.t := fun db =>
  match slots db !! id with
  | Some s => (set_slots (<[id := f s]> (slots db)) db, Ok (f s))
  | None => (db, Err RecordNotFound)
  end.

(** [slot.create({data})]; [id] is the key the store generates. *)
Definition slot_create (id : string) (s : Slot.t) : M Slot.t := fun db =>
  match slots db !! id with
  | Some _ => (db, Err UniqueConstraint)
  | None =>
      match venues db !! Slot.venueId s with
      | Some _ => (set_slots (<[id := s]> (slots db)) db, Ok s)
      | None => (db, Err ForeignKey)
      end
  end.

(** [booking.create({data})]; [id] is the key the store generates. *)
Definition booking_create (id : string) (b : Booking.t) : M Booking.t := fun db =>
  match bookings db !! id with
  | Some _ => (db, Err UniqueConstraint)
  | None =>
      match users db !! Booking.userId b, slots db !! Booking.slotId b with
      | Some _, Some _ => (set_bookings (<[id := b]> (bookings db)) db, Ok b)
      | _, _ => (db, Err ForeignKey)
      end
  end.

(** [booking.update({where: {id}, data})]. *)
Definition booking_update (id : string) (f : Booking.t -> Booking.t) : M Booking.t := fun db =>
  match bookings db !! id with
  | Some b => (set_bookings (<[id := f b]> (bookings db)) db, Ok (f b))
  | None => (db, Err RecordNotFound)
  end.

(** [review.create({data})]; (userId, venueId) carries a unique index. *)
Definition review_create (id : string) (r : Review.t) : M Review.t := fun db =>
  match reviews db !! id with
  | Some _ => (db, Err UniqueConstraint)
  | None =>
      if existsb (fun kv => bool_decide (Review.userId kv.2 = Review.userId r)
                            && bool_decide (Review.venueId kv.2 = Review.venueId r))
           (map_to_list (reviews db))
      then (db, Err UniqueConstraint)
      else
        match users db !! Review.userId r, venues db !! Review.venueId r with
        | Some _, Some _ => (set_reviews (<[id := r]> (reviews db)) db, Ok r)
        | _, _ => (db, Err ForeignKey)
        end
  end.

(** [findMany({where})]: the rows that satisfy the filter, with their keys. *)
Definition findMany {A : Type} (where_ : string -> A -> bool) (table : gmap string A)
  : list (string * A) :=
  List.filter (fun kv => where_ kv.1 kv.2) (map_to_list table).

(** [findFirst({where})]. *)
Definition findFirst {A : Type} (where_ : string -> A -> bool) (table : gmap string A)
  : option (string * A) :=
  head (findMany where_ table).

(** [slot.delete({where: {id}})].  The foreign key of a booking to its slot
    is declared ON DELETE CASCADE: the bookings of the slot go with it. *)
Definition slot_delete (id : string) : M Slot.t := fun db =>
  match slots db !! id with
  | Some s =>
      (mkDb (users db) (venues db) (delete id (slots db))
         (filter (fun kv : string * Booking.t => Booking.slotId kv.2 <> id) (bookings db))
         (reviews db),
       Ok s)
  | None => (db, Err RecordNotFound)
  end.

(** [review.update({where: {id}, data: {rating?, comment?}})]: a field
    that is not given keeps its value. *)
Definition review_update (id : string) (rating : option Z) (comment : option string)
  : M Review.t := fun db =>
  match reviews db !! id with
  | Some r =>
      let r' :=
        Review.mk (Review.userId r) (Review.venueId r) (default (Review.rating r) rating)
          (match comment with Some c => Some c | None => Review.comment r end) in
      (set_reviews (<[id := r']> (reviews db)) db, Ok r')
  | None => (db, Err RecordNotFound)
  end.

(** [review.delete({where: {id}})]. *)
Definition review_delete (id : string) : M Review.t := fun db =>
  match reviews db !! id with
  | Some r => (set_reviews (delete id (reviews db)) db, Ok r)
  | None => (db, Err RecordNotFound)
  end.

End Prisma.

(** ** BookingService *)

Module BookingService.

(** The slot summary carried by an availability answer. *)
Record SlotView := mkView {
  view_id : string;
  view_startTime : string;
  view_endTime : string;
  view_status : SlotStatus
}.

Record SlotAvailability := mkAvail {
  available : bool;
  reason : option string;
  slot : option SlotView
}.

Record RefundInfo := mkRefund {
  eligible : bool;
  percentage : Z;
  amount : JS.number;
  refund_reason : string
}.

(** A booking row with its key, as the methods return it. *)
Definition BookingResponse : Type := string * Booking.t.

Definition view (id : string) (s : Slot.t) : SlotView :=
  mkView id (Slot.startTime s) (Slot.endTime s) (Slot.status s).

Definition isActive (b : Booking.t) : bool :=
  bool_decide (Booking.status b = BookingStatus.PENDING)
  || bool_decide (Booking.status b = BookingStatus.CONFIRMED).

(** The [bookings] relation of a slot, filtered to PENDING and CONFIRMED. *)
Definition activeBookings (db : Db) (slotId : string) : list (string * Booking.t) :=
  Prisma.findMany
    (fun _ b => bool_decide (Booking.slotId b = slotId) && isActive b)
    (bookings db).

(** [checkSlotAvailability(slotId)]; [now] is the clock at the call. *)
Definition checkSlotAvailability (now : Z) (slotId : string) : M SlotAvailability :=
  db ← get;
  match slots db !! slotId with
  | None => mret (mkAvail false (Some "Slot not found") None)
  | Some slot =>
      if negb (bool_decide (Slot.status slot = AVAILABLE)) then
        mret (mkAvail false
                (Some ("Slot is " ++ JS.toLowerCase (SlotStatus_name (Slot.status slot))))
                (Some (view slotId slot)))
      else if (0 <? length (activeBookings db slotId))%nat then
        mret (mkAvail false (Some "Slot already has an active booking")
                (Some (view slotId slot)))
      else
        let slotStartDate := JS.Date_new (Slot.startTime slot) in
        if JS.Date_lt slotStartDate (Some now) then
          mret (mkAvail false (Some "Cannot book a past slot") (Some (view slotId slot)))
        else
          mret (mkAvail true None (Some (view slotId slot)))
  end.

(** [calculatePrice(startTime, endTime, pricePerHour)] on the "HH:mm"
    strings that the store holds. *)
Definition calculatePrice (startTime endTime : string) (pricePerHour : JS.number)
  : JS.number :=
  let startParts := JS.split_colon startTime in
  let startHours := JS.nth_number 0 startParts in
  let startMinutes := JS.nth_number 1 startParts in
  let endParts := JS.split_colon endTime in
  let endHours := JS.nth_number 0 endParts in
  let endMinutes := JS.nth_number 1 endParts in
  let startTotalMinutes := JS.add (JS.mul startHours (JS.num 60)) startMinutes in
  let endTotalMinutes := JS.add (JS.mul endHours (JS.num 60)) endMinutes in
  let durationMinutes := JS.sub endTotalMinutes startTotalMinutes in
  let durationHours := JS.div durationMinutes (JS.num 60) in
  JS.div (JS.Math_round (JS.mul (JS.mul durationHours pricePerHour) (JS.num 100)))
    (JS.num 100).

(** [calculateRefund(slotStartTime, totalPrice)]; [now] is the clock. *)
Definition calculateRefund (now : Z) (slotStartTime : JS.Date) (totalPrice : JS.number)
  : RefundInfo :=
  let hoursUntilStart :=
    JS.div (JS.sub (JS.getTime slotStartTime) (JS.num now)) (JS.num (1000 * 60 * 60)) in
  let '(percentage, reason) :=
    if JS.gt hoursUntilStart (JS.num 24) then
      (100, "Cancelled more than 24 hours before start")
    else if JS.ge hoursUntilStart (JS.num 12) then
      (50, "Cancelled 12-24 hours before start")
    else
      (0, "Cancelled less than 12 hours before start") in
  let amount :=
    JS.div
      (JS.Math_round
         (JS.mul (JS.div (JS.mul totalPrice (JS.num percentage)) (JS.num 100))
            (JS.num 100)))
      (JS.num 100) in
  mkRefund (0 <? percentage) percentage amount reason.

(** [a || b] on an optional string: [undefined] and [""] are falsy. *)
Definition or_default (a : option string) (b : string) : string :=
  match a with
  | Some s => if String.eqb s "" then b else s
  | None => b
  end.

(** [slot.findUnique({where: {id}, include: {venue: true}})]. *)
Definition findSlotWithVenue (slotId : string) : M (option (Slot.t * Venue.t)) :=
  db ← get;
  match slots db !! slotId with
  | None => mret None
  | Some slot =>
      match venues db !! Slot.venueId slot with
      | Some venue => mret (Some (slot, venue))
      | None => throw Prisma.Inconsistent
      end
  end.

(** The body of the transaction of [createBooking]. *)
Definition createBooking_tx (newId slotId userId : string) (totalPrice : JS.number)
  : M BookingResponse :=
  Prisma.transaction (
    _ ← Prisma.slot_update slotId (Slot.set_status BOOKED);
    b ← Prisma.booking_create newId
          (Booking.mk userId slotId BookingStatus.PENDING totalPrice
             PaymentStatus.PENDING None);
    mret (newId, b)).

(** [createBooking({slotId}, userId)]; [newId] is the key the store
    generates for the booking row. *)
Definition createBooking (now : Z) (newId slotId userId : string) : M BookingResponse :=
  availability ← checkSlotAvailability now slotId;
  if negb (available availability) then
    throw (AppError 409 "CONFLICT" (or_default (reason availability) "Slot is not available"))
  else
    slot ← findSlotWithVenue slotId;
    match slot with
    | None => throw (AppError 404 "NOT_FOUND" "Slot not found")
    | Some (slot, venue) =>
        let totalPrice :=
          calculatePrice (Slot.startTime slot) (Slot.endTime slot)
            (Venue.pricePerHour venue) in
        createBooking_tx newId slotId userId totalPrice
    end.

(** [booking.findUnique({where: {id}, include: {slot: {include: {venue}}}})]. *)
Definition findBookingWithSlot (id : string) : M (option (Booking.t * Slot.t)) :=
  db ← get;
  match bookings db !! id with
  | None => mret None
  | Some booking =>
      match slots db !! Booking.slotId booking with
      | Some slot => mret (Some (booking, slot))
      | None => throw Prisma.Inconsistent
      end
  end.

Definition cancel_update (booking : Booking.t) (refundInfo : RefundInfo) (b : Booking.t)
  : Booking.t :=
  Booking.mk (Booking.userId b) (Booking.slotId b) BookingStatus.CANCELLED
    (Booking.totalPrice b)
    (if JS.gt (amount refundInfo) (JS.num 0)
     then PaymentStatus.REFUNDED
     else Booking.paymentStatus booking)
    (Some (amount refundInfo)).

(** [cancelBooking(id, userId, isAdmin)]. *)
Definition cancelBooking (now : Z) (id userId : string) (isAdmin : bool)
  : M BookingResponse :=
  found ← findBookingWithSlot id;
  match found with
  | None => throw (AppError 404 "NOT_FOUND" "Booking not found")
  | Some (booking, slot) =>
      if negb isAdmin && negb (bool_decide (Booking.userId booking = userId)) then
        throw (AppError 403 "FORBIDDEN" "You can only cancel your own bookings")
      else if bool_decide (Booking.status booking = BookingStatus.CANCELLED) then
        throw (AppError 400 "INVALID_STATUS" "Booking is already cancelled")
      else if bool_decide (Booking.status booking = BookingStatus.COMPLETED) then
        throw (AppError 400 "INVALID_STATUS" "Cannot cancel a completed booking")
      else
        let refundInfo :=
          calculateRefund now (JS.Date_new (Slot.startTime slot))
            (Booking.totalPrice booking) in
        Prisma.transaction (
          _ ← Prisma.slot_update (Booking.slotId booking) (Slot.set_status AVAILABLE);
          b ← Prisma.booking_update id (cancel_update booking refundInfo);
          mret (id, b))
  end.

Definition status_update (st : BookingStatus.t) (b : Booking.t) : Booking.t :=
  Booking.mk (Booking.userId b) (Booking.slotId b) st (Booking.totalPrice b)
    (if bool_decide (st = BookingStatus.CONFIRMED)
     then PaymentStatus.PAID
     else Booking.paymentStatus b)
    (Booking.refundAmount b).

(** [updateBookingStatus(id, {status})]. *)
Definition updateBookingStatus (id : string) (st : BookingStatus.t) : M BookingResponse :=
  found ← findBookingWithSlot id;
  match found with
  | None => throw (AppError 404 "NOT_FOUND" "Booking not found")
  | Some _ =>
      b ← Prisma.booking_update id (status_update st);
      mret (id, b)
  end.

(** The answer of [getBookingById]: the row, the summary of its slot, and
    the refund as it is shown. *)
Record BookingDetails := mkDetails {
  det_id : string;
  det_booking : Booking.t;
  det_slot : SlotView;
  det_refundAmount : option Q
}.

(** [x || undefined] on a nullable number: [null], [NaN] and [0] are
    falsy. *)
Definition or_undefined (x : option JS.number) : option Q :=
  match x with
  | Some (Some q) => if Qeq_bool q 0 then None else Some q
  | _ => None
  end.

(** [getBookingById(id, requestUserId, isAdmin)]; the query includes the
    user of the booking and its slot with the venue. *)
Definition getBookingById (id requestUserId : string) (isAdmin : bool) : M BookingDetails :=
  db ← get;
  match bookings db !! id with
  | None => throw (AppError 404 "NOT_FOUND" "Booking not found")
  | Some booking =>
      match users db !! Booking.userId booking, slots db !! Booking.slotId booking with
      | Some _, Some slot =>
          match venues db !! Slot.venueId slot with
          | Some _ =>
              if negb isAdmin && negb (bool_decide (Booking.userId booking = requestUserId))
              then throw (AppError 403 "FORBIDDEN" "You can only view your own bookings")
              else
                mret (mkDetails id booking (view (Booking.slotId booking) slot)
                        (or_undefined (Booking.refundAmount booking)))
          | None => throw Prisma.Inconsistent
          end
      | _, _ => throw Prisma.Inconsistent
      end
  end.

End BookingService.

(** ** ReviewService *)

Module ReviewService.

Record CreateReviewInput := mkInput {
  in_venueId : string;
  in_rating : Z;
  in_comment : option string
}.

Definition ReviewResponse : Type := string * Review.t.

(** The filter [{userId, status: COMPLETED, slot: {venueId}}] on bookings. *)
Definition completedAt (db : Db) (userId venueId : string) (b : Booking.t) : bool :=
  bool_decide (Booking.userId b = userId)
  && bool_decide (Booking.status b = BookingStatus.COMPLETED)
  && match slots db !! Booking.slotId b with
     | Some slot => bool_decide (Slot.venueId slot = venueId)
     | None => false
     end.

(** [createReview(data, userId)]; [newId] is the key the store generates. *)
Definition createReview (newId : string) (data : CreateReviewInput) (userId : string)
  : M ReviewResponse :=
  db ← get;
  match venues db !! in_venueId data with
  | None => throw (AppError 404 "NOT_FOUND" "Venue not found")
  | Some _ =>
      let existingReview :=
        Prisma.findFirst
          (fun _ r => bool_decide (Review.userId r = userId)
                      && bool_decide (Review.venueId r = in_venueId data))
          (reviews db) in
      match existingReview with
      | Some _ =>
          throw (AppError 409 "DUPLICATE_REVIEW"
                   "You have already reviewed this venue. You can update your existing review.")
      | None =>
          let completedBooking :=
            Prisma.findFirst (fun _ b => completedAt db userId (in_venueId data) b)
              (bookings db) in
          match completedBooking with
          | None =>
              throw (AppError 403 "NO_COMPLETED_BOOKING"
                       "You must have a completed booking at this venue to leave a review")
          | Some _ =>
              r ← Prisma.review_create newId
                    (Review.mk userId (in_venueId data) (in_rating data) (in_comment data));
              mret (newId, r)
          end
      end
  end.

Record UpdateReviewInput := mkUpdateInput {
  up_rating : option Z;
  up_comment : option string
}.

(** [updateReview(id, data, userId, isAdmin)]. *)
Definition updateReview (id : string) (data : UpdateReviewInput) (userId : string)
  (isAdmin : bool) : M ReviewResponse :=
  db ← get;
  match reviews db !! id with
  | None => throw (AppError 404 "NOT_FOUND" "Review not found")
  | Some review =>
      if negb isAdmin && negb (bool_decide (Review.userId review = userId)) then
        throw (AppError 403 "FORBIDDEN" "You can only update your own reviews")
      else
        r ← Prisma.review_update id (up_rating data) (up_comment data);
        mret (id, r)
  end.

(** [deleteReview(id, userId, isAdmin)]; the query includes the venue. *)
Definition deleteReview (id userId : string) (isAdmin : bool) : M unit :=
  db ← get;
  match reviews db !! id with
  | None => throw (AppError 404 "NOT_FOUND" "Review not found")
  | Some review =>
      match venues db !! Review.venueId review with
      | None => throw Prisma.Inconsistent
      | Some _ =>
          if negb isAdmin && negb (bool_decide (Review.userId review = userId)) then
            throw (AppError 403 "FORBIDDEN" "You can only delete your own reviews")
          else
            _ ← Prisma.review_delete id;
            mret tt
      end
  end.

(** The counts of the ratings 1 to 5. *)
Record Distribution := mkDist {
  stars1 : nat;
  stars2 : nat;
  stars3 : nat;
  stars4 : nat;
  stars5 : nat
}.

Record ReviewStats := mkStats {
  totalReviews : nat;
  averageRating : JS.number;
  ratingDistribution : Distribution
}.

(** The ratings of the reviews under [where: {venueId}]. *)
Definition ratingsOf (db : Db) (venueId : string) : list Z :=
  map (fun kv : string * Review.t => Review.rating kv.2)
    (Prisma.findMany (fun _ r => bool_decide (Review.venueId r = venueId)) (reviews db)).

(** [aggregate({_avg: {rating: true}})]: [null] over no row. *)
Definition avg (l : list Z) : option Q :=
  match l with
  | [] => None
  | _ => Some (inject_Z (foldr Z.add 0%Z l) / inject_Z (Z.of_nat (length l)))%Q
  end.

(** [groupBy({by: ['rating'], _count: {rating: true}})]: one item for each
    rating that occurs, with the number of its rows. *)
Definition groupBy (l : list Z) : list (Z * nat) :=
  map (fun r => (r, count_occ Z.eq_dec l r)) (remove_dups l).

(** The body of the [forEach] over the groups. *)
Definition setCount (d : Distribution) (item : Z * nat) : Distribution :=
  if (1 <=? item.1) && (item.1 <=? 5) then
    match item.1 with
    | 1 => mkDist item.2 (stars2 d) (stars3 d) (stars4 d) (stars5 d)
    | 2 => mkDist (stars1 d) item.2 (stars3 d) (stars4 d) (stars5 d)
    | 3 => mkDist (stars1 d) (stars2 d) item.2 (stars4 d) (stars5 d)
    | 4 => mkDist (stars1 d) (stars2 d) (stars3 d) item.2 (stars5 d)
    | _ => mkDist (stars1 d) (stars2 d) (stars3 d) (stars4 d) item.2
    end
  else d.

(** [getReviewStats(venueId)]. *)
Definition getReviewStats (venueId : string) : M ReviewStats :=
  db ← get;
  match venues db !! venueId with
  | None => throw (AppError 404 "NOT_FOUND" "Venue not found")
  | Some _ =>
      let ratings := ratingsOf db venueId in
      let totalReviews := length ratings in
      if (totalReviews =? 0)%nat then
        mret (mkStats 0 (JS.num 0) (mkDist 0 0 0 0 0))
      else
        let averageRating :=
          match avg ratings with
          | Some q => if Qeq_bool q 0 then JS.num 0 else Some q
          | None => JS.num 0
          end in
        let ratingDistribution := foldl setCount (mkDist 0 0 0 0 0) (groupBy ratings) in
        mret (mkStats totalReviews
                (JS.div (JS.Math_round (JS.mul averageRating (JS.num 10))) (JS.num 10))
                ratingDistribution)
  end.

End ReviewService.

(** ** SlotService *)

Module SlotService.

Record TimeSlot := mkTimeSlot {
  ts_startTime : string;
  ts_endTime : string
}.

Record CreateBulkSlotsInput := mkBulk {
  in_venueId : string;
  in_dates : list string;
  in_timeSlots : list TimeSlot;
  in_status : option SlotStatus
}.

(** An element of [slotsToCreate]. *)
Record SlotData := mkData {
  sd_venueId : string;
  sd_date : JS.Date;
  sd_startTime : string;
  sd_endTime : string;
  sd_status : SlotStatus
}.

Record BulkResponse := mkResp {
  created : nat;
  created_slots : list (string * Slot.t)
}.

(** The interval test of the loop of [hasSlotOverlap], on the strings. *)
Definition overlaps (startTimeStr endTimeStr : string) (slot : Slot.t) : bool :=
  let slotStart := Slot.startTime slot in
  let slotEnd := Slot.endTime slot in
  (JS.str_lt startTimeStr slotEnd && JS.str_gt endTimeStr slotStart)
  || (JS.str_le startTimeStr slotStart && JS.str_ge endTimeStr slotEnd).

(** [id: excludeSlotId ? { not: excludeSlotId } : undefined]; the empty
    string is falsy. *)
Definition idFilter (excludeSlotId : option string) (id : string) : bool :=
  match excludeSlotId with
  | Some x => if String.eqb x "" then true else negb (String.eqb id x)
  | None => true
  end.

(** The [where] clause of the query of [hasSlotOverlap]; [day] is the
    calendar day of the DATE argument. *)
Definition onDate (venueId : string) (day : Z) (excludeSlotId : option string)
  (id : string) (slot : Slot.t) : bool :=
  bool_decide (Slot.venueId slot = venueId)
  && (Slot.date slot =? day)
  && idFilter excludeSlotId id.

(** [hasSlotOverlap(venueId, startTime, endTime, excludeSlotId?)]. *)
Definition hasSlotOverlap (venueId : string) (startTime endTime : JS.Date)
  (excludeSlotId : option string) : M bool :=
  let date := JS.Date_setHours startTime (JS.num 0) (JS.num 0) in
  let startTimeStr := JS.toTimeString5 startTime in
  let endTimeStr := JS.toTimeString5 endTime in
  match date with
  | None => throw Prisma.Validation
  | Some d =>
      db ← get;
      let slotsOnDate :=
        Prisma.findMany (onDate venueId (d / JS.msPerDay) excludeSlotId) (slots db) in
      mret (existsb (fun kv => overlaps startTimeStr endTimeStr kv.2) slotsOnDate)
  end.

(** [checkSlotOverlap]: the throwing form. *)
Definition checkSlotOverlap (venueId : string) (startTime endTime : JS.Date)
  (excludeSlotId : option string) : M unit :=
  hasOverlap ← hasSlotOverlap venueId startTime endTime excludeSlotId;
  if hasOverlap : bool
  then throw (AppError 409 "CONFLICT" "Time slot overlaps with existing slot")
  else mret tt.

(** The body of the generation loop of [createBulkSlots] for one date and
    one template.  The local [endTime], moved to the next day when it is
    not after [startTime], is not part of the element pushed. *)
Definition generateOne (data : CreateBulkSlotsInput) (dateStr : string) (timeSlot : TimeSlot)
  : SlotData :=
  let startParts := JS.split_colon (ts_startTime timeSlot) in
  let startHour := JS.nth_number 0 startParts in
  let startMinute := JS.nth_number 1 startParts in
  let endParts := JS.split_colon (ts_endTime timeSlot) in
  let endHour := JS.nth_number 0 endParts in
  let endMinute := JS.nth_number 1 endParts in
  let startTime := JS.Date_setHours (JS.Date_new dateStr) startHour startMinute in
  let endTime := JS.Date_setHours (JS.Date_new dateStr) endHour endMinute in
  let endTime :=
    if JS.Date_le endTime startTime then JS.Date_addDays endTime 1 else endTime in
  mkData (in_venueId data) (JS.Date_new dateStr) (ts_startTime timeSlot)
    (ts_endTime timeSlot) (default AVAILABLE (in_status data)).

(** [slotsToCreate]: the dates in order, and the templates within a date. *)
Definition slotsToCreate (data : CreateBulkSlotsInput) : list SlotData :=
  flat_map (fun dateStr => map (generateOne data dateStr) (in_timeSlots data))
    (in_dates data).

(** The overlap check of one element, the first step of its callback. *)
Definition checkOne (slotData : SlotData) : M bool :=
  let startParts := JS.split_colon (sd_startTime slotData) in
  let startHour := JS.nth_number 0 startParts in
  let startMin := JS.nth_number 1 startParts in
  let endParts := JS.split_colon (sd_endTime slotData) in
  let endHour := JS.nth_number 0 endParts in
  let endMin := JS.nth_number 1 endParts in
  let startDate := JS.Date_setHours (sd_date slotData) startHour startMin in
  let endDate := JS.Date_setHours (sd_date slotData) endHour endMin in
  hasSlotOverlap (sd_venueId slotData) startDate endDate None.

(** The row that [slot.create({data: slotData})] writes. *)
Definition row (slotData : SlotData) : option Slot.t :=
  match sd_date slotData with
  | Some d =>
      Some (Slot.mk (sd_venueId slotData) (d / JS.msPerDay) (sd_startTime slotData)
              (sd_endTime slotData) (sd_status slotData))
  | None => None
  end.

(** The rest of a callback, once its overlap check has answered:
    [null] on an overlap, else the created row. *)
Definition createOne (newId : string) (slotData : SlotData) (hasOverlap : result bool)
  : M (option (string * Slot.t)) :=
  match hasOverlap with
  | Err e => throw e
  | Ok true => mret None
  | Ok false =>
      match row slotData with
      | Some r => s ← Prisma.slot_create newId r; mret (Some (newId, s))
      | None => throw Prisma.Validation
      end
  end.

(** The callbacks run to completion one after the other; a rejected one
    does not stop the others.  [newId i] is the key generated for the
    element at position [i]. *)
Fixpoint settle (newId : nat -> string) (i : nat) (l : list (SlotData * result bool))
  (db : Db) : Db * list (result (option (string * Slot.t))) :=
  match l with
  | [] => (db, [])
  | (slotData, hasOverlap) :: l' =>
      let '(db1, r) := createOne (newId i) slotData hasOverlap db in
      let '(db2, rs) := settle newId (S i) l' db1 in
      (db2, r :: rs)
  end.

(** [Promise.all]: the values, or a rejection when one promise rejects. *)
Fixpoint Promise_all {A : Type} (rs : list (result A)) : result (list A) :=
  match rs with
  | [] => Ok []
  | Ok a :: rs' =>
      match Promise_all rs' with
      | Ok l => Ok (a :: l)
      | Err e => Err e
      end
  | Err e :: _ => Err e
  end.

(** [createBulkSlots(data, userId)].  [slotsToCreate.map(async ...)] starts
    every callback before any of them resumes, so every overlap query reads
    the store as it is before the first row of the batch is created. *)
Definition createBulkSlots (newId : nat -> string) (data : CreateBulkSlotsInput)
  (userId : string) : M BulkResponse :=
  db ← get;
  match venues db !! in_venueId data with
  | None => throw (AppError 404 "NOT_FOUND" "Venue not found")
  | Some _ =>
      match users db !! userId with
      | None => throw (AppError 404 "NOT_FOUND" "User not found")
      | Some user =>
          if negb (bool_decide (User.role user = ADMIN)) then
            throw (AppError 403 "FORBIDDEN" "Only admin can create slots")
          else
            let checked :=
              map (fun slotData => (slotData, (checkOne slotData db).2))
                (slotsToCreate data) in
            fun db0 =>
              let '(db', results) := settle newId 0 checked db0 in
              match Promise_all results with
              | Err e => (db', Err e)
              | Ok results =>
                  let createdSlots := omap id results in
                  (db', Ok (mkResp (length createdSlots) createdSlots))
              end
      end
  end.

Record CreateSlotInput := mkCreate {
  cs_venueId : string;
  cs_startTime : string;
  cs_endTime : string;
  cs_status : option SlotStatus
}.

Record UpdateSlotInput := mkUpdate {
  us_startTime : option string;
  us_endTime : option string;
  us_status : option SlotStatus
}.

(** A slot row with its key and the [isBooked] flag of the answer. *)
Record SlotResponse := mkSlotResponse {
  sr_id : string;
  sr_slot : Slot.t;
  isBooked : bool
}.

(** [slot.bookings.some(b => b.status === 'CONFIRMED' || b.status === 'PENDING')]
    over the bookings relation of the slot. *)
Definition someActive (db : Db) (slotId : string) : bool :=
  existsb
    (fun kv : string * Booking.t =>
       bool_decide (Booking.status kv.2 = BookingStatus.CONFIRMED)
       || bool_decide (Booking.status kv.2 = BookingStatus.PENDING))
    (Prisma.findMany (fun _ b => bool_decide (Booking.slotId b = slotId)) (bookings db)).

(** [getSlotById(id)]; the query includes the venue and the bookings. *)
Definition getSlotById (id : string) : M SlotResponse :=
  db ← get;
  match slots db !! id with
  | None => throw (AppError 404 "NOT_FOUND" "Slot not found")
  | Some slot =>
      match venues db !! Slot.venueId slot with
      | None => throw Prisma.Inconsistent
      | Some _ => mret (mkSlotResponse id slot (someActive db id))
      end
  end.

(** [createSlot(data, userId)]; [newId] is the key the store generates.
    The DATE column keeps the calendar day of the date it is given. *)
Definition createSlot (newId : string) (data : CreateSlotInput) (userId : string)
  : M SlotResponse :=
  db ← get;
  match venues db !! cs_venueId data with
  | None => throw (AppError 404 "NOT_FOUND" "Venue not found")
  | Some _ =>
      match users db !! userId with
      | None => throw (AppError 404 "NOT_FOUND" "User not found")
      | Some user =>
          if negb (bool_decide (User.role user = ADMIN)) then
            throw (AppError 403 "FORBIDDEN" "Only admin can create slots")
          else
            _ ← checkSlotOverlap (cs_venueId data) (JS.Date_new (cs_startTime data))
                  (JS.Date_new (cs_endTime data)) None;
            match JS.Date_new (cs_startTime data) with
            | None => throw Prisma.Validation
            | Some t =>
                slot ← Prisma.slot_create newId
                         (Slot.mk (cs_venueId data) (t / JS.msPerDay)
                            (JS.toTimeString5 (JS.Date_new (cs_startTime data)))
                            (JS.toTimeString5 (JS.Date_new (cs_endTime data)))
                            (default AVAILABLE (cs_status data)));
                mret (mkSlotResponse newId slot false)
            end
      end
  end.

(** The truth value of an optional string: [undefined] and [""] are
    falsy. *)
Definition truthy (s : option string) : bool :=
  match s with
  | Some s => negb (String.eqb s "")
  | None => false
  end.

(** [updateData] of [updateSlot], as the change it makes to the row; the
    client rejects an Invalid Date for the DATE column. *)
Definition updateData (data : UpdateSlotInput) : option (Slot.t -> Slot.t) :=
  let setStart : option (Slot.t -> Slot.t) :=
    if truthy (us_startTime data) then
      let startDate := JS.Date_new (default "" (us_startTime data)) in
      match startDate with
      | Some t =>
          Some (fun s => Slot.mk (Slot.venueId s) (t / JS.msPerDay)
                           (JS.toTimeString5 startDate) (Slot.endTime s) (Slot.status s))
      | None => None
      end
    else Some (fun s => s) in
  let setEnd (s : Slot.t) : Slot.t :=
    if truthy (us_endTime data) then
      let endDate := JS.Date_new (default "" (us_endTime data)) in
      Slot.mk (Slot.venueId s) (Slot.date s) (Slot.startTime s)
        (JS.toTimeString5 endDate) (Slot.status s)
    else s in
  let setStatus (s : Slot.t) : Slot.t :=
    match us_status data with
    | Some st => Slot.set_status st s
    | None => s
    end in
  match setStart with
  | Some f => Some (fun s => setStatus (setEnd (f s)))
  | None => None
  end.

(** [updateSlot(id, data, userId)]. *)
Definition updateSlot (id : string) (data : UpdateSlotInput) (userId : string)
  : M SlotResponse :=
  db ← get;
  match slots db !! id with
  | None => throw (AppError 404 "NOT_FOUND" "Slot not found")
  | Some slot =>
      match venues db !! Slot.venueId slot with
      | None => throw Prisma.Inconsistent
      | Some _ =>
          let slotBookings := BookingService.activeBookings db id in
          match users db !! userId with
          | None => throw (AppError 404 "NOT_FOUND" "User not found")
          | Some user =>
              if negb (bool_decide (User.role user = ADMIN)) then
                throw (AppError 403 "FORBIDDEN" "Only admin can update slots")
              else if (0 <? length slotBookings)%nat
                      && (truthy (us_startTime data) || truthy (us_endTime data)) then
                throw (AppError 400 "BAD_REQUEST" "Cannot modify time of a booked slot")
              else
                _ ← (if truthy (us_startTime data) || truthy (us_endTime data) then
                       let currentDate : JS.Date := Some (Slot.date slot * JS.msPerDay) in
                       let currentStart := JS.split_colon (Slot.startTime slot) in
                       let currentEnd := JS.split_colon (Slot.endTime slot) in
                       let currentStartDate :=
                         JS.Date_setHours currentDate (JS.nth_number 0 currentStart)
                           (JS.nth_number 1 currentStart) in
                       let currentEndDate :=
                         JS.Date_setHours currentDate (JS.nth_number 0 currentEnd)
                           (JS.nth_number 1 currentEnd) in
                       let newStartTime :=
                         if truthy (us_startTime data)
                         then JS.Date_new (default "" (us_startTime data))
                         else currentStartDate in
                       let newEndTime :=
                         if truthy (us_endTime data)
                         then JS.Date_new (default "" (us_endTime data))
                         else currentEndDate in
                       checkSlotOverlap (Slot.venueId slot) newStartTime newEndTime (Some id)
                     else mret tt);
                match updateData data with
                | None => throw Prisma.Validation
                | Some f =>
                    updatedSlot ← Prisma.slot_update id f;
                    db' ← get;
                    mret (mkSlotResponse id updatedSlot (someActive db' id))
                end
          end
      end
  end.

(** [deleteSlot(id, userId)]. *)
Definition deleteSlot (id userId : string) : M unit :=
  db ← get;
  match slots db !! id with
  | None => throw (AppError 404 "NOT_FOUND" "Slot not found")
  | Some slot =>
      match venues db !! Slot.venueId slot with
      | None => throw Prisma.Inconsistent
      | Some _ =>
          let slotBookings := BookingService.activeBookings db id in
          match users db !! userId with
          | None => throw (AppError 404 "NOT_FOUND" "User not found")
          | Some user =>
              if negb (bool_decide (User.role user = ADMIN)) then
                throw (AppError 403 "FORBIDDEN" "Only admin can delete slots")
              else if (0 <? length slotBookings)%nat then
                throw (AppError 400 "BAD_REQUEST" "Cannot delete a booked slot")
              else
                _ ← Prisma.slot_delete id;
                mret tt
          end
      end
  end.

End SlotService.

(** ** Racing calls of createBooking *)

Module Race.
Import BookingService.

(** A call of [createBooking] is suspended at each [await]: before the
    availability query, before the second read of the slot, and before the
    transaction.  Between two suspensions it runs alone. *)
Inductive Call :=
  | Start (newId slotId userId : string)
  | Checked (newId slotId userId : string)
  | Priced (newId slotId userId : string) (totalPrice : JS.number)
  | Done (r : result BookingResponse).

(** The call runs up to its next suspension. *)
Definition step (now : Z) (c : Call) (db : Db) : Db * Call :=
  match c with
  | Start newId slotId userId =>
      match checkSlotAvailability now slotId db with
      | (db', Ok availability) =>
          if negb (available availability) then
            (db', Done (Err (AppError 409 "CONFLICT"
                               (or_default (reason availability) "Slot is not available"))))
          else (db', Checked newId slotId userId)
      | (db', Err e) => (db', Done (Err e))
      end
  | Checked newId slotId userId =>
      match findSlotWithVenue slotId db with
      | (db', Ok None) => (db', Done (Err (AppError 404 "NOT_FOUND" "Slot not found")))
      | (db', Ok (Some (slot, venue))) =>
          (db', Priced newId slotId userId
                  (calculatePrice (Slot.startTime slot) (Slot.endTime slot)
                     (Venue.pricePerHour venue)))
      | (db', Err e) => (db', Done (Err e))
      end
  | Priced newId slotId userId totalPrice =>
      let '(db', r) := createBooking_tx newId slotId userId totalPrice db in
      (db', Done r)
  | Done r => (db, Done r)
  end.

(** A schedule names, turn by turn, the call that runs next. *)
Fixpoint run (now : Z) (schedule : list nat) (db : Db) (calls : list Call)
  : Db * list Call :=
  match schedule with
  | [] => (db, calls)
  | i :: schedule' =>
      match calls !! i with
      | Some c =>
          let '(db', c') := step now c db in
          run now schedule' db' (<[i := c']> calls)
      | None => run now schedule' db calls
      end
  end.

Definition succeeded (c : Call) : bool :=
  match c with
  | Done (Ok _) => true
  | _ => false
  end.

End Race.

(** ** Terms of the specification *)

Module Spec.

(** A review by this user for this venue exists. *)
Definition has_review (db : Db) (userId venueId : string) : Prop :=
  exists id r, reviews db !! id = Some r
               /\ Review.userId r = userId /\ Review.venueId r = venueId.

(** The user has a COMPLETED booking whose slot belongs to the venue. *)
Definition has_completed_booking (db : Db) (userId venueId : string) : Prop :=
  exists id b s, bookings db !! id = Some b
                 /\ Booking.userId b = userId
                 /\ Booking.status b = BookingStatus.COMPLETED
                 /\ slots db !! Booking.slotId b = Some s
                 /\ Slot.venueId s = venueId.

(** An active booking is PENDING or CONFIRMED. *)
Definition active (b : Booking.t) : Prop :=
  Booking.status b = BookingStatus.PENDING \/ Booking.status b = BookingStatus.CONFIRMED.

(** The slot has an active booking. *)
Definition has_active_booking (db : Db) (slotId : string) : Prop :=
  exists id b, bookings db !! id = Some b /\ Booking.slotId b = slotId /\ active b.

(** The call failed with an error of the given kind and wrote nothing. *)
Definition fails {A : Type} (db : Db) (r : Db * result A) (k : Kind) : Prop :=
  r.1 = db /\ exists e, r.2 = Err e /\ kind_of e = k.

(** Rounding to cents, a tie going up: the multiple [k/100] of a cent
    with [k - 1/2 <= 100 x < k + 1/2]. *)
Definition rounds_to_cents (x r : Q) : Prop :=
  exists k : Z, (r == inject_Z k / 100)%Q
                /\ (inject_Z k - (1 # 2) <= x * 100)%Q
                /\ (x * 100 < inject_Z k + (1 # 2))%Q.

(** [round(x, 2)]. *)
Definition round2 (x : Q) : Q := (inject_Z (Qfloor (x * 100 + (1 # 2))) / 100)%Q.

(** The refund percentage of the policy for [h] hours until the start. *)
Definition refund_percentage (h : Q) : Z :=
  if Qlt_le_dec 24 h then 100 else if Qlt_le_dec h 12 then 0 else 50.

(** A time of day on the whole minute. *)
Definition is_time (h m : Z) : Prop := 0 <= h < 24 /\ 0 <= m < 60.

(** ["9:00"]: the hour on one digit, as a template of the bulk request may
    spell it. *)
Definition unpadded (h m : Z) : string :=
  String (JS.digit_char h) (":" ++ JS.pad2 m).

(** [s] spells the time of day [h]:[m], the hour on two digits or, below
    ten, on one. *)
Definition time_string (s : string) (h m : Z) : Prop :=
  is_time h m /\ (s = JS.HHMM h m \/ (h < 10 /\ s = unpadded h m)).

(** [s] is the zero-padded ["HH:MM"] of the minute [t] of the day. *)
Definition padded_time (s : string) (t : Z) : Prop :=
  exists h m, is_time h m /\ s = JS.HHMM h m /\ t = 60 * h + m.

(** [s] splits at the colon into the decimal numerals of [h] and [m]. *)
Definition fields_ok (s : string) (h m : Z) : bool :=
  match JS.split_colon s with
  | [a; b] =>
      bool_decide (JS.digits_val 0 (list_ascii_of_string a) = Some h)
      && bool_decide (JS.digits_val 0 (list_ascii_of_string b) = Some m)
  | _ => false
  end.

(** The minute of the day and the calendar day of a time value. *)
Definition minuteOfDay (t : Z) : Z := t mod JS.msPerDay / JS.msPerMinute.
Definition dayOf (t : Z) : Z := t / JS.msPerDay.

(** The slot [id] is not the one to leave out. *)
Definition not_excluded (excludeSlotId : option string) (id : string) : Prop :=
  forall x, excludeSlotId = Some x -> x <> "" -> id <> x.

(** A stored slot that the overlap check looks at: of the venue, on the
    day, and not the one to leave out. *)
Definition compared (db : Db) (venueId : string) (day : Z)
  (excludeSlotId : option string) (id : string) (slot : Slot.t) : Prop :=
  slots db !! id = Some slot
  /\ Slot.venueId slot = venueId
  /\ Slot.date slot = day
  /\ not_excluded excludeSlotId id.

(** The test the code makes, on minutes of the day: the intervals cross,
    or the candidate covers the stored slot. *)
Definition crosses_or_covers (cs ce es ee : Z) : Prop :=
  (cs < ee /\ es < ce) \/ (cs <= es /\ ee <= ce).

(** The overlap rule as the specification words it: the intervals cross,
    or one fully contains the other. *)
Definition claimed_overlap (cs ce es ee : Z) : Prop :=
  (cs < ee /\ ce > es) \/ (cs <= es /\ ce >= ee) \/ (es <= cs /\ ee >= ce).

(** The price of the specification for a slot from minute [startMinutes]
    to minute [endMinutes] at [pricePerHour]. *)
Definition price (startMinutes endMinutes : Z) (pricePerHour : Q) : Q :=
  round2 (inject_Z (endMinutes - startMinutes) / 60 * pricePerHour).

(** The requester may cancel: the owner of the booking, or an admin. *)
Definition authorized (b : Booking.t) (userId : string) (isAdmin : bool) : Prop :=
  isAdmin = true \/ Booking.userId b = userId.

(** The row that a cancellation leaves: CANCELLED, with the computed
    refund, and REFUNDED when the refund is positive. *)
Definition cancelled (now : Z) (b : Booking.t) (slot : Slot.t) : Booking.t :=
  let refund :=
    BookingService.amount
      (BookingService.calculateRefund now (JS.Date_new (Slot.startTime slot))
         (Booking.totalPrice b)) in
  Booking.mk (Booking.userId b) (Booking.slotId b) BookingStatus.CANCELLED
    (Booking.totalPrice b)
    (if JS.gt refund (JS.num 0) then PaymentStatus.REFUNDED else Booking.paymentStatus b)
    (Some refund).

(** The overlap check of the element, on the store given, answers true. *)
Definition collides (db : Db) (slotData : SlotService.SlotData) : bool :=
  match (SlotService.checkOne slotData db).2 with
  | Ok b => b
  | Err _ => false
  end.

(** The element of the product for a date and a template. *)
Definition candidate (data : SlotService.CreateBulkSlotsInput) (dateStr : string)
  (timeSlot : SlotService.TimeSlot) : SlotService.SlotData :=
  SlotService.mkData (SlotService.in_venueId data) (JS.Date_new dateStr)
    (SlotService.ts_startTime timeSlot) (SlotService.ts_endTime timeSlot)
    (default AVAILABLE (SlotService.in_status data)).

(** The product of the dates and the templates, the dates first. *)
Definition product (data : SlotService.CreateBulkSlotsInput) : list SlotService.SlotData :=
  flat_map (fun dateStr => map (candidate data dateStr) (SlotService.in_timeSlots data))
    (SlotService.in_dates data).

(** The row of the element at position [i], when it collides with nothing. *)
Definition created_row (newId : nat -> string) (db : Db)
  (ic : nat * SlotService.SlotData) : option (string * Slot.t) :=
  if collides db ic.2 then None
  else r ← SlotService.row ic.2; Some (newId ic.1, r).

(** The value the callback of an element resolves to, given the answer of
    its overlap check: [null] on an overlap, else the row. *)
Definition resolved (newId : nat -> string) (icb : nat * (SlotService.SlotData * bool))
  : option (string * Slot.t) :=
  if icb.2.2 then None else r ← SlotService.row icb.2.1; Some (newId icb.1, r).

(** The rows of the elements that collide with nothing, in order. *)
Definition created_rows (newId : nat -> string) (db : Db)
  (candidates : list SlotService.SlotData) : list (string * Slot.t) :=
  omap (created_row newId db) (zip (seq 0 (length candidates)) candidates).

(** The table after the rows are inserted one after the other. *)
Definition insert_all {A : Type} (rows : list (string * A)) (table : gmap string A)
  : gmap string A :=
  foldl (fun m kr => <[kr.1 := kr.2]> m) table rows.

End Spec.

(** ** Sample stores *)

Module Sample.

(** 2025-06-15, in days since the epoch. *)
Definition day : Z := 20254.

(** 2025-06-15T10:00:00Z, in milliseconds since the epoch. *)
Definition slotStart : Z := 1749981600000.

Definition theUsers : gmap string User.t :=
  {[ "u1" := User.mk USER; "u2" := User.mk USER; "a1" := User.mk ADMIN ]}.

Definition theVenues : gmap string Venue.t :=
  {[ "v1" := Venue.mk (JS.num 40) true ]}.

Definition s1 (st : SlotStatus) : Slot.t := Slot.mk "v1" day "10:00" "12:00" st.

Definition b1 (st : BookingStatus.t) : Booking.t :=
  Booking.mk "u1" "s1" st (JS.num 80) PaymentStatus.PENDING None.

(** One venue at 40.00 an hour with one free slot, 10:00 to 12:00. *)
Definition db_free : Db :=
  mkDb theUsers theVenues {[ "s1" := s1 AVAILABLE ]} ∅ ∅.

(** The slot booked by [u1], the booking PENDING. *)
Definition db_booked : Db :=
  mkDb theUsers theVenues {[ "s1" := s1 BOOKED ]}
    {[ "b1" := b1 BookingStatus.PENDING ]} ∅.

(** The booking of [u1] COMPLETED. *)
Definition db_completed : Db :=
  mkDb theUsers theVenues {[ "s1" := s1 AVAILABLE ]}
    {[ "b1" := b1 BookingStatus.COMPLETED ]} ∅.

(** A free slot on 2020-01-01. *)
Definition db_past : Db :=
  mkDb theUsers theVenues
    {[ "s1" := Slot.mk "v1" 18262 "10:00" "11:00" AVAILABLE ]} ∅ ∅.

(** The same venue with a second free slot in the evening, 22:00 to 23:30. *)
Definition db_evening : Db :=
  mkDb theUsers theVenues
    {[ "s1" := s1 AVAILABLE; "s2" := Slot.mk "v1" day "22:00" "23:30" AVAILABLE ]} ∅ ∅.

(** The time value of [h]:[m] on the sample day. *)
Definition at_ (h m : Z) : Z := day * JS.msPerDay + h * JS.msPerHour + m * JS.msPerMinute.

(** A bulk request: three templates over two days, the second template of
    the first day being the stored slot. *)
Definition bulk : SlotService.CreateBulkSlotsInput :=
  SlotService.mkBulk "v1" ["2025-06-15"; "2025-06-16"]
    [SlotService.mkTimeSlot "08:00" "10:00";
     SlotService.mkTimeSlot "10:00" "12:00";
     SlotService.mkTimeSlot "12:00" "14:00"]
    None.

(** The keys the store generates for the rows of a batch. *)
Definition newId (i : nat) : string :=
  nth i ["n0"; "n1"; "n2"; "n3"; "n4"; "n5"] "n".

(** A bulk request with one template that ends before it starts. *)
Definition overnight : SlotService.CreateBulkSlotsInput :=
  SlotService.mkBulk "v1" ["2025-06-15"] [SlotService.mkTimeSlot "23:00" "01:00"] None.

End Sample.

(** ** The request schema of createSlot (slot.types) *)

Module SlotTypes.

(** The first refinement of [CreateSlotSchema]: [end > start]. *)
Definition endAfterStart (startTime endTime : string) : bool :=
  let start := JS.Date_new startTime in
  let end_ := JS.Date_new endTime in
  JS.gt (JS.getTime end_) (JS.getTime start).

(** The second refinement: the duration in minutes is between 30 and 480. *)
Definition durationInRange (startTime endTime : string) : bool :=
  let start := JS.Date_new startTime in
  let end_ := JS.Date_new endTime in
  let duration :=
    JS.div (JS.sub (JS.getTime end_) (JS.getTime start)) (JS.num (1000 * 60)) in
  JS.ge duration (JS.num 30) && JS.ge (JS.num 480) duration.

(** The refinements of [CreateSlotSchema] on a request; the format of the
    two date-time strings is checked before them. *)
Definition refinements (data : SlotService.CreateSlotInput) : bool :=
  endAfterStart (SlotService.cs_startTime data) (SlotService.cs_endTime data)
  && durationInRange (SlotService.cs_startTime data) (SlotService.cs_endTime data).

End SlotTypes.

(** ** The page of the bookings of a user (client) *)

Module MyBookingsPage.

(** [getRefundInfo(booking)]; [slot] is the start time of [booking.slot]
    when the booking carries its slot, [now] the clock of the browser. *)
Definition getRefundInfo (now : Z) (slot : option string) : string :=
  match slot with
  | None => ""
  | Some slotStartTime =>
      let startTime := JS.Date_new slotStartTime in
      let hoursUntilStart :=
        JS.div (JS.sub (JS.getTime startTime) (JS.num now)) (JS.num (1000 * 60 * 60)) in
      if JS.gt hoursUntilStart (JS.num 24) then "100% возврат средств"
      else if JS.gt hoursUntilStart (JS.num 12) then "50% возврат средств"
      else if JS.gt hoursUntilStart (JS.num 0) then "Возврат не предусмотрен"
      else "Время истекло"
  end.

End MyBookingsPage.

(** ** Invariants of the store *)

Module Invariant.
Import Spec.

(** Every foreign key points to a row. *)
Definition referential (db : Db) : Prop :=
  (forall id b, bookings db !! id = Some b ->
                is_Some (users db !! Booking.userId b)
                /\ is_Some (slots db !! Booking.slotId b))
  /\ (forall id s, slots db !! id = Some s -> is_Some (venues db !! Slot.venueId s))
  /\ (forall id r, reviews db !! id = Some r ->
                   is_Some (users db !! Review.userId r)
                   /\ is_Some (venues db !! Review.venueId r)).

(** A slot has at most one active booking. *)
Definition one_active (db : Db) : Prop :=
  forall i j b b',
    bookings db !! i = Some b -> bookings db !! j = Some b' ->
    active b -> active b' -> Booking.slotId b = Booking.slotId b' -> i = j.

(** The slot of an active booking is BOOKED. *)
Definition booked_while_active (db : Db) : Prop :=
  forall i b s,
    bookings db !! i = Some b -> active b ->
    slots db !! Booking.slotId b = Some s -> Slot.status s = BOOKED.

Definition consistent (db : Db) : Prop := one_active db /\ booked_while_active db.

(** A user has at most one review of a venue. *)
Definition unique_reviews (db : Db) : Prop :=
  forall i j r r',
    reviews db !! i = Some r -> reviews db !! j = Some r' ->
    Review.userId r = Review.userId r' -> Review.venueId r = Review.venueId r' -> i = j.

(** The times of every stored slot are zero-padded ["HH:MM"] strings. *)
Definition padded_slots (db : Db) : Prop :=
  forall id s,
    slots db !! id = Some s ->
    exists es ee, padded_time (Slot.startTime s) es /\ padded_time (Slot.endTime s) ee.

End Invariant.

(** ** Terms for the slots an admin manages *)

Module SlotTerms.
Import SlotService Spec.

(** The overlap check finds a stored slot that overlaps the candidate
    from [st] to [en]. *)
Definition flagged (db : Db) (venueId : string) (st : Z) (en : JS.Date)
  (excludeSlotId : option string) : Prop :=
  exists id slot,
    compared db venueId (dayOf st) excludeSlotId id slot
    /\ overlaps (JS.toTimeString5 (Some st)) (JS.toTimeString5 en) slot = true.

(** The row that [createSlot] writes for a request that starts at [st]. *)
Definition created (data : CreateSlotInput) (st : Z) : Slot.t :=
  Slot.mk (cs_venueId data) (dayOf st) (JS.toTimeString5 (Some st))
    (JS.toTimeString5 (JS.Date_new (cs_endTime data)))
    (default AVAILABLE (cs_status data)).

(** The requester is a stored user with the role ADMIN. *)
Definition is_admin (db : Db) (userId : string) : Prop :=
  exists user, users db !! userId = Some user /\ User.role user = ADMIN.

End SlotTerms.

(** ** Terms for the statistics of the reviews *)

Module ReviewTerms.
Import ReviewService.

(** The count that a distribution holds for the rating [k]. *)
Definition stars (k : Z) (d : Distribution) : nat :=
  match k with
  | 1 => stars1 d
  | 2 => stars2 d
  | 3 => stars3 d
  | 4 => stars4 d
  | 5 => stars5 d
  | _ => 0%nat
  end.

(** The sum of the five counts. *)
Definition allStars (d : Distribution) : nat :=
  (stars1 d + stars2 d + stars3 d + stars4 d + stars5 d)%nat.

(** The mean of a list of ratings. *)
Definition mean (l : list Z) : Q :=
  (inject_Z (foldr Z.add 0%Z l) / inject_Z (Z.of_nat (length l)))%Q.

(** Every review of the venue carries a rating from 1 to 5. *)
Definition ratings_in_range (db : Db) (venueId : string) : Prop :=
  forall id r,
    reviews db !! id = Some r -> Review.venueId r = venueId -> 1 <= Review.rating r <= 5.

End ReviewTerms.

(** ** More sample stores *)

Module Cases.

(** The sample venue with a completed booking of [u1] and two reviews. *)
Definition db_reviewed : Db :=
  mkDb Sample.theUsers Sample.theVenues {[ "s1" := Sample.s1 AVAILABLE ]}
    {[ "b1" := Sample.b1 BookingStatus.COMPLETED ]}
    {[ "r1" := Review.mk "u1" "v1" 4 None;
       "r2" := Review.mk "u2" "v1" 5 (Some "Good lighting") ]}.

(** A free slot with the bookings it had: one cancelled, one completed. *)
Definition db_history : Db :=
  mkDb Sample.theUsers Sample.theVenues {[ "s1" := Sample.s1 AVAILABLE ]}
    {[ "b1" := Sample.b1 BookingStatus.CANCELLED;
       "b2" := Booking.mk "u2" "s1" BookingStatus.COMPLETED (JS.num 80)
                 PaymentStatus.PAID None ]}
    ∅.

End Cases.

(** * Properties *)

(** ** Queries over a table *)

Section Queries.
Context {A : Type}.
Implicit Types (f : string -> A -> bool) (m : gmap string A).

Lemma findMany_elem f m k a :
  (k, a) ∈ Prisma.findMany f m <-> m !! k = Some a /\ f k a = true.
Proof.
  unfold Prisma.findMany.
  rewrite list_elem_of_In, filter_In, <- list_elem_of_In, elem_of_map_to_list.
  reflexivity.
Qed.

Lemma findMany_nil f m :
  Prisma.findMany f m = [] <-> forall k a, m !! k = Some a -> f k a = false.
Proof.
  split.
  - intros Hnil k a Hk. destruct (f k a) eqn:Hf; [|done].
    assert (Hin : (k, a) ∈ Prisma.findMany f m) by (apply findMany_elem; done).
    rewrite Hnil in Hin. by apply elem_of_nil in Hin.
  - intros Hall. destruct (Prisma.findMany f m) as [|[k a] l] eqn:Hl; [done|].
    assert (Hin : (k, a) ∈ Prisma.findMany f m) by (rewrite Hl; left).
    apply findMany_elem in Hin as [Hk Hf]. rewrite (Hall k a Hk) in Hf. done.
Qed.

Lemma findMany_nonempty f m :
  (0 <? length (Prisma.findMany f m))%nat = true
  <-> exists k a, m !! k = Some a /\ f k a = true.
Proof.
  split.
  - destruct (Prisma.findMany f m) as [|[k a] l] eqn:Hl; [done|]. intros _.
    exists k, a. apply findMany_elem. rewrite Hl. left.
  - intros (k & a & Hk & Hf).
    assert (Hin : (k, a) ∈ Prisma.findMany f m) by (apply findMany_elem; done).
    destruct (Prisma.findMany f m); [by apply elem_of_nil in Hin | done].
Qed.

Lemma findFirst_Some f m :
  is_Some (Prisma.findFirst f m) <-> exists k a, m !! k = Some a /\ f k a = true.
Proof.
  unfold Prisma.findFirst. rewrite <- findMany_nonempty.
  destruct (Prisma.findMany f m); simpl; split; intros H; done.
Qed.

Lemma findFirst_None f m :
  Prisma.findFirst f m = None <-> forall k a, m !! k = Some a -> f k a = false.
Proof.
  rewrite <- findMany_nil. unfold Prisma.findFirst.
  destruct (Prisma.findMany f m); simpl; split; intros H; done.
Qed.

Lemma exists_findMany (g : A -> bool) f m :
  existsb (fun kv => g kv.2) (Prisma.findMany f m) = true
  <-> exists k a, m !! k = Some a /\ f k a = true /\ g a = true.
Proof.
  rewrite existsb_exists. split.
  - intros ([k a] & Hin & Hg). apply list_elem_of_In, findMany_elem in Hin as [Hk Hf].
    eauto.
  - intros (k & a & Hk & Hf & Hg). exists (k, a). split; [|done].
    apply list_elem_of_In, findMany_elem. done.
Qed.

End Queries.

(** Unfolds the monad of the services. *)
Ltac run_M :=
  unfold mbind, M_bind, mret, M_ret, throw, get, put in *; simpl in *.

(** ** BookingService: the admin status overwrite *)

Module UpdateStatus.
Import BookingService.

Lemma slots_unchanged (db : Db) (id : string) (st : BookingStatus.t) :
  slots (updateBookingStatus id st db).1 = slots db.
Proof.
  unfold updateBookingStatus, findBookingWithSlot, Prisma.booking_update. run_M.
  destruct (bookings db !! id) as [b|] eqn:Hb; simpl; [|done].
  destruct (slots db !! Booking.slotId b); simpl; [|done].
  rewrite Hb. done.
Qed.

(** C10: for an existing booking and any target status, the status
    overwrite succeeds, rewrites the booking row alone (status, and the
    payment status when the target is CONFIRMED) and leaves every slot,
    the booked one included, as it was: a booking set to CANCELLED this
    way keeps its slot in the status it had. *)
Theorem updateBookingStatus_leaves_slot
  (db : Db) (id : string) (st : BookingStatus.t) (b : Booking.t) (s : Slot.t) :
  bookings db !! id = Some b ->
  slots db !! Booking.slotId b = Some s ->
  exists db' b',
    updateBookingStatus id st db = (db', Ok (id, b'))
    /\ Booking.status b' = st
    /\ Booking.slotId b' = Booking.slotId b
    /\ Booking.userId b' = Booking.userId b
    /\ Booking.totalPrice b' = Booking.totalPrice b
    /\ Booking.refundAmount b' = Booking.refundAmount b
    /\ bookings db' = <[id := b']> (bookings db)
    /\ slots db' = slots db
    /\ slots db' !! Booking.slotId b = Some s
    /\ users db' = users db /\ venues db' = venues db /\ reviews db' = reviews db.
Proof.
  intros Hb Hs.
  unfold updateBookingStatus, findBookingWithSlot, Prisma.booking_update. run_M.
  rewrite Hb. simpl. rewrite Hs. simpl. rewrite Hb.
  eexists _, _. split; [reflexivity|]. simpl. by repeat split.
Qed.

Lemma updateBookingStatus_leaves_slot_witness :
  exists db' b',
    updateBookingStatus "b1" BookingStatus.CANCELLED Sample.db_booked = (db', Ok ("b1", b'))
    /\ Booking.status b' = BookingStatus.CANCELLED
    /\ slots db' !! "s1" = Some (Slot.mk "v1" 20254 "10:00" "12:00" BOOKED).
Proof.
  destruct (updateBookingStatus_leaves_slot Sample.db_booked "b1" BookingStatus.CANCELLED
              (Booking.mk "u1" "s1" BookingStatus.PENDING (JS.num 80)
                 PaymentStatus.PENDING None)
              (Slot.mk "v1" 20254 "10:00" "12:00" BOOKED))
    as (db' & b' & H1 & H2 & _ & _ & _ & _ & _ & _ & H3 & _);
    [reflexivity | reflexivity |].
  exists db', b'. auto.
Defined.

(** The same booking cancelled through [cancelBooking] frees the slot. *)
Example cancelBooking_frees_slot :
  slots (cancelBooking 0 "b1" "u1" false Sample.db_booked).1 !! "s1"
  = Some (Slot.mk "v1" 20254 "10:00" "12:00" AVAILABLE).
Proof. vm_compute. reflexivity. Qed.

End UpdateStatus.

(** ** ReviewService: the review gate *)

Module ReviewGate.
Import ReviewService Spec.

Lemma existing_review_iff (db : Db) (u v : string) :
  is_Some (Prisma.findFirst
             (fun _ r => bool_decide (Review.userId r = u)
                         && bool_decide (Review.venueId r = v))
             (reviews db))
  <-> has_review db u v.
Proof.
  rewrite findFirst_Some. unfold has_review.
  split; intros (k & r & Hk & H); exists k, r.
  - apply andb_prop in H as [H1 H2].
    apply bool_decide_eq_true in H1, H2. done.
  - destruct H as [H1 H2]. split; [done|].
    apply andb_true_intro. by rewrite !bool_decide_eq_true.
Qed.

Lemma completed_booking_iff (db : Db) (u v : string) :
  is_Some (Prisma.findFirst (fun _ b => completedAt db u v b) (bookings db))
  <-> has_completed_booking db u v.
Proof.
  rewrite findFirst_Some. unfold has_completed_booking, completedAt.
  split.
  - intros (k & b & Hk & H).
    apply andb_prop in H as [H H3]. apply andb_prop in H as [H1 H2].
    apply bool_decide_eq_true in H1, H2.
    destruct (slots db !! Booking.slotId b) as [s|] eqn:Hs; [|done].
    apply bool_decide_eq_true in H3. by exists k, b, s.
  - intros (k & b & s & Hk & H1 & H2 & Hs & H3). exists k, b. split; [done|].
    rewrite Hs. by rewrite !andb_true_iff, !bool_decide_eq_true.
Qed.

Lemma unique_index_free (db : Db) (r : Review.t) :
  ~ has_review db (Review.userId r) (Review.venueId r) ->
  existsb (fun kv : string * Review.t =>
             bool_decide (Review.userId kv.2 = Review.userId r)
             && bool_decide (Review.venueId kv.2 = Review.venueId r))
    (map_to_list (reviews db)) = false.
Proof.
  intros Hno. apply not_true_is_false. intros Hex. apply Hno.
  apply existsb_exists in Hex as ([k r'] & Hin & H).
  apply list_elem_of_In, elem_of_map_to_list in Hin.
  apply andb_prop in H as [H1 H2]. apply bool_decide_eq_true in H1, H2.
  by exists k, r'.
Qed.

(** C9: [createReview] fails NotFound when the venue is absent; with the
    venue present it fails Conflict when the user has already reviewed the
    venue; with no such review it fails Forbidden when the user has no
    COMPLETED booking on a slot of the venue; otherwise the review row is
    created, and from then on every further review of the venue by the user
    fails Conflict.  A failing call writes nothing. *)
Theorem createReview_gate (db : Db) (newId : string) (data : CreateReviewInput)
  (userId : string) :
  let v := in_venueId data in
  let r := createReview newId data userId db in
  (venues db !! v = None -> fails db r NotFound)
  /\ (is_Some (venues db !! v) -> has_review db userId v -> fails db r Conflict)
  /\ (is_Some (venues db !! v) -> ~ has_review db userId v ->
      ~ has_completed_booking db userId v -> fails db r Forbidden)
  /\ (is_Some (venues db !! v) -> ~ has_review db userId v ->
      has_completed_booking db userId v ->
      is_Some (users db !! userId) -> reviews db !! newId = None ->
      let row := Review.mk userId v (in_rating data) (in_comment data) in
      r = (Prisma.set_reviews (<[newId := row]> (reviews db)) db, Ok (newId, row))
      /\ forall newId' data',
           in_venueId data' = v ->
           fails r.1 (createReview newId' data' userId r.1) Conflict).
Proof.
  intros v r. subst r v.
  pose proof (existing_review_iff db userId (in_venueId data)) as Hrev.
  pose proof (completed_booking_iff db userId (in_venueId data)) as Hcomp.
  unfold fails, createReview. run_M.
  split; [|split; [|split]].
  - intros Hv. rewrite Hv. simpl. split; [done|]. eexists. split; [reflexivity|done].
  - intros [ven Hv] Hhas. rewrite Hv.
    apply Hrev in Hhas as [x Hx]. rewrite Hx. simpl.
    split; [done|]. eexists. split; [reflexivity|done].
  - intros [ven Hv] Hno Hnc. rewrite Hv.
    destruct (Prisma.findFirst _ (reviews db)) eqn:Hf; [exfalso; apply Hno, Hrev; eauto|].
    destruct (Prisma.findFirst _ (bookings db)) eqn:Hg; [exfalso; apply Hnc, Hcomp; eauto|].
    simpl. split; [done|]. eexists. split; [reflexivity|done].
  - intros [ven Hv] Hno Hc [usr Hu] Hfresh. rewrite Hv.
    destruct (Prisma.findFirst _ (reviews db)) eqn:Hf; [exfalso; apply Hno, Hrev; eauto|].
    apply Hcomp in Hc as [x Hx]. rewrite Hx.
    unfold Prisma.review_create. rewrite Hfresh.
    rewrite (unique_index_free db (Review.mk userId (in_venueId data) _ _) Hno).
    simpl. rewrite Hu, Hv. split; [done|].
    intros newId' data' Hd'. simpl. rewrite Hd', Hv.
    set (db' := Prisma.set_reviews _ db).
    assert (Hhas : has_review db' userId (in_venueId data)).
    { exists newId, (Review.mk userId (in_venueId data) (in_rating data) (in_comment data)).
      split; [|done]. subst db'. simpl. apply lookup_insert_eq. }
    apply (existing_review_iff db') in Hhas as [y Hy].
    subst db'. simpl in *. rewrite Hy. simpl.
    split; [done|]. eexists. split; [reflexivity|done].
Qed.

Lemma createReview_gate_witness :
  let data := mkInput "v1" 5 (Some "Great pitch") in
  exists db',
    createReview "r1" data "u1" Sample.db_completed
    = (db', Ok ("r1", Review.mk "u1" "v1" 5 (Some "Great pitch")))
    /\ fails db' (createReview "r2" data "u1" db') Conflict
    /\ fails Sample.db_booked (createReview "r1" data "u1" Sample.db_booked) Forbidden
    /\ fails Sample.db_booked
         (createReview "r1" (mkInput "v9" 5 None) "u1" Sample.db_booked) NotFound.
Proof.
  intros data.
  pose proof (createReview_gate Sample.db_completed "r1" data "u1") as (_ & _ & _ & Hok).
  pose proof (createReview_gate Sample.db_booked "r1" data "u1") as (_ & _ & Hforb & _).
  pose proof (createReview_gate Sample.db_booked "r1" (mkInput "v9" 5 None) "u1")
    as (Hnf & _).
  assert (Hnorev : forall db, reviews db = ∅ -> ~ has_review db "u1" "v1").
  { intros db Hdb (k & r & Hk & _). rewrite Hdb in Hk. by rewrite lookup_empty in Hk. }
  destruct Hok as [Hrun Hsecond].
  - by eexists.
  - by apply Hnorev.
  - exists "b1", (Sample.b1 BookingStatus.COMPLETED), (Sample.s1 AVAILABLE).
    repeat split; reflexivity.
  - by eexists.
  - reflexivity.
  - eexists. split; [exact Hrun|]. split; [|split].
    + specialize (Hsecond "r2" data eq_refl). rewrite Hrun in Hsecond. exact Hsecond.
    + apply Hforb; [by eexists | by apply Hnorev |].
      intros Hc. apply completed_booking_iff in Hc. vm_compute in Hc.
      destruct Hc as [x Hx]. discriminate Hx.
    + apply Hnf. reflexivity.
Defined.

End ReviewGate.

(** ** BookingService: cancellation *)

Module Cancel.
Import BookingService Spec.

Lemma guard_authorized (b : Booking.t) (userId : string) (isAdmin : bool) :
  negb isAdmin && negb (bool_decide (Booking.userId b = userId)) = false
  <-> authorized b userId isAdmin.
Proof.
  unfold authorized. destruct isAdmin; simpl; [intuition|].
  rewrite negb_false_iff, bool_decide_eq_true. intuition. done.
Qed.



End Cancel.

(** ** BookingService: availability *)

Module Availability.
Import BookingService Spec.

(** A bare time of day is an Invalid Date. *)
Lemma Date_new_HHMM (h m : Z) : JS.Date_new (JS.HHMM h m) = None.
Proof. reflexivity. Qed.

Lemma activeBookings_iff (db : Db) (slotId : string) :
  (0 <? length (activeBookings db slotId))%nat = true <-> has_active_booking db slotId.
Proof.
  unfold activeBookings. rewrite findMany_nonempty.
  unfold has_active_booking, active, isActive.
  split; intros (k & b & Hk & H); exists k, b; (split; [done|]).
  - apply andb_prop in H as [H1 H2]. apply bool_decide_eq_true in H1.
    apply orb_prop in H2. rewrite !bool_decide_eq_true in H2. done.
  - destruct H as [H1 H2]. apply andb_true_intro.
    rewrite orb_true_iff, !bool_decide_eq_true. done.
Qed.

(** The availability query writes nothing and throws nothing. *)
Lemma checkSlotAvailability_reads (now : Z) (slotId : string) (db : Db) :
  exists a, checkSlotAvailability now slotId db = (db, Ok a).
Proof.
  unfold checkSlotAvailability. run_M.
  destruct (slots db !! slotId) as [slot|]; [|by eexists].
  destruct (negb _); [by eexists|].
  destruct (0 <? _)%nat; [by eexists|].
  destruct (JS.Date_lt _ _); by eexists.
Qed.

(** What the query answers, in the terms of the store. *)
Lemma checkSlotAvailability_answer (now : Z) (slotId : string) (db : Db)
  (a : SlotAvailability) :
  checkSlotAvailability now slotId db = (db, Ok a) ->
  (available a = true
   <-> exists slot,
         slots db !! slotId = Some slot
         /\ Slot.status slot = AVAILABLE
         /\ ~ has_active_booking db slotId
         /\ JS.Date_lt (JS.Date_new (Slot.startTime slot)) (Some now) = false)
  /\ (available a = false -> exists msg, reason a = Some msg /\ msg <> "").
Proof.
  pose proof (activeBookings_iff db slotId) as Hact.
  unfold checkSlotAvailability. run_M.
  destruct (slots db !! slotId) as [slot|] eqn:Hs.
  - destruct (bool_decide (Slot.status slot = AVAILABLE)) eqn:Hst; simpl.
    + apply bool_decide_eq_true in Hst.
      destruct (0 <? _)%nat eqn:Hb.
      * intros [= <-]. simpl. split; [|by eexists].
        split; [done|]. intros (slot' & _ & _ & Hno & _).
        exfalso. apply Hno, Hact. done.
      * destruct (JS.Date_lt _ _) eqn:Hd; intros [= <-]; simpl.
        -- split; [|by eexists].
           split; [done|]. intros (slot' & [= <-] & _ & _ & Hd'). congruence.
        -- split; [|done]. split; [|done]. intros _. exists slot.
           repeat split; try done. intros Hh. apply Hact in Hh. congruence.
    + apply bool_decide_eq_false in Hst. intros [= <-]. simpl. split.
      * split; [done|]. intros (slot' & [= <-] & Hav & _). done.
      * intros _. eexists. split; [reflexivity|]. by destruct (Slot.status slot).
  - intros [= <-]. simpl. split; [|by eexists].
    split; [done|]. intros (slot' & Hs' & _). done.
Qed.

(** C4 (what the code does): for a slot whose start time is stored as a time
    of day, the way the slot services store it, the availability query
    answers [available: true] whenever the slot is AVAILABLE and has no
    active booking, whatever the clock says: the past-slot test compares an
    Invalid Date and never rejects. *)
Theorem past_slot_is_available (now : Z) (db : Db) (slotId : string) (slot : Slot.t)
  (h m : Z) :
  slots db !! slotId = Some slot ->
  Slot.startTime slot = JS.HHMM h m ->
  Slot.status slot = AVAILABLE ->
  ~ has_active_booking db slotId ->
  checkSlotAvailability now slotId db
  = (db, Ok (mkAvail true None (Some (view slotId slot)))).
Proof.
  intros Hs Ht Hst Hno.
  unfold checkSlotAvailability. run_M. rewrite Hs.
  rewrite bool_decide_eq_true_2 by done. simpl.
  destruct (0 <? _)%nat eqn:Hb; [exfalso; by apply Hno, activeBookings_iff|].
  rewrite Ht, Date_new_HHMM. reflexivity.
Qed.

(** The slot of 2020-01-01, 10:00, queried on 2025-06-01 at noon. *)
Lemma past_slot_is_available_witness :
  JS.Date_new "2025-06-01T12:00:00.000Z" = Some 1748779200000
  /\ 18262 * JS.msPerDay + 10 * JS.msPerHour < 1748779200000
  /\ checkSlotAvailability 1748779200000 "s1" Sample.db_past
     = (Sample.db_past,
        Ok (mkAvail true None (Some (mkView "s1" "10:00" "11:00" AVAILABLE)))).
Proof.
  split; [reflexivity|]. split; [reflexivity|].
  apply (past_slot_is_available 1748779200000 Sample.db_past "s1"
           (Slot.mk "v1" 18262 "10:00" "11:00" AVAILABLE) 10 0);
    [reflexivity | reflexivity | reflexivity |].
  intros (k & b & Hk & _). vm_compute in Hk. discriminate Hk.
Defined.

End Availability.

(** ** BookingService: the refund of a cancellation *)

Module Refund.
Import BookingService Spec.

(** [round2] rounds to cents, a tie going up. *)
Lemma round2_rounds (x : Q) : rounds_to_cents x (round2 x).
Proof.
  unfold rounds_to_cents, round2.
  exists (Qfloor (x * 100 + (1 # 2))). split; [reflexivity|].
  pose proof (Qfloor_le (x * 100 + (1 # 2))) as Hle.
  pose proof (Qlt_floor (x * 100 + (1 # 2))) as Hlt.
  rewrite inject_Z_plus in Hlt. change (inject_Z 1) with 1%Q in Hlt.
  set (k := inject_Z (Qfloor (x * 100 + (1 # 2)))) in *. clearbody k.
  split; lra.
Qed.

Lemma gt_spec (x y : Q) : JS.gt (Some x) (Some y) = true <-> (y < x)%Q.
Proof.
  simpl. rewrite negb_true_iff. split.
  - intros H. apply Qnot_le_lt. intros Hle. apply Qle_bool_iff in Hle. congruence.
  - intros H. apply not_true_is_false. intros Hle. apply Qle_bool_iff in Hle. lra.
Qed.

Lemma ge_spec (x y : Q) : JS.ge (Some x) (Some y) = true <-> (y <= x)%Q.
Proof. simpl. apply Qle_bool_iff. Qed.

(** On a valid start date [calculateRefund] follows the policy: with [h]
    the hours from the clock to the start, 100 percent when [h > 24], 50
    percent when [12 <= h <= 24], nothing when [h < 12], and the amount is
    that share of the price rounded to cents. *)
Lemma calculateRefund_policy (now t : Z) (p : Q) :
  let h := (inject_Z (t - now) / 3600000)%Q in
  let info := calculateRefund now (Some t) (Some p) in
  percentage info = refund_percentage h
  /\ exists q, amount info = Some q
               /\ (q == round2 (p * inject_Z (percentage info) / 100))%Q.
Proof.
  intros h info. subst info. unfold calculateRefund.
  set (h' := JS.div _ _).
  assert (Hh : h' = Some ((inject_Z t - inject_Z now) / inject_Z 3600000)%Q)
    by reflexivity.
  assert (Heq : ((inject_Z t - inject_Z now) / inject_Z 3600000 == h)%Q).
  { subst h. unfold Zminus. rewrite inject_Z_plus, inject_Z_opp. reflexivity. }
  clearbody h'. subst h'. clearbody h. unfold refund_percentage.
  change (JS.num 24) with (Some 24%Q). change (JS.num 12) with (Some 12%Q).
  destruct (JS.gt _ (Some 24%Q)) eqn:Hgt.
  - apply gt_spec in Hgt. rewrite Heq in Hgt.
    destruct (Qlt_le_dec 24 h) as [_|Hc]; [|lra].
    simpl. split; [reflexivity|]. eexists. split; reflexivity.
  - assert (Hle : (h <= 24)%Q).
    { apply Qnot_lt_le. intros Hlt. rewrite <- Heq in Hlt. apply gt_spec in Hlt.
      congruence. }
    destruct (Qlt_le_dec 24 h) as [Hc|_]; [lra|].
    destruct (JS.ge _ (Some 12%Q)) eqn:Hge.
    + apply ge_spec in Hge. rewrite Heq in Hge.
      destruct (Qlt_le_dec h 12) as [Hc|_]; [lra|].
      simpl. split; [reflexivity|]. eexists. split; reflexivity.
    + assert (Hlt : (h < 12)%Q).
      { apply Qnot_le_lt. intros Hc. rewrite <- Heq in Hc. apply ge_spec in Hc.
        congruence. }
      destruct (Qlt_le_dec h 12) as [_|Hc]; [|lra].
      simpl. split; [reflexivity|]. eexists. split; reflexivity.
Qed.

(** The boundaries of the policy, for a price of 80.00: 25 hours, 24
    hours, 12 hours and 11.99 hours before the start. *)
Example calculateRefund_boundaries :
  let refund (ms : Z) := calculateRefund 0 (Some ms) (JS.num 80) in
  (percentage (refund (25 * 3600000)) = 100
   /\ JS.num_eq (amount (refund (25 * 3600000))) (JS.num 80))
  /\ (percentage (refund (24 * 3600000)) = 50
      /\ JS.num_eq (amount (refund (24 * 3600000))) (JS.num 40))
  /\ (percentage (refund (12 * 3600000)) = 50
      /\ JS.num_eq (amount (refund (12 * 3600000))) (JS.num 40))
  /\ (percentage (refund 43164000) = 0
      /\ JS.num_eq (amount (refund 43164000)) (JS.num 0)).
Proof. vm_compute. repeat split; reflexivity. Qed.

(** On an Invalid Date the hours are NaN, both comparisons are false, and
    the refund is nothing. *)
Lemma calculateRefund_invalid (now : Z) (p : Q) :
  let info := calculateRefund now None (Some p) in
  percentage info = 0 /\ exists q, amount info = Some q /\ (q == 0)%Q.
Proof.
  intros info. subst info. unfold calculateRefund.
  change (JS.div (JS.sub (JS.getTime None) (JS.num now)) (JS.num (1000 * 60 * 60)))
    with (@None Q).
  cbn [JS.gt JS.ge percentage amount].
  split; [reflexivity|].
  unfold JS.div, JS.mul, JS.Math_round, JS.num.
  eexists. split; [reflexivity|].
  assert (H : (p * inject_Z 0 / inject_Z 100 * inject_Z 100 + (1 # 2) == 1 # 2)%Q).
  { unfold inject_Z. field. }
  rewrite H. reflexivity.
Qed.

(** C3 (what the code does): [cancelBooking] hands [calculateRefund] the
    stored start time, a time of day, as a date.  Whatever the clock says,
    be the start 25 hours away or 1 hour away, a cancellation that goes
    through refunds nothing and leaves the payment status as it was. *)
Theorem cancellation_refunds_nothing (now : Z) (id userId : string) (isAdmin : bool)
  (db : Db) (b : Booking.t) (slot : Slot.t) (h m : Z) (p : Q) :
  bookings db !! id = Some b ->
  slots db !! Booking.slotId b = Some slot ->
  Slot.startTime slot = JS.HHMM h m ->
  Booking.totalPrice b = Some p ->
  authorized b userId isAdmin ->
  Booking.status b <> BookingStatus.CANCELLED ->
  Booking.status b <> BookingStatus.COMPLETED ->
  exists db' b' q,
    cancelBooking now id userId isAdmin db = (db', Ok (id, b'))
    /\ bookings db' !! id = Some b'
    /\ Booking.status b' = BookingStatus.CANCELLED
    /\ Booking.refundAmount b' = Some (Some q) /\ (q == 0)%Q
    /\ Booking.paymentStatus b' = Booking.paymentStatus b.
Proof.
  intros Hb Hs Ht Hp Ha Hc Hd.
  unfold cancelBooking, findBookingWithSlot. run_M.
  rewrite Hb. simpl. rewrite Hs. simpl.
  apply Cancel.guard_authorized in Ha. rewrite Ha.
  rewrite !bool_decide_eq_false_2 by done.
  unfold Prisma.transaction, Prisma.slot_update, Prisma.booking_update. run_M.
  rewrite Hs. simpl. rewrite Hb. simpl.
  rewrite Ht, Availability.Date_new_HHMM, Hp.
  destruct (calculateRefund_invalid now p) as [_ (q & Hq & Hq0)].
  eexists _, _, q. split; [reflexivity|].
  split; [cbn [bookings Prisma.set_bookings]; apply lookup_insert_eq|].
  unfold cancel_update.
  cbn [Booking.status Booking.refundAmount Booking.paymentStatus].
  rewrite Hq. split; [reflexivity|]. split; [reflexivity|]. split; [exact Hq0|].
  unfold JS.gt, JS.num. destruct (Qle_bool q (inject_Z 0)) eqn:Hle; [reflexivity|].
  exfalso. apply not_true_iff_false in Hle. apply Hle, Qle_bool_iff.
  rewrite Hq0. apply Qle_refl.
Qed.

(** The booking of the 10:00 slot of 2025-06-15, price 80.00, cancelled 25
    hours before the start: nothing is refunded, where the policy on the
    start itself gives 80.00. *)
Lemma cancellation_refunds_nothing_witness :
  let now := Sample.slotStart - 25 * JS.msPerHour in
  JS.num_eq (amount (calculateRefund now (Some Sample.slotStart) (JS.num 80))) (JS.num 80)
  /\ exists db' b' q,
       cancelBooking now "b1" "u1" false Sample.db_booked = (db', Ok ("b1", b'))
       /\ bookings db' !! "b1" = Some b'
       /\ Booking.status b' = BookingStatus.CANCELLED
       /\ Booking.refundAmount b' = Some (Some q) /\ (q == 0)%Q
       /\ Booking.paymentStatus b' = PaymentStatus.PENDING.
Proof.
  intros now. split; [vm_compute; reflexivity|].
  apply (cancellation_refunds_nothing now "b1" "u1" false Sample.db_booked
           (Sample.b1 BookingStatus.PENDING) (Sample.s1 BOOKED) 10 0 80);
    try reflexivity; try done.
  by right.
Defined.

End Refund.

(** ** Times of day as strings *)

Module Times.
Import Spec.

Lemma forall_range (P : Z -> bool) (n : Z) :
  forallb P (seqZ 0 n) = true -> forall h, 0 <= h < n -> P h = true.
Proof.
  intros Hall h Hh. rewrite forallb_forall in Hall. apply Hall.
  apply list_elem_of_In, elem_of_seqZ. lia.
Qed.

Lemma fields_ok_all :
  forallb (fun h => forallb (fun m =>
    fields_ok (JS.HHMM h m) h m
    && ((10 <=? h) || fields_ok (unpadded h m) h m)) (seqZ 0 60)) (seqZ 0 24) = true.
Proof. vm_compute. reflexivity. Qed.

(** The hour and the minute that [split(':').map(Number)] reads. *)
Lemma time_string_fields (s : string) (h m : Z) :
  time_string s h m ->
  JS.nth_number 0 (JS.split_colon s) = JS.num h
  /\ JS.nth_number 1 (JS.split_colon s) = JS.num m.
Proof.
  intros [[Hh Hm] Hs].
  pose proof (forall_range _ _ fields_ok_all h Hh) as H. cbv beta in H.
  pose proof (forall_range _ _ H m Hm) as H'. cbv beta in H'.
  apply andb_prop in H' as [Hp Hu].
  assert (Hok : fields_ok s h m = true).
  { destruct Hs as [-> | [Hlt ->]]; [done|].
    apply orb_prop in Hu as [Hu|Hu]; [|done]. apply Z.leb_le in Hu. lia. }
  unfold fields_ok in Hok. unfold JS.nth_number, JS.Number.
  destruct (JS.split_colon s) as [|a [|b [|c l]]]; try done.
  apply andb_prop in Hok as [Ha Hb]. apply bool_decide_eq_true in Ha, Hb.
  simpl. rewrite Ha, Hb. done.
Qed.

End Times.

(** ** BookingService: creating a booking *)

Module Create.
Import BookingService Spec.

(** The price of a slot whose times are spelled as times of day. *)
Lemma calculatePrice_time_strings (s e : string) (sh sm eh em : Z) (p : Q) :
  time_string s sh sm ->
  time_string e eh em ->
  exists q, calculatePrice s e (Some p) = Some q
            /\ (q == price (60 * sh + sm) (60 * eh + em) p)%Q.
Proof.
  intros Hs He.
  destruct (Times.time_string_fields s sh sm Hs) as [Hs0 Hs1].
  destruct (Times.time_string_fields e eh em He) as [He0 He1].
  unfold calculatePrice. rewrite Hs0, Hs1, He0, He1.
  unfold JS.div, JS.mul, JS.sub, JS.add, JS.Math_round, JS.num.
  eexists. split; [reflexivity|].
  unfold price, round2.
  assert (H : ((inject_Z eh * inject_Z 60 + inject_Z em
                - (inject_Z sh * inject_Z 60 + inject_Z sm)) / inject_Z 60 * p
               * inject_Z 100 + (1 # 2)
               == inject_Z (60 * eh + em - (60 * sh + sm)) / 60 * p * 100 + (1 # 2))%Q).
  { unfold Z.sub. rewrite !inject_Z_plus, inject_Z_opp, !inject_Z_plus, !inject_Z_mult.
    change (inject_Z 60) with 60%Q. change (inject_Z 100) with 100%Q. field. }
  rewrite H. reflexivity.
Qed.

Example price_examples :
  JS.num_eq (calculatePrice "10:00" "12:00" (JS.num 40)) (JS.num 80)
  /\ JS.num_eq (calculatePrice "9:30" "11:00" (JS.num 30)) (JS.num 45)
  /\ JS.num_eq (calculatePrice "10:00" "10:20" (Some (1 # 8)%Q)) (Some (4 # 100)%Q).
Proof. vm_compute. repeat split; reflexivity. Qed.



End Create.

(** ** BookingService: racing calls *)

Module Racing.
Import BookingService Race Spec.

(** The three steps of a call, taken with no other call in between, are the
    method itself. *)
Lemma steps_are_createBooking (now : Z) (newId slotId userId : string) (db : Db) :
  run now [0; 0; 0]%nat db [Start newId slotId userId]
  = let '(db', r) := createBooking now newId slotId userId db in (db', [Done r]).
Proof.
  destruct (Availability.checkSlotAvailability_reads now slotId db) as [a Ha].
  unfold createBooking. unfold mbind at 1. unfold M_bind. rewrite Ha.
  simpl run. unfold step at 1. rewrite Ha.
  destruct (available a); simpl; [|reflexivity].
  unfold findSlotWithVenue. run_M.
  destruct (slots db !! slotId) as [slot|]; simpl; [|reflexivity].
  destruct (venues db !! Slot.venueId slot) as [venue|]; simpl; [|reflexivity].
  destruct (createBooking_tx _ _ _ _ db) as [db' r]. reflexivity.
Qed.

Lemma step_Start (now : Z) (newId slotId userId : string) (db : Db)
  (a : SlotAvailability) :
  checkSlotAvailability now slotId db = (db, Ok a) ->
  available a = true ->
  step now (Start newId slotId userId) db = (db, Checked newId slotId userId).
Proof. intros Ha Hav. unfold step. rewrite Ha, Hav. reflexivity. Qed.

Lemma step_Checked (now : Z) (newId slotId userId : string) (db : Db)
  (slot : Slot.t) (venue : Venue.t) :
  slots db !! slotId = Some slot ->
  venues db !! Slot.venueId slot = Some venue ->
  step now (Checked newId slotId userId) db
  = (db, Priced newId slotId userId
           (calculatePrice (Slot.startTime slot) (Slot.endTime slot)
              (Venue.pricePerHour venue))).
Proof.
  intros Hs Hv. unfold step, findSlotWithVenue. run_M. rewrite Hs, Hv. reflexivity.
Qed.

(** The transaction does not look at the status of the slot. *)
Lemma step_Priced (now : Z) (newId slotId userId : string) (p : JS.number) (db : Db)
  (slot : Slot.t) :
  slots db !! slotId = Some slot ->
  bookings db !! newId = None ->
  is_Some (users db !! userId) ->
  let b := Booking.mk userId slotId BookingStatus.PENDING p PaymentStatus.PENDING None in
  step now (Priced newId slotId userId p) db
  = (mkDb (users db) (venues db)
       (<[slotId := Slot.set_status BOOKED slot]> (slots db))
       (<[newId := b]> (bookings db)) (reviews db),
     Done (Ok (newId, b))).
Proof.
  intros Hs Hf [usr Hu]. unfold step, createBooking_tx, Prisma.transaction,
    Prisma.slot_update, Prisma.booking_create. run_M.
  rewrite Hs. simpl. rewrite Hf, Hu.
  rewrite (lookup_insert_eq (slots db) slotId (Slot.set_status BOOKED slot)).
  reflexivity.
Qed.

(** C2 (what the code does): two calls for the same available slot whose
    availability queries both run before either transaction both succeed.
    Each finds the slot available, and the transaction sets the slot to
    BOOKED without looking at its status; the store ends with two PENDING
    bookings for the one slot. *)
Theorem racing_calls_both_succeed (now : Z) (slotId user1 user2 id1 id2 : string)
  (db : Db) (a : SlotAvailability) :
  checkSlotAvailability now slotId db = (db, Ok a) ->
  available a = true ->
  is_Some (users db !! user1) ->
  is_Some (users db !! user2) ->
  bookings db !! id1 = None ->
  bookings db !! id2 = None ->
  id1 <> id2 ->
  (forall slot, slots db !! slotId = Some slot ->
                is_Some (venues db !! Slot.venueId slot)) ->
  exists db' b1 b2,
    run now [0; 1; 0; 1; 0; 1]%nat db [Start id1 slotId user1; Start id2 slotId user2]
    = (db', [Done (Ok (id1, b1)); Done (Ok (id2, b2))])
    /\ bookings db' !! id1 = Some b1
    /\ bookings db' !! id2 = Some b2
    /\ Booking.slotId b1 = slotId /\ Booking.slotId b2 = slotId
    /\ Booking.userId b1 = user1 /\ Booking.userId b2 = user2
    /\ active b1 /\ active b2.
Proof.
  intros Ha Hav Hu1 Hu2 Hf1 Hf2 Hne Hven.
  destruct (Availability.checkSlotAvailability_answer now slotId db a Ha) as [Htrue _].
  apply Htrue in Hav as Hslot. destruct Hslot as (slot & Hs & _).
  destruct (Hven slot Hs) as [venue Hv].
  cbn [run lookup list_lookup insert list_insert].
  rewrite (step_Start now id1 slotId user1 db a Ha Hav).
  cbn [run lookup list_lookup insert list_insert].
  rewrite (step_Start now id2 slotId user2 db a Ha Hav).
  cbn [run lookup list_lookup insert list_insert].
  rewrite (step_Checked now id1 slotId user1 db slot venue Hs Hv).
  cbn [run lookup list_lookup insert list_insert].
  rewrite (step_Checked now id2 slotId user2 db slot venue Hs Hv).
  cbn [run lookup list_lookup insert list_insert].
  rewrite (step_Priced now id1 slotId user1 _ db slot Hs Hf1 Hu1).
  cbn [run lookup list_lookup insert list_insert].
  rewrite (step_Priced now id2 slotId user2 _ _ (Slot.set_status BOOKED slot)).
  - cbn [run lookup list_lookup insert list_insert].
    eexists _, _, _. split; [reflexivity|]. simpl.
    split; [rewrite lookup_insert_ne by done; apply lookup_insert_eq|].
    split; [apply lookup_insert_eq|].
    repeat split; try done; by left.
  - apply lookup_insert_eq.
  - simpl. rewrite lookup_insert_ne by done. exact Hf2.
  - exact Hu2.
Qed.

(** On the sample store both users end with a PENDING booking of slot s1. *)
Lemma racing_calls_both_succeed_witness :
  exists db' b1 b2,
    run 0 [0; 1; 0; 1; 0; 1]%nat Sample.db_free [Start "b1" "s1" "u1"; Start "b2" "s1" "u2"]
    = (db', [Done (Ok ("b1", b1)); Done (Ok ("b2", b2))])
    /\ bookings db' !! "b1" = Some b1
    /\ bookings db' !! "b2" = Some b2
    /\ Booking.slotId b1 = "s1" /\ Booking.slotId b2 = "s1"
    /\ Booking.userId b1 = "u1" /\ Booking.userId b2 = "u2"
    /\ active b1 /\ active b2.
Proof.
  apply (racing_calls_both_succeed 0 "s1" "u1" "u2" "b1" "b2" Sample.db_free
           (mkAvail true None (Some (view "s1" (Sample.s1 AVAILABLE)))));
    try reflexivity; try (by eexists); try done.
  intros slot Hs. change (Some (Sample.s1 AVAILABLE) = Some slot) in Hs.
  injection Hs as <-. by eexists.
Defined.

(** When the second call starts after the first has finished, it fails
    Conflict. *)
Example one_after_the_other :
  (run 0 [0; 0; 0; 1; 1; 1]%nat Sample.db_free
     [Start "b1" "s1" "u1"; Start "b2" "s1" "u2"]).2
  = [Done (Ok ("b1", Booking.mk "u1" "s1" BookingStatus.PENDING
                       (calculatePrice "10:00" "12:00" (JS.num 40))
                       PaymentStatus.PENDING None));
     Done (Err (AppError 409 "CONFLICT" "Slot is booked"))].
Proof. vm_compute. reflexivity. Qed.

End Racing.

(** ** The order of times of day as strings *)

Module TimeOrder.
Import Spec.

Lemma digit_compare_all :
  forallb (fun a => forallb (fun b =>
    bool_decide (Ascii.compare (JS.digit_char a) (JS.digit_char b) = (a ?= b)))
    (seqZ 0 10)) (seqZ 0 10) = true.
Proof. vm_compute. reflexivity. Qed.

Lemma digit_compare (a b : Z) :
  0 <= a < 10 -> 0 <= b < 10 ->
  Ascii.compare (JS.digit_char a) (JS.digit_char b) = (a ?= b).
Proof.
  intros Ha Hb.
  pose proof (Times.forall_range _ _ digit_compare_all a Ha) as H. cbv beta in H.
  pose proof (Times.forall_range _ _ H b Hb) as H'. cbv beta in H'.
  by apply bool_decide_eq_true in H'.
Qed.

(** Zero-padded times of day are ordered as strings the way they are
    ordered as times. *)
Lemma HHMM_compare (h1 m1 h2 m2 : Z) :
  is_time h1 m1 -> is_time h2 m2 ->
  String.compare (JS.HHMM h1 m1) (JS.HHMM h2 m2) = (60 * h1 + m1 ?= 60 * h2 + m2).
Proof.
  intros [Hh1 Hm1] [Hh2 Hm2].
  unfold JS.HHMM, JS.pad2. cbv [String.append String.compare].
  rewrite !digit_compare by (apply Z.mod_pos_bound; lia).
  change (Ascii.compare ":" ":") with Eq.
  pose proof (Z.div_mod h1 10 ltac:(lia)). pose proof (Z.div_mod h2 10 ltac:(lia)).
  pose proof (Z.div_mod m1 10 ltac:(lia)). pose proof (Z.div_mod m2 10 ltac:(lia)).
  pose proof (Z.mod_pos_bound h1 10 ltac:(lia)).
  pose proof (Z.mod_pos_bound h2 10 ltac:(lia)).
  pose proof (Z.mod_pos_bound m1 10 ltac:(lia)).
  pose proof (Z.mod_pos_bound m2 10 ltac:(lia)).
  rewrite !(Z.mod_small (_ / 10) 10)
    by (split; [apply Z.div_pos; lia | apply Z.div_lt_upper_bound; lia]).
  set (a1 := h1 / 10) in *. set (b1 := h1 mod 10) in *.
  set (a2 := h2 / 10) in *. set (b2 := h2 mod 10) in *.
  set (c1 := m1 / 10) in *. set (d1 := m1 mod 10) in *.
  set (c2 := m2 / 10) in *. set (d2 := m2 mod 10) in *.
  clearbody a1 b1 a2 b2 c1 d1 c2 d2.
  symmetry.
  destruct (Z.compare_spec a1 a2);
    [destruct (Z.compare_spec b1 b2);
      [destruct (Z.compare_spec c1 c2);
        [destruct (Z.compare_spec d1 d2)|..]|..]|..];
    first [apply Z.compare_eq_iff | apply Z.compare_lt_iff | apply Z.compare_gt_iff];
    lia.
Qed.

Lemma HHMM_lt (h1 m1 h2 m2 : Z) :
  is_time h1 m1 -> is_time h2 m2 ->
  JS.str_lt (JS.HHMM h1 m1) (JS.HHMM h2 m2) = (60 * h1 + m1 <? 60 * h2 + m2).
Proof.
  intros H1 H2. unfold JS.str_lt, String.ltb, Z.ltb.
  rewrite (HHMM_compare _ _ _ _ H1 H2). reflexivity.
Qed.

Lemma HHMM_le (h1 m1 h2 m2 : Z) :
  is_time h1 m1 -> is_time h2 m2 ->
  JS.str_le (JS.HHMM h1 m1) (JS.HHMM h2 m2) = (60 * h1 + m1 <=? 60 * h2 + m2).
Proof.
  intros H1 H2. unfold JS.str_le, String.leb, Z.leb.
  rewrite (HHMM_compare _ _ _ _ H1 H2). reflexivity.
Qed.

(** The string of a valid date is the zero-padded time of its minute. *)
Lemma toTimeString5_padded (t : Z) :
  padded_time (JS.toTimeString5 (Some t)) (minuteOfDay t).
Proof.
  unfold padded_time, minuteOfDay, JS.toTimeString5.
  unfold JS.msPerDay, JS.msPerHour, JS.msPerMinute.
  pose proof (Z.mod_pos_bound t 86400000 ltac:(lia)) as Hms.
  set (ms := t mod 86400000) in *. clearbody ms.
  exists (ms / 3600000), (ms mod 3600000 / 60000).
  split; [|split; [reflexivity|]].
  - split.
    + split; [apply Z.div_pos; lia | apply Z.div_lt_upper_bound; lia].
    + pose proof (Z.mod_pos_bound ms 3600000 ltac:(lia)).
      split; [apply Z.div_pos; lia | apply Z.div_lt_upper_bound; lia].
  - pose proof (Z.div_mod ms 3600000 ltac:(lia)).
    pose proof (Z.mod_pos_bound ms 3600000 ltac:(lia)).
    set (q := ms / 3600000) in *. set (r := ms mod 3600000) in *.
    clearbody q r. subst ms.
    replace (3600000 * q + r) with (r + (60 * q) * 60000) by lia.
    rewrite Z.div_add by lia. lia.
Qed.

Lemma padded_time_unique (s : string) (t1 t2 : Z) :
  padded_time s t1 -> padded_time s t2 -> t1 = t2.
Proof.
  intros (h1 & m1 & T1 & E1 & ->) (h2 & m2 & T2 & E2 & ->).
  apply Z.compare_eq_iff. rewrite <- (HHMM_compare _ _ _ _ T1 T2).
  assert (E : JS.HHMM h2 m2 = JS.HHMM h1 m1) by congruence. rewrite E.
  pose proof (String.compare_antisym (JS.HHMM h1 m1) (JS.HHMM h1 m1)) as Ha.
  destruct (String.compare (JS.HHMM h1 m1) (JS.HHMM h1 m1)); simpl in Ha; congruence.
Qed.

End TimeOrder.

(** ** SlotService: the overlap check *)

Module Overlap.
Import SlotService Spec.

Lemma idFilter_spec (excludeSlotId : option string) (id : string) :
  idFilter excludeSlotId id = true <-> not_excluded excludeSlotId id.
Proof.
  unfold idFilter, not_excluded. destruct excludeSlotId as [x|]; [|by split].
  destruct (String.eqb_spec x "") as [->|Hx].
  - split; [|done]. intros _ y [= <-] Hy. done.
  - rewrite negb_true_iff. destruct (String.eqb_spec id x) as [->|Hid].
    + split; [done|]. intros H. by specialize (H x eq_refl Hx).
    + split; [|done]. intros _ y [= <-] _. done.
Qed.

Lemma onDate_spec (db : Db) (venueId : string) (day : Z) (excludeSlotId : option string)
  (id : string) (slot : Slot.t) :
  slots db !! id = Some slot /\ onDate venueId day excludeSlotId id slot = true
  <-> compared db venueId day excludeSlotId id slot.
Proof.
  unfold onDate, compared.
  rewrite !andb_true_iff, bool_decide_eq_true, Z.eqb_eq, idFilter_spec. tauto.
Qed.

(** On zero-padded times the test of the loop is the test on minutes. *)
Lemma overlaps_padded (startTimeStr endTimeStr : string) (slot : Slot.t) (cs ce es ee : Z) :
  padded_time startTimeStr cs ->
  padded_time endTimeStr ce ->
  padded_time (Slot.startTime slot) es ->
  padded_time (Slot.endTime slot) ee ->
  overlaps startTimeStr endTimeStr slot = true <-> crosses_or_covers cs ce es ee.
Proof.
  intros (h1 & m1 & T1 & -> & ->) (h2 & m2 & T2 & -> & ->)
    (h3 & m3 & T3 & E3 & ->) (h4 & m4 & T4 & E4 & ->).
  unfold overlaps, crosses_or_covers, JS.str_gt, JS.str_ge. rewrite E3, E4.
  fold (JS.str_lt (JS.HHMM h3 m3) (JS.HHMM h2 m2)).
  fold (JS.str_le (JS.HHMM h4 m4) (JS.HHMM h2 m2)).
  rewrite !TimeOrder.HHMM_lt, !TimeOrder.HHMM_le by done.
  rewrite orb_true_iff, !andb_true_iff, !Z.ltb_lt, !Z.leb_le. tauto.
Qed.

Lemma midnight (t : Z) :
  JS.Date_setHours (Some t) (JS.num 0) (JS.num 0) = Some (dayOf t * JS.msPerDay)
  /\ dayOf t * JS.msPerDay / JS.msPerDay = dayOf t.
Proof.
  unfold dayOf, JS.Date_setHours, JS.num, JS.trunc. simpl.
  change (0 `quot` 1) with 0. split; [f_equal; lia|].
  apply Z.div_mul. done.
Qed.




End Overlap.

(** ** SlotService: bulk creation *)

Module Bulk.
Import SlotService Spec.

(** The elements generated are the product; the end moved to the next day
    is in none of them. *)
Lemma slotsToCreate_product (data : CreateBulkSlotsInput) :
  slotsToCreate data = product data.
Proof. reflexivity. Qed.

Lemma product_length (data : CreateBulkSlotsInput) :
  length (product data) = (length (in_dates data) * length (in_timeSlots data))%nat.
Proof.
  unfold product. induction (in_dates data) as [|d ds IH]; [reflexivity|].
  simpl. rewrite length_app, length_map, IH. reflexivity.
Qed.

Lemma product_elem (data : CreateBulkSlotsInput) (c : SlotData) :
  c ∈ product data
  <-> exists d t, d ∈ in_dates data /\ t ∈ in_timeSlots data /\ c = candidate data d t.
Proof.
  unfold product. rewrite list_elem_of_In, in_flat_map. split.
  - intros (d & Hd & Hc). apply in_map_iff in Hc as (t & <- & Ht).
    exists d, t. by rewrite !list_elem_of_In.
  - intros (d & t & Hd & Ht & ->). exists d. rewrite <- list_elem_of_In. split; [done|].
    apply in_map. by apply list_elem_of_In.
Qed.

(** The overlap check of an element answers when its date is valid and its
    times are times of day. *)
Lemma checkOne_answers (db : Db) (c : SlotData) (d h m h' m' : Z) :
  sd_date c = Some d ->
  time_string (sd_startTime c) h m ->
  time_string (sd_endTime c) h' m' ->
  exists b, checkOne c db = (db, Ok b).
Proof.
  intros Hd Hs He. unfold checkOne.
  destruct (Times.time_string_fields _ _ _ Hs) as [-> ->].
  destruct (Times.time_string_fields _ _ _ He) as [-> ->].
  rewrite Hd. unfold hasSlotOverlap, JS.Date_setHours, JS.num. run_M. by eexists.
Qed.

Lemma Promise_all_Ok {A : Type} (l : list A) : Promise_all (map Ok l) = Ok l.
Proof. induction l as [|a l IH]; [reflexivity|]. simpl. by rewrite IH. Qed.

Lemma insert_all_fresh {A : Type} (rows : list (string * A)) (table : gmap string A)
  (k : string) :
  table !! k = None -> (forall kr, kr ∈ rows -> kr.1 <> k) ->
  insert_all rows table !! k = None.
Proof.
  revert table. induction rows as [|[k' r] rows IH]; intros table Hk Hne; [done|].
  simpl. apply IH.
  - rewrite lookup_insert_ne; [done|]. apply (Hne (k', r)). left.
  - intros kr Hin. apply Hne. by right.
Qed.

Lemma set_slots_twice (m m' : gmap string Slot.t) (db : Db) :
  Prisma.set_slots m (Prisma.set_slots m' db) = Prisma.set_slots m db.
Proof. reflexivity. Qed.

Lemma set_slots_same (db : Db) : Prisma.set_slots (slots db) db = db.
Proof. by destruct db. Qed.

(** The callbacks, once every check has answered: each element that does
    not collide is inserted under its key, in order. *)
Lemma settle_resolves (newId : nat -> string) (l : list (SlotData * bool)) :
  forall (i : nat) (db : Db),
    (forall cb, cb ∈ l ->
                is_Some (sd_date cb.1) /\ is_Some (venues db !! sd_venueId cb.1)) ->
    (forall j, (i <= j < i + length l)%nat -> slots db !! newId j = None) ->
    (forall j k, (i <= j < i + length l)%nat -> (i <= k < i + length l)%nat ->
                 newId j = newId k -> j = k) ->
    let vals := map (resolved newId) (zip (seq i (length l)) l) in
    settle newId i (map (fun cb => (cb.1, Ok cb.2)) l) db
    = (Prisma.set_slots (insert_all (omap id vals) (slots db)) db, map Ok vals).
Proof.
  induction l as [|[c ov] l IH]; intros i db Hwf Hfresh Hinj vals.
  { simpl. by rewrite set_slots_same. }
  destruct (Hwf (c, ov) ltac:(left)) as [[d Hd] [ven Hv]]. simpl in Hd, Hv.
  assert (Hwf' : forall db', venues db' = venues db ->
             forall cb, cb ∈ l ->
                        is_Some (sd_date cb.1) /\ is_Some (venues db' !! sd_venueId cb.1)).
  { intros db' Hdb' cb Hin. rewrite Hdb'. apply Hwf. by right. }
  assert (Hinj' : forall j k, (S i <= j < S i + length l)%nat ->
                              (S i <= k < S i + length l)%nat ->
                              newId j = newId k -> j = k).
  { intros j k Hj Hk. apply Hinj; simpl; lia. }
  subst vals. simpl length. simpl seq. simpl zip. simpl map. simpl settle.
  destruct ov.
  - assert (Hf' : forall j, (S i <= j < S i + length l)%nat -> slots db !! newId j = None).
    { intros j Hj. apply Hfresh. simpl. lia. }
    pose proof (IH (S i) db (Hwf' db eq_refl) Hf' Hinj') as IH'. cbv zeta in IH'.
    change (resolved newId (i, (c, true))) with (@None (string * Slot.t)).
    unfold createOne. run_M. rewrite IH'. reflexivity.
  - set (r := Slot.mk (sd_venueId c) (d / JS.msPerDay) (sd_startTime c) (sd_endTime c)
                (sd_status c)).
    assert (Hrow : row c = Some r) by (unfold row; rewrite Hd; reflexivity).
    assert (Hres : resolved newId (i, (c, false)) = Some (newId i, r))
      by (unfold resolved; simpl; rewrite Hrow; reflexivity).
    rewrite !Hres. unfold createOne. rewrite Hrow. unfold Prisma.slot_create. run_M.
    rewrite (Hfresh i) by (simpl; lia). rewrite Hv. simpl.
    set (db1 := Prisma.set_slots _ db).
    assert (Hf' : forall j, (S i <= j < S i + length l)%nat -> slots db1 !! newId j = None).
    { intros j Hj. subst db1. simpl. rewrite lookup_insert_ne.
      - apply Hfresh. simpl. lia.
      - intros E. apply Hinj in E; simpl; lia. }
    pose proof (IH (S i) db1 (Hwf' db1 eq_refl) Hf' Hinj') as IH'. cbv zeta in IH'.
    rewrite IH'. reflexivity.
Qed.

Lemma resolved_created (newId : nat -> string) (db : Db) (cs : list SlotData) (i : nat) :
  omap id (map (resolved newId)
             (zip (seq i (length (map (fun c => (c, collides db c)) cs)))
                (map (fun c => (c, collides db c)) cs)))
  = omap (created_row newId db) (zip (seq i (length cs)) cs).
Proof.
  revert i. induction cs as [|c cs IH]; intros i; [reflexivity|].
  simpl. rewrite IH.
  assert (E : resolved newId (i, (c, collides db c)) = created_row newId db (i, c))
    by reflexivity.
  rewrite E. reflexivity.
Qed.



End Bulk.

(** ** SlotService: templates that end before they start *)

Module Rollover.
Import SlotService Spec.

(** C8 (what the code does): the end moved to the next day is a local value
    of the generation loop and is in no element generated.  For the template
    23:00 to 01:00 on 2025-06-15 the row created holds that day and the two
    times of day as given, as for any other template; its overlap check runs
    on 01:00 of the same day, so the stored slot from 22:00 to 23:30 of that
    day does not stop it; and the price the booking service derives from the
    row is that of minus 22 hours, where two hours at 40.00 are 80.00. *)
Theorem rollover_is_dropped :
  (forall data dateStr timeSlot,
     generateOne data dateStr timeSlot = candidate data dateStr timeSlot)
  /\ (createBulkSlots Sample.newId Sample.overnight "a1" Sample.db_free).2
     = Ok (mkResp 1 [("n0", Slot.mk "v1" 20254 "23:00" "01:00" AVAILABLE)])
  /\ (checkOne (candidate Sample.overnight "2025-06-15" (mkTimeSlot "23:00" "01:00"))
        Sample.db_evening).2
     = (hasSlotOverlap "v1" (Some (Sample.at_ 23 0)) (Some (Sample.at_ 1 0)) None
          Sample.db_evening).2
  /\ (createBulkSlots Sample.newId Sample.overnight "a1" Sample.db_evening).2
     = Ok (mkResp 1 [("n0", Slot.mk "v1" 20254 "23:00" "01:00" AVAILABLE)])
  /\ JS.num_eq (BookingService.calculatePrice "23:00" "01:00" (JS.num 40)) (JS.num (-880))
  /\ (price (60 * 23 + 0) (60 * 24 + 60 * 1 + 0) 40 == 80)%Q.
Proof.
  split; [reflexivity|].
  split; [vm_compute; reflexivity|].
  split; [vm_compute; reflexivity|].
  split; [vm_compute; reflexivity|].
  split; vm_compute; reflexivity.
Qed.

End Rollover.

(** ** Times of day spelled on one digit *)

Module Unpadded.
Import SlotService Spec.

(** A template may spell the hour on one digit, and the row keeps the
    spelling.  The overlap check compares it as a string with the
    zero-padded time of the candidate: the same template asked for again is
    not seen to overlap, and the row is created twice. *)
Example same_template_twice :
  let data := mkBulk "v1" ["2025-06-15"] [mkTimeSlot "9:00" "9:30"] None in
  let first := createBulkSlots Sample.newId data "a1" Sample.db_free in
  first.2 = Ok (mkResp 1 [("n0", Slot.mk "v1" 20254 "9:00" "9:30" AVAILABLE)])
  /\ (createBulkSlots (fun i => "m0") data "a1" first.1).2
     = Ok (mkResp 1 [("m0", Slot.mk "v1" 20254 "9:00" "9:30" AVAILABLE)]).
Proof. vm_compute. split; reflexivity. Qed.

End Unpadded.

(** ** BookingService: the life cycle of a booking *)

Module Lifecycle.
Import BookingService Spec Invariant.

(** [createBooking] after its availability query. *)
Lemma createBooking_checked (now : Z) (newId slotId userId : string) (db : Db)
  (a : SlotAvailability) :
  checkSlotAvailability now slotId db = (db, Ok a) ->
  createBooking now newId slotId userId db
  = (if negb (available a)
     then throw (AppError 409 "CONFLICT" (or_default (reason a) "Slot is not available"))
     else
       slot ← findSlotWithVenue slotId;
       match slot with
       | None => throw (AppError 404 "NOT_FOUND" "Slot not found")
       | Some (slot, venue) =>
           createBooking_tx newId slotId userId
             (calculatePrice (Slot.startTime slot) (Slot.endTime slot)
                (Venue.pricePerHour venue))
       end) db.
Proof.
  intros Ha. unfold createBooking. unfold mbind at 1. unfold M_bind.
  rewrite Ha. reflexivity.
Qed.

(** The conditions under which [createBooking] goes through, and the store
    it leaves. *)
Lemma createBooking_ok (now : Z) (newId slotId userId : string) (db : Db)
  (slot : Slot.t) (venue : Venue.t) :
  slots db !! slotId = Some slot ->
  Slot.status slot = AVAILABLE ->
  ~ has_active_booking db slotId ->
  JS.Date_lt (JS.Date_new (Slot.startTime slot)) (Some now) = false ->
  venues db !! Slot.venueId slot = Some venue ->
  bookings db !! newId = None ->
  is_Some (users db !! userId) ->
  let b :=
    Booking.mk userId slotId BookingStatus.PENDING
      (calculatePrice (Slot.startTime slot) (Slot.endTime slot) (Venue.pricePerHour venue))
      PaymentStatus.PENDING None in
  createBooking now newId slotId userId db
  = (mkDb (users db) (venues db) (<[slotId := Slot.set_status BOOKED slot]> (slots db))
       (<[newId := b]> (bookings db)) (reviews db),
     Ok (newId, b)).
Proof.
  intros Hs Hst Hno Hd Hv Hfresh [usr Hu] b.
  destruct (Availability.checkSlotAvailability_reads now slotId db) as [a Ha].
  destruct (Availability.checkSlotAvailability_answer now slotId db a Ha) as [Htrue _].
  assert (Hav : available a = true) by (apply Htrue; eauto 6).
  rewrite (createBooking_checked _ _ _ _ _ _ Ha), Hav. simpl.
  unfold findSlotWithVenue. run_M. rewrite Hs, Hv. simpl.
  unfold createBooking_tx, Prisma.transaction, Prisma.slot_update,
    Prisma.booking_create. run_M. rewrite Hs. simpl.
  rewrite Hfresh, Hu. simpl.
  rewrite (lookup_insert_eq (slots db) slotId (Slot.set_status BOOKED slot)). simpl.
  reflexivity.
Qed.

(** [createBooking] either throws and leaves the store as it is, or met
    the conditions of [createBooking_ok]. *)
Lemma createBooking_cases (now : Z) (newId slotId userId : string) (db : Db) :
  let r := createBooking now newId slotId userId db in
  (r.1 = db /\ exists e, r.2 = Err e)
  \/ exists slot venue,
       slots db !! slotId = Some slot
       /\ Slot.status slot = AVAILABLE
       /\ ~ has_active_booking db slotId
       /\ JS.Date_lt (JS.Date_new (Slot.startTime slot)) (Some now) = false
       /\ venues db !! Slot.venueId slot = Some venue
       /\ bookings db !! newId = None
       /\ is_Some (users db !! userId).
Proof.
  intros r. subst r.
  destruct (Availability.checkSlotAvailability_reads now slotId db) as [a Ha].
  destruct (Availability.checkSlotAvailability_answer now slotId db a Ha) as [Htrue _].
  rewrite (createBooking_checked _ _ _ _ _ _ Ha).
  destruct (available a) eqn:Hav; simpl; [|left; split; [done | by eexists]].
  destruct Htrue as [Htrue _]. destruct (Htrue eq_refl) as (slot & Hs & Hst & Hno & Hd).
  unfold findSlotWithVenue. run_M. rewrite Hs.
  destruct (venues db !! Slot.venueId slot) as [venue|] eqn:Hv; simpl;
    [|left; split; [done | by eexists]].
  unfold createBooking_tx, Prisma.transaction, Prisma.slot_update,
    Prisma.booking_create. run_M. rewrite Hs. simpl.
  destruct (bookings db !! newId) eqn:Hb; simpl; [left; split; [done | by eexists]|].
  destruct (users db !! userId) eqn:Hu; simpl; [|left; split; [done | by eexists]].
  right. exists slot, venue. repeat split; done.
Qed.

(** The conditions under which [cancelBooking] goes through, and the store
    it leaves. *)
Lemma cancelBooking_ok (now : Z) (id userId : string) (isAdmin : bool) (db : Db)
  (b : Booking.t) (slot : Slot.t) :
  bookings db !! id = Some b ->
  slots db !! Booking.slotId b = Some slot ->
  authorized b userId isAdmin ->
  active b ->
  cancelBooking now id userId isAdmin db
  = (mkDb (users db) (venues db)
       (<[Booking.slotId b := Slot.set_status AVAILABLE slot]> (slots db))
       (<[id := cancelled now b slot]> (bookings db)) (reviews db),
     Ok (id, cancelled now b slot)).
Proof.
  intros Hb Hs Ha Hact.
  apply Cancel.guard_authorized in Ha.
  unfold cancelBooking, findBookingWithSlot. run_M. rewrite Hb. simpl. rewrite Hs. simpl.
  rewrite Ha.
  assert (Hc : bool_decide (Booking.status b = BookingStatus.CANCELLED) = false).
  { apply bool_decide_eq_false. destruct Hact as [H|H]; rewrite H; done. }
  assert (Hd : bool_decide (Booking.status b = BookingStatus.COMPLETED) = false).
  { apply bool_decide_eq_false. destruct Hact as [H|H]; rewrite H; done. }
  rewrite Hc, Hd.
  unfold Prisma.transaction, Prisma.slot_update, Prisma.booking_update. run_M.
  rewrite Hs. simpl. rewrite Hb. simpl. reflexivity.
Qed.

(** [cancelBooking] either throws and leaves the store as it is, or met
    the conditions of [cancelBooking_ok]. *)
Lemma cancelBooking_cases (now : Z) (id userId : string) (isAdmin : bool) (db : Db) :
  let r := cancelBooking now id userId isAdmin db in
  (r.1 = db /\ exists e, r.2 = Err e)
  \/ exists b slot,
       bookings db !! id = Some b
       /\ slots db !! Booking.slotId b = Some slot
       /\ authorized b userId isAdmin
       /\ active b.
Proof.
  intros r. subst r.
  pose proof (fun b => Cancel.guard_authorized b userId isAdmin) as Hg.
  unfold cancelBooking, findBookingWithSlot. run_M.
  destruct (bookings db !! id) as [b|] eqn:Hb; simpl; [|left; split; [done | by eexists]].
  destruct (slots db !! Booking.slotId b) as [slot|] eqn:Hs; simpl;
    [|left; split; [done | by eexists]].
  destruct (negb isAdmin && _) eqn:Hguard; [left; split; [done | by eexists]|].
  destruct (bool_decide (Booking.status b = BookingStatus.CANCELLED)) eqn:Hc;
    [left; split; [done | by eexists]|].
  destruct (bool_decide (Booking.status b = BookingStatus.COMPLETED)) eqn:Hd;
    [left; split; [done | by eexists]|].
  apply bool_decide_eq_false in Hc, Hd.
  right. exists b, slot. repeat split; try done.
  - by apply Hg.
  - unfold active. destruct (Booking.status b); auto; done.
Qed.

(** A call of [createBooking] that returned a booking met the conditions of
    [createBooking_ok] and left the store described there. *)
Lemma createBooking_success (now : Z) (newId slotId userId : string) (db db' : Db)
  (r : BookingResponse) :
  createBooking now newId slotId userId db = (db', Ok r) ->
  exists slot venue,
    slots db !! slotId = Some slot
    /\ Slot.status slot = AVAILABLE
    /\ ~ has_active_booking db slotId
    /\ JS.Date_lt (JS.Date_new (Slot.startTime slot)) (Some now) = false
    /\ venues db !! Slot.venueId slot = Some venue
    /\ bookings db !! newId = None
    /\ is_Some (users db !! userId)
    /\ r = (newId,
            Booking.mk userId slotId BookingStatus.PENDING
              (calculatePrice (Slot.startTime slot) (Slot.endTime slot)
                 (Venue.pricePerHour venue))
              PaymentStatus.PENDING None)
    /\ db' = mkDb (users db) (venues db)
               (<[slotId := Slot.set_status BOOKED slot]> (slots db))
               (<[newId := r.2]> (bookings db)) (reviews db).
Proof.
  intros Hr.
  destruct (createBooking_cases now newId slotId userId db)
    as [[_ [e He]]|(slot & venue & Hs & Hst & Hno & Hd & Hv & Hfresh & Hu)].
  { rewrite Hr in He. done. }
  rewrite (createBooking_ok now newId slotId userId db slot venue) in Hr by done.
  injection Hr as <- <-. exists slot, venue. repeat split; done.
Qed.

(** X1: once [createBooking] has returned a booking for a slot, the
    availability query of that slot answers unavailable and every further
    [createBooking] for it, by whoever and whenever, is refused with 409
    CONFLICT "Slot is booked" and writes nothing. *)
Theorem createBooking_blocks_slot (now : Z) (newId slotId userId : string) (db db' : Db)
  (r : BookingResponse) :
  createBooking now newId slotId userId db = (db', Ok r) ->
  forall (now' : Z) (newId' userId' : string),
    (exists a, checkSlotAvailability now' slotId db' = (db', Ok a) /\ available a = false)
    /\ createBooking now' newId' slotId userId' db'
       = (db', Err (AppError 409 "CONFLICT" "Slot is booked")).
Proof.
  intros Hr now' newId' userId'.
  destruct (createBooking_success _ _ _ _ _ _ _ Hr)
    as (slot & venue & Hs & Hst & _ & _ & _ & _ & _ & _ & Hdb).
  assert (Ha : checkSlotAvailability now' slotId db'
               = (db', Ok (mkAvail false (Some "Slot is booked")
                             (Some (view slotId (Slot.set_status BOOKED slot)))))).
  { rewrite Hdb. unfold checkSlotAvailability. run_M.
    rewrite (lookup_insert_eq (slots db) slotId (Slot.set_status BOOKED slot)).
    reflexivity. }
  split; [eexists; split; [exact Ha | reflexivity]|].
  rewrite (createBooking_checked _ _ _ _ _ _ Ha). reflexivity.
Qed.

Lemma createBooking_blocks_slot_witness :
  exists db' r,
    createBooking 0 "b1" "s1" "u1" Sample.db_free = (db', Ok r)
    /\ createBooking 5 "b2" "s1" "u2" db'
       = (db', Err (AppError 409 "CONFLICT" "Slot is booked")).
Proof.
  eexists _, _. split; [vm_compute; reflexivity|].
  refine (proj2 (createBooking_blocks_slot 0 "b1" "s1" "u1" Sample.db_free _ _ _
                   5 "b2" "u2")).
  vm_compute. reflexivity.
Defined.

Lemma set_status_back (slot : Slot.t) :
  Slot.status slot = AVAILABLE ->
  Slot.set_status AVAILABLE (Slot.set_status BOOKED slot) = slot.
Proof. destruct slot. simpl. by intros ->. Qed.

(** X2: a booking that [createBooking] has just made can be cancelled by
    its owner at any time; the cancellation leaves the booking CANCELLED and
    the table of slots exactly as it was before the booking, and the slot
    can then be booked again. *)
Theorem book_then_cancel (now now' : Z) (newId slotId userId : string) (db db' : Db)
  (r : BookingResponse) :
  createBooking now newId slotId userId db = (db', Ok r) ->
  exists db'' b',
    cancelBooking now' newId userId false db' = (db'', Ok (newId, b'))
    /\ Booking.status b' = BookingStatus.CANCELLED
    /\ users db'' = users db /\ venues db'' = venues db /\ reviews db'' = reviews db
    /\ slots db'' = slots db
    /\ bookings db'' = <[newId := b']> (bookings db)
    /\ forall newId2 userId2,
         bookings db'' !! newId2 = None -> is_Some (users db !! userId2) ->
         exists db3 b3,
           createBooking now newId2 slotId userId2 db'' = (db3, Ok (newId2, b3)).
Proof.
  intros Hr.
  destruct (createBooking_success _ _ _ _ _ _ _ Hr)
    as (slot & venue & Hs & Hst & Hno & Hd & Hv & Hfresh & Hu & -> & Hdb).
  simpl in Hdb.
  set (b := Booking.mk userId slotId BookingStatus.PENDING
              (calculatePrice (Slot.startTime slot) (Slot.endTime slot)
                 (Venue.pricePerHour venue)) PaymentStatus.PENDING None) in *.
  assert (Hc : cancelBooking now' newId userId false db'
               = (mkDb (users db') (venues db')
                    (<[Booking.slotId b := Slot.set_status AVAILABLE
                                             (Slot.set_status BOOKED slot)]> (slots db'))
                    (<[newId := cancelled now' b (Slot.set_status BOOKED slot)]>
                       (bookings db')) (reviews db'),
                  Ok (newId, cancelled now' b (Slot.set_status BOOKED slot)))).
  { apply cancelBooking_ok.
    - rewrite Hdb. simpl. apply lookup_insert_eq.
    - rewrite Hdb. simpl. apply lookup_insert_eq.
    - by right.
    - by left. }
  rewrite Hc. eexists _, _. split; [reflexivity|]. split; [reflexivity|].
  rewrite Hdb. simpl.
  assert (Hslots : <[slotId := Slot.set_status AVAILABLE (Slot.set_status BOOKED slot)]>
                     (<[slotId := Slot.set_status BOOKED slot]> (slots db)) = slots db).
  { rewrite insert_insert_eq, set_status_back by done. by apply insert_id. }
  rewrite Hslots, insert_insert_eq.
  repeat match goal with |- _ /\ _ => split; [done|] end.
  intros newId2 userId2 Hfresh2 Hu2.
  eexists _, _. apply (createBooking_ok now newId2 slotId userId2 _ slot venue); simpl;
    try done.
  intros (id0 & b0 & Hb0 & Hslot0 & Hact0). simpl in Hb0.
  apply lookup_insert_Some in Hb0 as [[<- <-]|[Hne Hb0]].
  - destruct Hact0 as [H|H]; done.
  - apply Hno. by exists id0, b0.
Qed.

Lemma book_then_cancel_witness :
  exists db' r db'' b',
    createBooking 0 "b1" "s1" "u1" Sample.db_free = (db', Ok r)
    /\ cancelBooking 7 "b1" "u1" false db' = (db'', Ok ("b1", b'))
    /\ slots db'' = slots Sample.db_free.
Proof.
  eexists _, _.
  assert (H : createBooking 0 "b1" "s1" "u1" Sample.db_free = (_, Ok _))
    by (vm_compute; reflexivity).
  destruct (book_then_cancel 0 7 "b1" "s1" "u1" Sample.db_free _ _ H)
    as (db'' & b' & Hc & _ & _ & _ & _ & Hs & _).
  exists db'', b'. split; [exact H|]. split; [exact Hc | exact Hs].
Defined.

(** X3: a store in which no slot has two active bookings, and in which the
    slot of every active booking is BOOKED, is still such a store after any
    call of [createBooking] and after any call of [cancelBooking], whether
    the call goes through or throws. *)
Theorem bookings_stay_consistent (now : Z) (db : Db) :
  consistent db ->
  (forall newId slotId userId, consistent (createBooking now newId slotId userId db).1)
  /\ (forall id userId isAdmin, consistent (cancelBooking now id userId isAdmin db).1).
Proof.
  intros [Hone Hbooked]. split.
  - intros newId slotId userId.
    destruct (createBooking_cases now newId slotId userId db)
      as [[-> _]|(slot & venue & Hs & Hst & Hno & Hd & Hv & Hfresh & Hu)]; [done|].
    rewrite (createBooking_ok now newId slotId userId db slot venue) by done.
    cbv zeta. cbn [fst]. split.
    + intros i j b b' Hi Hj Ha Ha' Heq. cbn [bookings] in Hi, Hj.
      apply lookup_insert_Some in Hi as [[<- <-]|[Hni Hi]];
        apply lookup_insert_Some in Hj as [[<- <-]|[Hnj Hj]].
      * done.
      * exfalso. apply Hno. exists j, b'. simpl in Heq. done.
      * exfalso. apply Hno. exists i, b. simpl in Heq. done.
      * by apply (Hone i j b b').
    + intros i b s Hi Ha Hsl. cbn [bookings slots] in Hi, Hsl.
      apply lookup_insert_Some in Hsl as [[Heq <-]|[Hne Hsl]]; [done|].
      apply lookup_insert_Some in Hi as [[<- <-]|[Hni Hi]]; [done|].
      by apply (Hbooked i b s).
  - intros id userId isAdmin.
    destruct (cancelBooking_cases now id userId isAdmin db)
      as [[-> _]|(b0 & slot & Hb & Hs & Hauth & Hact)]; [done|].
    rewrite (cancelBooking_ok now id userId isAdmin db b0 slot) by done.
    cbn [fst]. split.
    + intros i j b b' Hi Hj Ha Ha' Heq. cbn [bookings] in Hi, Hj.
      apply lookup_insert_Some in Hi as [[<- <-]|[Hni Hi]];
        [destruct Ha as [H|H]; done|].
      apply lookup_insert_Some in Hj as [[<- <-]|[Hnj Hj]];
        [destruct Ha' as [H|H]; done|].
      by apply (Hone i j b b').
    + intros i b s Hi Ha Hsl. cbn [bookings slots] in Hi, Hsl.
      apply lookup_insert_Some in Hi as [[<- <-]|[Hni Hi]];
        [destruct Ha as [H|H]; done|].
      apply lookup_insert_Some in Hsl as [[Heq <-]|[Hne Hsl]].
      * exfalso. apply Hni. by apply (Hone id i b0 b).
      * by apply (Hbooked i b s).
Qed.

Lemma bookings_stay_consistent_witness :
  consistent (createBooking 0 "b2" "s1" "u2" Sample.db_booked).1
  /\ consistent (cancelBooking 0 "b1" "u1" false Sample.db_booked).1.
Proof.
  assert (H : consistent Sample.db_booked).
  { split.
    - intros i j b b' Hi Hj _ _ _.
      change (({[ "b1" := Sample.b1 BookingStatus.PENDING ]} : gmap string Booking.t) !! i
              = Some b) in Hi.
      change (({[ "b1" := Sample.b1 BookingStatus.PENDING ]} : gmap string Booking.t) !! j
              = Some b') in Hj.
      apply lookup_singleton_Some in Hi as [<- _].
      apply lookup_singleton_Some in Hj as [<- _]. reflexivity.
    - intros i b s Hi _ Hs.
      change (({[ "b1" := Sample.b1 BookingStatus.PENDING ]} : gmap string Booking.t) !! i
              = Some b) in Hi.
      apply lookup_singleton_Some in Hi as [<- <-].
      vm_compute in Hs. by injection Hs as <-. }
  destruct (bookings_stay_consistent 0 Sample.db_booked H) as [Hc Hd].
  split; [apply Hc | apply Hd].
Defined.

(** X4: [getBookingById] writes nothing, answers 404 NOT_FOUND for a key
    that has no booking, and whenever it returns a booking to a requester
    who is not an admin, that booking is the stored row of the key and
    belongs to the requester. *)
Theorem getBookingById_own_or_admin (id requestUserId : string) (isAdmin : bool) (db : Db) :
  let r := getBookingById id requestUserId isAdmin db in
  r.1 = db
  /\ (bookings db !! id = None <-> fails db r NotFound)
  /\ forall d,
       r.2 = Ok d ->
       det_id d = id
       /\ bookings db !! id = Some (det_booking d)
       /\ (isAdmin = false -> Booking.userId (det_booking d) = requestUserId)
       /\ exists slot, slots db !! Booking.slotId (det_booking d) = Some slot
                       /\ det_slot d = view (Booking.slotId (det_booking d)) slot.
Proof.
  intros r. subst r. unfold fails, getBookingById. run_M.
  destruct (bookings db !! id) as [b|] eqn:Hb; simpl.
  2:{ split; [done|]. split; [|done]. split; [|done]. intros _. split; [done|].
      eexists. split; [reflexivity|done]. }
  destruct (users db !! Booking.userId b) as [usr|] eqn:Hu; simpl.
  2:{ split; [done|]. split; [|done]. split; [done|].
      intros [_ (e & [= <-] & Hk)]. done. }
  destruct (slots db !! Booking.slotId b) as [slot|] eqn:Hs; simpl.
  2:{ split; [done|]. split; [|done]. split; [done|].
      intros [_ (e & [= <-] & Hk)]. done. }
  destruct (venues db !! Slot.venueId slot) as [venue|] eqn:Hv; simpl.
  2:{ split; [done|]. split; [|done]. split; [done|].
      intros [_ (e & [= <-] & Hk)]. done. }
  destruct isAdmin; simpl.
  { split; [done|]. split; [split; [done | intros [_ (e & He & _)]; done]|].
    intros d [= <-]. simpl. rewrite Hs. repeat split; try done. by exists slot. }
  destruct (bool_decide (Booking.userId b = requestUserId)) eqn:Hown; simpl.
  - apply bool_decide_eq_true in Hown.
    split; [done|]. split; [split; [done | intros [_ (e & He & _)]; done]|].
    intros d [= <-]. simpl. rewrite Hs. repeat split; try done. by exists slot.
  - split; [done|]. split; [|done]. split; [done|].
    intros [_ (e & [= <-] & Hk)]. done.
Qed.

(** X5: the booking that [createBooking] has just returned reads back with
    [getBookingById]: its owner and any admin get the same row, with the
    slot shown as BOOKED and no refund amount, while any other user who is
    not an admin is refused with 403 FORBIDDEN. *)
Theorem created_booking_reads_back (now : Z) (newId slotId userId : string) (db db' : Db)
  (r : BookingResponse) :
  createBooking now newId slotId userId db = (db', Ok r) ->
  (forall requestUserId isAdmin,
     requestUserId = userId \/ isAdmin = true ->
     exists d,
       getBookingById newId requestUserId isAdmin db' = (db', Ok d)
       /\ (det_id d, det_booking d) = r
       /\ view_id (det_slot d) = slotId
       /\ view_status (det_slot d) = BOOKED
       /\ det_refundAmount d = None)
  /\ (forall other, other <> userId ->
                    fails db' (getBookingById newId other false db') Forbidden).
Proof.
  intros Hr.
  destruct (createBooking_success _ _ _ _ _ _ _ Hr)
    as (slot & venue & Hs & Hst & Hno & Hd & Hv & Hfresh & [usr Hu] & -> & Hdb).
  simpl in Hdb.
  assert (Hb' : bookings db' !! newId
                = Some (Booking.mk userId slotId BookingStatus.PENDING
                          (calculatePrice (Slot.startTime slot) (Slot.endTime slot)
                             (Venue.pricePerHour venue)) PaymentStatus.PENDING None)).
  { rewrite Hdb. simpl. apply lookup_insert_eq. }
  assert (Hs' : slots db' !! slotId = Some (Slot.set_status BOOKED slot)).
  { rewrite Hdb. simpl. apply lookup_insert_eq. }
  assert (Hu' : users db' !! userId = Some usr) by (by rewrite Hdb).
  assert (Hv' : venues db' !! Slot.venueId slot = Some venue) by (by rewrite Hdb).
  split.
  - intros requestUserId isAdmin Hwho.
    unfold getBookingById. run_M. rewrite Hb'. simpl. rewrite Hu', Hs'. simpl.
    rewrite Hv'.
    assert (Hg : negb isAdmin && negb (bool_decide (userId = requestUserId)) = false).
    { destruct Hwho as [->| ->]; [|done].
      rewrite bool_decide_eq_true_2 by done. by destruct isAdmin. }
    rewrite Hg. eexists. split; [reflexivity|]. done.
  - intros other Hne. unfold fails, getBookingById. run_M.
    rewrite Hb'. simpl. rewrite Hu', Hs'. simpl. rewrite Hv'.
    rewrite bool_decide_eq_false_2 by done. simpl.
    split; [done|]. eexists. split; [reflexivity|done].
Qed.

Lemma created_booking_reads_back_witness :
  exists db' r,
    createBooking 0 "b1" "s1" "u1" Sample.db_free = (db', Ok r)
    /\ (exists d, getBookingById "b1" "a1" true db' = (db', Ok d)
                  /\ (det_id d, det_booking d) = r)
    /\ fails db' (getBookingById "b1" "u2" false db') Forbidden.
Proof.
  eexists _, _.
  assert (H : createBooking 0 "b1" "s1" "u1" Sample.db_free = (_, Ok _))
    by (vm_compute; reflexivity).
  destruct (created_booking_reads_back 0 "b1" "s1" "u1" Sample.db_free _ _ H)
    as [Hown Hother].
  split; [exact H|]. split.
  - destruct (Hown "a1" true) as (d & Hd & Hr & _); [by right|]. by exists d.
  - apply Hother. done.
Defined.

End Lifecycle.

(** ** BookingService: amounts of money *)

Module Money.
Import BookingService Spec.

Lemma Qdiv_mono (a b c : Q) : (0 < c)%Q -> (a <= b)%Q -> (a / c <= b / c)%Q.
Proof.
  intros Hc Hab. unfold Qdiv. apply Qmult_le_compat_r; [done|].
  apply Qlt_le_weak, Qinv_lt_0_compat, Hc.
Qed.

Lemma round2_mono (x y : Q) : (x <= y)%Q -> (round2 x <= round2 y)%Q.
Proof.
  intros Hxy. unfold round2.
  assert (Hf : Qfloor (x * 100 + (1 # 2)) <= Qfloor (y * 100 + (1 # 2))).
  { apply Qfloor_resp_le. lra. }
  rewrite Zle_Qle in Hf. apply Qdiv_mono; done.
Qed.

#[local] Instance round2_proper : Proper (Qeq ==> Qeq) round2.
Proof.
  intros x y Hxy. unfold round2.
  assert (H : (x * 100 + (1 # 2) == y * 100 + (1 # 2))%Q) by (by rewrite Hxy).
  by rewrite (Qfloor_comp _ _ H).
Qed.

Lemma round2_cents (k : Z) : (round2 (inject_Z k / 100) == inject_Z k / 100)%Q.
Proof.
  unfold round2.
  assert (Hf : Qfloor (inject_Z k / 100 * 100 + (1 # 2)) = k).
  { pose proof (Qfloor_le (inject_Z k / 100 * 100 + (1 # 2))) as Hle.
    pose proof (Qlt_floor (inject_Z k / 100 * 100 + (1 # 2))) as Hlt.
    set (f := Qfloor (inject_Z k / 100 * 100 + (1 # 2))) in *. clearbody f.
    rewrite inject_Z_plus in Hlt. change (inject_Z 1) with 1%Q in Hlt.
    assert (Heq : (inject_Z k / 100 * 100 == inject_Z k)%Q) by field.
    rewrite Heq in Hle, Hlt.
    assert (H1 : (inject_Z f < inject_Z (k + 1))%Q).
    { rewrite inject_Z_plus. change (inject_Z 1) with 1%Q. lra. }
    assert (H2 : (inject_Z k < inject_Z (f + 1))%Q).
    { rewrite inject_Z_plus. change (inject_Z 1) with 1%Q. lra. }
    rewrite <- Zlt_Qlt in H1, H2. lia. }
  rewrite Hf. reflexivity.
Qed.

Lemma refund_percentage_range (h : Q) :
  refund_percentage h = 0 \/ refund_percentage h = 50 \/ refund_percentage h = 100.
Proof.
  unfold refund_percentage.
  destruct (Qlt_le_dec 24 h); [auto|]. destruct (Qlt_le_dec h 12); auto.
Qed.

Lemma refund_percentage_mono (h1 h2 : Q) :
  (h1 <= h2)%Q -> refund_percentage h1 <= refund_percentage h2.
Proof.
  intros Hh. unfold refund_percentage.
  destruct (Qlt_le_dec 24 h1), (Qlt_le_dec 24 h2); try lia; try lra;
    destruct (Qlt_le_dec h1 12), (Qlt_le_dec h2 12); try lia; lra.
Qed.

(** X6: for a price [p] that is a whole number of cents, the refund that
    [calculateRefund] computes lies between 0 and [p], is exactly [p] when
    the percentage is 100, and a start that is further away never gives a
    smaller refund. *)
Theorem refund_bounded_and_monotone (now1 now2 t1 t2 k : Z) (p : Q) :
  (p == inject_Z k / 100)%Q ->
  0 <= k ->
  t1 - now1 <= t2 - now2 ->
  let info1 := calculateRefund now1 (Some t1) (Some p) in
  let info2 := calculateRefund now2 (Some t2) (Some p) in
  exists q1 q2,
    amount info1 = Some q1 /\ amount info2 = Some q2
    /\ (0 <= q1)%Q /\ (q1 <= q2)%Q /\ (q2 <= p)%Q
    /\ (percentage info2 = 100 -> (q2 == p)%Q)
    /\ (eligible info2 = false -> (q2 == 0)%Q).
Proof.
  intros Hp Hk Ht info1 info2. subst info1 info2.
  destruct (Refund.calculateRefund_policy now1 t1 p) as [Hp1 (q1 & Hq1 & He1)].
  destruct (Refund.calculateRefund_policy now2 t2 p) as [Hp2 (q2 & Hq2 & He2)].
  cbv zeta in *.
  assert (Heli : eligible (calculateRefund now2 (Some t2) (Some p))
                 = (0 <? percentage (calculateRefund now2 (Some t2) (Some p)))).
  { unfold calculateRefund.
    repeat match goal with |- context [if ?c then _ else _] => destruct c end;
      reflexivity. }
  set (h1 := (inject_Z (t1 - now1) / 3600000)%Q) in *.
  set (h2 := (inject_Z (t2 - now2) / 3600000)%Q) in *.
  assert (Hh : (h1 <= h2)%Q).
  { subst h1 h2. rewrite Zle_Qle in Ht. apply Qdiv_mono; done. }
  pose proof (refund_percentage_mono h1 h2 Hh) as Hmono.
  pose proof (refund_percentage_range h1) as Hr1.
  pose proof (refund_percentage_range h2) as Hr2.
  rewrite Heli. rewrite Hp1 in He1. rewrite Hp2 in He2. rewrite Hp2.
  clear Hp1 Hp2 Heli. clearbody h1 h2.
  set (c1 := refund_percentage h1) in *. set (c2 := refund_percentage h2) in *.
  clearbody c1 c2.
  assert (Hk' : (0 <= inject_Z k)%Q) by (change 0%Q with (inject_Z 0); by rewrite <- Zle_Qle).
  assert (H0 : (round2 0 == 0)%Q) by reflexivity.
  assert (Hfull : (round2 p == p)%Q).
  { rewrite Hp. apply round2_cents. }
  assert (Hc1 : (0 <= inject_Z c1)%Q /\ (inject_Z c1 <= inject_Z c2)%Q
                /\ (inject_Z c2 <= 100)%Q).
  { repeat split.
    - change 0%Q with (inject_Z 0). rewrite <- Zle_Qle. lia.
    - rewrite <- Zle_Qle. lia.
    - change 100%Q with (inject_Z 100). rewrite <- Zle_Qle. lia. }
  destruct Hc1 as (Ha & Hb & Hc).
  assert (Hp0 : (0 <= p)%Q).
  { rewrite Hp. apply Qle_trans with (0 / 100)%Q; [done|]. by apply Qdiv_mono. }
  exists q1, q2. split; [done|]. split; [done|].
  assert (Hx1 : (0 <= p * inject_Z c1 / 100)%Q).
  { assert (H : (0 <= p * inject_Z c1)%Q) by (apply Qmult_le_0_compat; done).
    apply Qle_trans with (0 / 100)%Q; [done|]. by apply Qdiv_mono. }
  assert (Hx12 : (p * inject_Z c1 / 100 <= p * inject_Z c2 / 100)%Q).
  { apply Qdiv_mono; [done|].
    rewrite !(Qmult_comm p). apply Qmult_le_compat_r; done. }
  assert (Hx2 : (p * inject_Z c2 / 100 <= p)%Q).
  { assert (H : (p * inject_Z c2 <= p * 100)%Q).
    { rewrite !(Qmult_comm p). apply Qmult_le_compat_r; done. }
    apply (Qdiv_mono _ _ 100) in H; [|done].
    assert (Heq : (p * 100 / 100 == p)%Q) by field.
    by rewrite Heq in H. }
  split; [rewrite He1, <- H0; by apply round2_mono|].
  split; [rewrite He1, He2; by apply round2_mono|].
  split.
  { rewrite He2. apply Qle_trans with (round2 p); [by apply round2_mono|].
    rewrite Hfull. apply Qle_refl. }
  split.
  - intros ->. rewrite He2.
    assert (Heq : (p * inject_Z 100 / 100 == p)%Q)
      by (change (inject_Z 100) with 100%Q; field).
    by rewrite Heq.
  - intros Hz. apply Z.ltb_ge in Hz. assert (c2 = 0) by lia. subst c2.
    rewrite He2.
    assert (Heq : (p * inject_Z 0 / 100 == 0)%Q) by (change (inject_Z 0) with 0%Q; field).
    by rewrite Heq.
Qed.

Lemma refund_bounded_and_monotone_witness :
  exists q1 q2,
    amount (calculateRefund 0 (Some (13 * 3600000)) (Some 80%Q)) = Some q1
    /\ amount (calculateRefund 0 (Some (30 * 3600000)) (Some 80%Q)) = Some q2
    /\ (q1 <= q2)%Q /\ (q2 <= 80)%Q.
Proof.
  destruct (refund_bounded_and_monotone 0 0 (13 * 3600000) (30 * 3600000) 8000 80)
    as (q1 & q2 & H1 & H2 & _ & H12 & Hp & _); [reflexivity | lia | lia |].
  exists q1, q2. done.
Defined.

Lemma price_mono (a b1 b2 : Z) (p : Q) :
  (0 <= p)%Q -> b1 <= b2 -> (price a b1 p <= price a b2 p)%Q.
Proof.
  intros Hp Hb. unfold price. apply round2_mono.
  apply Qmult_le_compat_r; [|done]. apply Qdiv_mono; [done|].
  rewrite <- Zle_Qle. lia.
Qed.

Lemma price_zero (a : Z) (p : Q) : (price a a p == 0)%Q.
Proof.
  unfold price. rewrite Z.sub_diag.
  assert (H : (inject_Z 0 / 60 * p == 0)%Q) by (change (inject_Z 0) with 0%Q; field).
  by rewrite H.
Qed.

(** X7: on times of day spelled as the store holds them, with a price per
    hour that is not negative, [calculatePrice] gives 0 for a slot that ends
    when it starts, never a negative price for a slot that ends after it
    starts, and never a smaller price for a later end. *)
Theorem calculatePrice_grows (s e1 e2 : string) (sh sm h1 m1 h2 m2 : Z) (p : Q) :
  time_string s sh sm ->
  time_string e1 h1 m1 ->
  time_string e2 h2 m2 ->
  (0 <= p)%Q ->
  60 * sh + sm <= 60 * h1 + m1 ->
  60 * h1 + m1 <= 60 * h2 + m2 ->
  exists q0 q1 q2,
    calculatePrice s s (Some p) = Some q0
    /\ calculatePrice s e1 (Some p) = Some q1
    /\ calculatePrice s e2 (Some p) = Some q2
    /\ (q0 == 0)%Q /\ (0 <= q1)%Q /\ (q1 <= q2)%Q.
Proof.
  intros Hs He1 He2 Hp H1 H2.
  destruct (Create.calculatePrice_time_strings s s sh sm sh sm p Hs Hs) as (q0 & Hq0 & E0).
  destruct (Create.calculatePrice_time_strings s e1 sh sm h1 m1 p Hs He1) as (q1 & Hq1 & E1).
  destruct (Create.calculatePrice_time_strings s e2 sh sm h2 m2 p Hs He2) as (q2 & Hq2 & E2).
  exists q0, q1, q2. repeat split; try done.
  - rewrite E0. apply price_zero.
  - rewrite E1, <- (price_zero (60 * sh + sm) p). by apply price_mono.
  - rewrite E1, E2. by apply price_mono.
Qed.

Lemma calculatePrice_grows_witness :
  exists q0 q1 q2,
    calculatePrice "9:30" "9:30" (Some 30%Q) = Some q0
    /\ calculatePrice "9:30" "11:00" (Some 30%Q) = Some q1
    /\ calculatePrice "9:30" "12:15" (Some 30%Q) = Some q2
    /\ (q0 == 0)%Q /\ (0 <= q1)%Q /\ (q1 <= q2)%Q.
Proof.
  apply (calculatePrice_grows "9:30" "11:00" "12:15" 9 30 11 0 12 15 30).
  - split; [unfold is_time; lia|]. right. split; [lia | reflexivity].
  - split; [unfold is_time; lia|]. left. reflexivity.
  - split; [unfold is_time; lia|]. left. reflexivity.
  - done.
  - lia.
  - lia.
Defined.

(** X8: for a start time that parses as a date, the label that the page of
    the bookings shows ([getRefundInfo]) agrees with the percentage that the
    server refunds ([calculateRefund]) at the same clock, except at exactly
    12 hours before the start, where the page announces no refund and the
    server refunds 50%.  For a start time stored as a time of day the label
    is always the one for an elapsed time. *)
Theorem refund_label_matches_server (now t : Z) (s : string) (p : Q) :
  JS.Date_new s = Some t ->
  let h := (inject_Z (t - now) / 3600000)%Q in
  let pct := percentage (calculateRefund now (Some t) (Some p)) in
  let label := MyBookingsPage.getRefundInfo now (Some s) in
  (~ (h == 12)%Q ->
   (label = "100% возврат средств" <-> pct = 100)
   /\ (label = "50% возврат средств" <-> pct = 50)
   /\ (label = "Возврат не предусмотрен" \/ label = "Время истекло" <-> pct = 0))
  /\ ((h == 12)%Q -> label = "Возврат не предусмотрен" /\ pct = 50)
  /\ forall hh mm, MyBookingsPage.getRefundInfo now (Some (JS.HHMM hh mm)) = "Время истекло".
Proof.
  intros Hs h pct label.
  destruct (Refund.calculateRefund_policy now t p) as [Hp _]. cbv zeta in Hp.
  fold h in Hp. fold pct in Hp. clearbody pct. subst pct.
  subst label. unfold MyBookingsPage.getRefundInfo. rewrite Hs.
  set (h' := JS.div _ _).
  assert (Hh : h' = Some ((inject_Z t - inject_Z now) / inject_Z 3600000)%Q)
    by reflexivity.
  assert (Heq : ((inject_Z t - inject_Z now) / inject_Z 3600000 == h)%Q).
  { subst h. unfold Zminus. rewrite inject_Z_plus, inject_Z_opp. reflexivity. }
  clearbody h'. subst h'. clearbody h.
  change (JS.num 24) with (Some 24%Q). change (JS.num 12) with (Some 12%Q).
  change (JS.num 0) with (Some 0%Q).
  assert (Hgt : forall c : Q,
            JS.gt (Some ((inject_Z t - inject_Z now) / inject_Z 3600000)%Q) (Some c)
            = true <-> (c < h)%Q).
  { intros c. rewrite Refund.gt_spec, Heq. reflexivity. }
  split; [|split]; [| |intros hh mm; reflexivity].
  - intros Hne. unfold refund_percentage.
    destruct (JS.gt _ (Some 24%Q)) eqn:G24.
    { apply Hgt in G24. destruct (Qlt_le_dec 24 h); [|lra]. repeat split; try done.
      intros [?|?]; done. }
    assert (H24 : ~ (24 < h)%Q) by (intros H; apply Hgt in H; congruence).
    destruct (Qlt_le_dec 24 h); [done|].
    destruct (JS.gt _ (Some 12%Q)) eqn:G12.
    { apply Hgt in G12. destruct (Qlt_le_dec h 12); [lra|]. repeat split; try done.
      intros [?|?]; done. }
    assert (H12 : ~ (12 < h)%Q) by (intros H; apply Hgt in H; congruence).
    destruct (Qlt_le_dec h 12) as [Hlt|Hge].
    2:{ exfalso. apply Hne. apply Qle_antisym; [|done]. by apply Qnot_lt_le. }
    destruct (JS.gt _ (Some 0%Q)); repeat split; try done; auto.
  - intros H12. unfold refund_percentage.
    assert (G24 : JS.gt (Some ((inject_Z t - inject_Z now) / inject_Z 3600000)%Q)
                    (Some 24%Q) = false).
    { apply not_true_is_false. intros H. apply Hgt in H. rewrite H12 in H. done. }
    assert (G12 : JS.gt (Some ((inject_Z t - inject_Z now) / inject_Z 3600000)%Q)
                    (Some 12%Q) = false).
    { apply not_true_is_false. intros H. apply Hgt in H. rewrite H12 in H. done. }
    assert (G0 : JS.gt (Some ((inject_Z t - inject_Z now) / inject_Z 3600000)%Q)
                   (Some 0%Q) = true).
    { apply Hgt. rewrite H12. done. }
    rewrite G24, G12, G0. split; [reflexivity|].
    destruct (Qlt_le_dec 24 h) as [H|_]; [rewrite H12 in H; done|].
    destruct (Qlt_le_dec h 12) as [H|_]; [rewrite H12 in H; done|]. reflexivity.
Qed.

Lemma refund_label_matches_server_witness :
  MyBookingsPage.getRefundInfo (Sample.slotStart - 12 * JS.msPerHour)
    (Some "2025-06-15T10:00:00.000Z") = "Возврат не предусмотрен"
  /\ percentage (calculateRefund (Sample.slotStart - 12 * JS.msPerHour)
                   (Some Sample.slotStart) (Some 80%Q)) = 50.
Proof.
  refine (proj1 (proj2 (refund_label_matches_server
                          (Sample.slotStart - 12 * JS.msPerHour) Sample.slotStart
                          "2025-06-15T10:00:00.000Z" 80 _)) _).
  - vm_compute. reflexivity.
  - vm_compute. reflexivity.
Defined.

End Money.

(** ** SlotService: the slots an admin manages *)

Module SlotAdmin.
Import SlotService Spec Invariant SlotTerms.

Lemma str_le_refl (s : string) : JS.str_le s s = true.
Proof.
  unfold JS.str_le, String.leb.
  pose proof (String.compare_antisym s s) as Ha.
  destruct (String.compare s s); simpl in Ha; congruence.
Qed.

(** The overlap query on a valid start. *)
Lemma hasSlotOverlap_run (venueId : string) (st : Z) (en : JS.Date)
  (excludeSlotId : option string) (db : Db) :
  hasSlotOverlap venueId (Some st) en excludeSlotId db
  = (db, Ok (existsb
               (fun kv : string * Slot.t =>
                  overlaps (JS.toTimeString5 (Some st)) (JS.toTimeString5 en) kv.2)
               (Prisma.findMany (onDate venueId (dayOf st) excludeSlotId) (slots db)))).
Proof.
  unfold hasSlotOverlap. destruct (Overlap.midnight st) as [-> Hd]. rewrite Hd.
  reflexivity.
Qed.

Lemma flagged_iff (db : Db) (venueId : string) (st : Z) (en : JS.Date)
  (excludeSlotId : option string) :
  existsb
    (fun kv : string * Slot.t =>
       overlaps (JS.toTimeString5 (Some st)) (JS.toTimeString5 en) kv.2)
    (Prisma.findMany (onDate venueId (dayOf st) excludeSlotId) (slots db)) = true
  <-> flagged db venueId st en excludeSlotId.
Proof.
  rewrite (exists_findMany
             (overlaps (JS.toTimeString5 (Some st)) (JS.toTimeString5 en))).
  unfold flagged. split.
  - intros (id & slot & Hs & Hf & Ho). exists id, slot. split; [|done].
    by apply Overlap.onDate_spec.
  - intros (id & slot & Hc & Ho). exists id, slot.
    apply Overlap.onDate_spec in Hc as [Hs Hf]. done.
Qed.

(** The throwing form of the overlap check, on a valid start. *)
Lemma checkSlotOverlap_run (venueId : string) (st : Z) (en : JS.Date)
  (excludeSlotId : option string) (db : Db) :
  (flagged db venueId st en excludeSlotId ->
   checkSlotOverlap venueId (Some st) en excludeSlotId db
   = (db, Err (AppError 409 "CONFLICT" "Time slot overlaps with existing slot")))
  /\ (~ flagged db venueId st en excludeSlotId ->
      checkSlotOverlap venueId (Some st) en excludeSlotId db = (db, Ok tt)).
Proof.
  unfold checkSlotOverlap. unfold mbind, M_bind. rewrite hasSlotOverlap_run.
  pose proof (flagged_iff db venueId st en excludeSlotId) as Hf.
  destruct (existsb _ _).
  - split; [done|]. intros Hn. exfalso. apply Hn, Hf. done.
  - split; [|done]. intros Hy. apply Hf in Hy. done.
Qed.

Lemma classic_flagged (db : Db) (venueId : string) (st : Z) (en : JS.Date)
  (excludeSlotId : option string) :
  flagged db venueId st en excludeSlotId \/ ~ flagged db venueId st en excludeSlotId.
Proof.
  pose proof (flagged_iff db venueId st en excludeSlotId) as Hf.
  destruct (existsb _ _).
  - left. by apply Hf.
  - right. intros H. apply Hf in H. done.
Qed.

Lemma checkSlotOverlap_invalid (venueId : string) (en : JS.Date)
  (excludeSlotId : option string) (db : Db) :
  checkSlotOverlap venueId None en excludeSlotId db = (db, Err Prisma.Validation).
Proof. reflexivity. Qed.


(** A call of [createSlot] that returned a slot passed every check and
    wrote its row. *)
Lemma createSlot_success (newId : string) (data : CreateSlotInput) (userId : string)
  (db db' : Db) (resp : SlotResponse) :
  createSlot newId data userId db = (db', Ok resp) ->
  exists st,
    is_Some (venues db !! cs_venueId data)
    /\ is_admin db userId
    /\ JS.Date_new (cs_startTime data) = Some st
    /\ ~ flagged db (cs_venueId data) st (JS.Date_new (cs_endTime data)) None
    /\ slots db !! newId = None
    /\ db' = Prisma.set_slots (<[newId := created data st]> (slots db)) db
    /\ resp = mkSlotResponse newId (created data st) false.
Proof.
  unfold is_admin, createSlot. run_M.
  destruct (venues db !! cs_venueId data) as [venue|] eqn:Hv; simpl; [|done].
  destruct (users db !! userId) as [user|] eqn:Hu; simpl; [|done].
  destruct (bool_decide (User.role user = ADMIN)) eqn:Hr; simpl; [|done].
  apply bool_decide_eq_true in Hr.
  destruct (JS.Date_new (cs_startTime data)) as [st|] eqn:Hst; [|done].
  destruct (checkSlotOverlap_run (cs_venueId data) st (JS.Date_new (cs_endTime data))
              None db) as [Hyes Hno].
  destruct (classic_flagged db (cs_venueId data) st (JS.Date_new (cs_endTime data)) None)
    as [Hf|Hf].
  { rewrite (Hyes Hf). done. }
  rewrite (Hno Hf). unfold Prisma.slot_create.
  destruct (slots db !! newId) eqn:Hfresh; [done|]. cbn [Slot.venueId]. rewrite Hv.
  intros [= <- <-]. exists st. repeat split; try done. by exists user.
Qed.



Lemma minutes_of_bounds (a lo hi d : Z) :
  0 < d ->
  (inject_Z lo <= inject_Z a / inject_Z d)%Q ->
  (inject_Z a / inject_Z d <= inject_Z hi)%Q ->
  lo * d <= a <= hi * d.
Proof.
  intros Hd Hlo Hhi.
  assert (Hd' : (0 < inject_Z d)%Q) by (change 0%Q with (inject_Z 0); by rewrite <- Zlt_Qlt).
  assert (Hne : ~ (inject_Z d == 0)%Q) by (intros H; rewrite H in Hd'; done).
  assert (Heq : (inject_Z a / inject_Z d * inject_Z d == inject_Z a)%Q) by (by field).
  apply (Qmult_le_compat_r _ _ (inject_Z d)) in Hlo; [|by apply Qlt_le_weak].
  apply (Qmult_le_compat_r _ _ (inject_Z d)) in Hhi; [|by apply Qlt_le_weak].
  rewrite Heq in Hlo, Hhi. rewrite <- inject_Z_mult in Hlo, Hhi.
  rewrite <- Zle_Qle in Hlo, Hhi. done.
Qed.

Lemma same_day_minutes (st en : Z) :
  dayOf st = dayOf en ->
  30 * 60000 <= en - st <= 480 * 60000 ->
  30 <= minuteOfDay en - minuteOfDay st <= 480.
Proof.
  unfold dayOf, minuteOfDay, JS.msPerDay, JS.msPerMinute. intros Hday Hd.
  Z.div_mod_to_equations. lia.
Qed.

(** The refinements of the schema accept only valid dates that are
    between 30 minutes and 8 hours apart. *)
Lemma refinements_duration (data : CreateSlotInput) (st en : Z) :
  SlotTypes.refinements data = true ->
  JS.Date_new (cs_startTime data) = Some st ->
  JS.Date_new (cs_endTime data) = Some en ->
  30 * 60000 <= en - st <= 480 * 60000.
Proof.
  unfold SlotTypes.refinements, SlotTypes.endAfterStart, SlotTypes.durationInRange.
  intros H Hst Hen. rewrite Hst, Hen in H.
  apply andb_true_iff in H as [_ H]. apply andb_true_iff in H as [Hlo Hhi].
  cbn in Hlo, Hhi. apply Qle_bool_iff in Hlo, Hhi.
  assert (Heq : (inject_Z en - inject_Z st == inject_Z (en - st))%Q).
  { unfold Z.sub. rewrite inject_Z_plus, inject_Z_opp. reflexivity. }
  change (inject_Z (1000 * 60)) with (inject_Z 60000) in Hlo, Hhi.
  rewrite Heq in Hlo, Hhi.
  apply (minutes_of_bounds (en - st) 30 480 60000); done.
Qed.



(** [deleteSlot] either throws and leaves the store as it is, or deletes a
    slot that has no active booking, together with the bookings of it. *)
Lemma deleteSlot_cases (id userId : string) (db : Db) :
  let r := deleteSlot id userId db in
  (r.1 = db /\ exists e, r.2 = Err e)
  \/ (exists slot,
        slots db !! id = Some slot
        /\ is_admin db userId
        /\ ~ has_active_booking db id
        /\ r = (mkDb (users db) (venues db) (delete id (slots db))
                  (filter (fun kv : string * Booking.t => Booking.slotId kv.2 <> id)
                     (bookings db))
                  (reviews db),
                Ok tt)).
Proof.
  intros r. subst r. unfold is_admin, deleteSlot. run_M.
  pose proof (Availability.activeBookings_iff db id) as Hact.
  destruct (slots db !! id) as [slot|] eqn:Hs; simpl; [|left; split; [done | by eexists]].
  destruct (venues db !! Slot.venueId slot) as [venue|] eqn:Hv; simpl;
    [|left; split; [done | by eexists]].
  destruct (users db !! userId) as [user|] eqn:Hu; simpl;
    [|left; split; [done | by eexists]].
  destruct (bool_decide (User.role user = ADMIN)) eqn:Hr; simpl;
    [|left; split; [done | by eexists]].
  apply bool_decide_eq_true in Hr.
  destruct (0 <? length (BookingService.activeBookings db id))%nat eqn:Hb; simpl;
    [left; split; [done | by eexists]|].
  right. exists slot. split; [done|]. split; [by exists user|]. split.
  - intros H. apply Hact in H. congruence.
  - unfold Prisma.slot_delete. rewrite Hs. reflexivity.
Qed.

(** X12: [deleteSlot] checks, in this order, the slot (404), the user
    (404), the role of the user as stored (403) and the active bookings of
    the slot (400), and writes nothing when one of them fails; otherwise it
    removes the slot and, with it, every booking of the slot, and nothing
    else. *)
Theorem deleteSlot_outcomes (id userId : string) (db : Db) :
  let r := deleteSlot id userId db in
  (slots db !! id = None -> fails db r NotFound)
  /\ forall slot,
       slots db !! id = Some slot ->
       is_Some (venues db !! Slot.venueId slot) ->
       (users db !! userId = None -> fails db r NotFound)
       /\ (forall user, users db !! userId = Some user -> User.role user <> ADMIN ->
                        fails db r Forbidden)
       /\ (is_admin db userId ->
           (has_active_booking db id -> fails db r BadRequest)
           /\ (~ has_active_booking db id ->
               r.2 = Ok tt
               /\ slots r.1 = delete id (slots db)
               /\ (forall bid b,
                     bookings r.1 !! bid = Some b
                     <-> bookings db !! bid = Some b /\ Booking.slotId b <> id)
               /\ users r.1 = users db /\ venues r.1 = venues db
               /\ reviews r.1 = reviews db)).
Proof.
  intros r. subst r. unfold fails, is_admin, deleteSlot. run_M.
  pose proof (Availability.activeBookings_iff db id) as Hact.
  destruct (slots db !! id) as [slot|] eqn:Hs; simpl.
  2:{ split; [|done]. intros _. split; [done|]. eexists. split; [reflexivity|done]. }
  split; [done|]. intros ? [= <-] [venue Hv]. rewrite Hv. simpl.
  destruct (users db !! userId) as [user|] eqn:Hu; simpl.
  2:{ split; [|split]; [|done|intros (? & ? & _); done].
      intros _. split; [done|]. eexists. split; [reflexivity|done]. }
  split; [done|].
  destruct (bool_decide (User.role user = ADMIN)) eqn:Hr; simpl.
  2:{ apply bool_decide_eq_false in Hr. split.
      - intros ? [= <-] _. split; [done|]. eexists. split; [reflexivity|done].
      - intros (? & [= <-] & ?). done. }
  split; [intros ? [= <-] ?; by apply bool_decide_eq_true in Hr|]. intros _.
  destruct (0 <? length (BookingService.activeBookings db id))%nat eqn:Hb; simpl.
  - split; [|intros Hn; exfalso; by apply Hn, Hact].
    intros _. split; [done|]. eexists. split; [reflexivity|done].
  - split; [intros H; apply Hact in H; congruence|]. intros _.
    unfold Prisma.slot_delete. rewrite Hs. simpl.
    repeat split; try done.
    + by apply map_lookup_filter_Some in H as [Hx1 Hx2].
    + by apply map_lookup_filter_Some in H as [Hx1 Hx2].
    + intros [Hx1 Hx2]. by apply map_lookup_filter_Some.
Qed.

(** X13: whatever its arguments and its outcome, [deleteSlot] removes no
    active booking and no slot that has one, and adds no booking; and it
    keeps every foreign key of the store pointing to a row. *)
Theorem deleteSlot_spares_active (id userId : string) (db : Db) :
  let db' := (deleteSlot id userId db).1 in
  (forall bid b,
     bookings db !! bid = Some b -> active b ->
     bookings db' !! bid = Some b
     /\ slots db' !! Booking.slotId b = slots db !! Booking.slotId b)
  /\ (forall bid b, bookings db' !! bid = Some b -> bookings db !! bid = Some b)
  /\ (referential db -> referential db').
Proof.
  intros db'. subst db'.
  destruct (deleteSlot_cases id userId db) as [[-> _]|(slot & Hs & _ & Hno & ->)];
    [done|].
  cbn [fst]. split; [|split].
  - intros bid b Hb Ha. cbn [bookings slots].
    assert (Hne : Booking.slotId b <> id).
    { intros <-. apply Hno. by exists bid, b. }
    split; [by apply map_lookup_filter_Some | by apply lookup_delete_ne].
  - intros bid b Hb. cbn [bookings] in Hb. by apply map_lookup_filter_Some in Hb as [? ?].
  - intros (Hbk & Hsl & Hrv). split; [|split]; cbn [bookings slots users venues reviews].
    + intros bid b Hb. apply map_lookup_filter_Some in Hb as [Hb Hne]. simpl in Hne.
      destruct (Hbk bid b Hb) as [Hu Hsb]. split; [done|].
      by rewrite lookup_delete_ne.
    + intros sid s0 Hs0. apply lookup_delete_Some in Hs0 as [_ Hs0]. by apply (Hsl sid).
    + done.
Qed.

(** The overlap check writes nothing. *)
Lemma checkSlotOverlap_pure (venueId : string) (startTime endTime : JS.Date)
  (excludeSlotId : option string) (db : Db) :
  exists r, checkSlotOverlap venueId startTime endTime excludeSlotId db = (db, r).
Proof.
  destruct startTime as [st|]; [|by eexists].
  destruct (checkSlotOverlap_run venueId st endTime excludeSlotId db) as [Hyes Hno].
  destruct (classic_flagged db venueId st endTime excludeSlotId) as [Hf|Hf].
  - eexists. by apply Hyes.
  - eexists. by apply Hno.
Qed.

(** What the change of [updateSlot] leaves of the row. *)
Lemma updateData_frame (data : UpdateSlotInput) (f : Slot.t -> Slot.t) (s : Slot.t) :
  updateData data = Some f ->
  Slot.venueId (f s) = Slot.venueId s
  /\ (truthy (us_startTime data) = false ->
      Slot.date (f s) = Slot.date s /\ Slot.startTime (f s) = Slot.startTime s)
  /\ (truthy (us_endTime data) = false -> Slot.endTime (f s) = Slot.endTime s)
  /\ (us_status data = None -> Slot.status (f s) = Slot.status s).
Proof.
  unfold updateData.
  destruct (truthy (us_startTime data)) eqn:Hs.
  - destruct (JS.Date_new (default "" (us_startTime data))) as [t|]; [|done].
    intros [= <-].
    destruct (truthy (us_endTime data)), (us_status data); simpl; repeat split; done.
  - intros [= <-].
    destruct (truthy (us_endTime data)), (us_status data); simpl; repeat split; done.
Qed.

(** [updateSlot] either throws and leaves the store as it is, or rewrites
    the row of the slot. *)
Lemma updateSlot_cases (id : string) (data : UpdateSlotInput) (userId : string) (db : Db) :
  let r := updateSlot id data userId db in
  (r.1 = db /\ exists e, r.2 = Err e)
  \/ (exists slot f,
        slots db !! id = Some slot
        /\ is_admin db userId
        /\ updateData data = Some f
        /\ (has_active_booking db id ->
            truthy (us_startTime data) = false /\ truthy (us_endTime data) = false)
        /\ r.1 = Prisma.set_slots (<[id := f slot]> (slots db)) db
        /\ exists resp, r.2 = Ok resp /\ sr_id resp = id /\ sr_slot resp = f slot).
Proof.
  intros r. subst r. unfold is_admin, updateSlot. run_M.
  pose proof (Availability.activeBookings_iff db id) as Hact.
  destruct (slots db !! id) as [slot|] eqn:Hs; simpl; [|left; split; [done | by eexists]].
  destruct (venues db !! Slot.venueId slot) as [venue|] eqn:Hv; simpl;
    [|left; split; [done | by eexists]].
  destruct (users db !! userId) as [user|] eqn:Hu; simpl;
    [|left; split; [done | by eexists]].
  destruct (bool_decide (User.role user = ADMIN)) eqn:Hr; simpl;
    [|left; split; [done | by eexists]].
  apply bool_decide_eq_true in Hr.
  destruct ((0 <? length (BookingService.activeBookings db id))%nat
            && (truthy (us_startTime data) || truthy (us_endTime data))) eqn:Hb; simpl;
    [left; split; [done | by eexists]|].
  assert (Hfrozen : has_active_booking db id ->
                    truthy (us_startTime data) = false
                    /\ truthy (us_endTime data) = false).
  { intros H. apply Hact in H. rewrite H in Hb. simpl in Hb.
    by apply orb_false_iff in Hb. }
  assert (Hwrite : forall f,
            updateData data = Some f ->
            exists resp,
              (let (db', r) := Prisma.slot_update id f db in
               match r with
               | Ok a => (db', Ok (mkSlotResponse id a (someActive db' id)))
               | Err e => (db', Err e)
               end)
              = (Prisma.set_slots (<[id := f slot]> (slots db)) db, Ok resp)
              /\ sr_id resp = id /\ sr_slot resp = f slot).
  { intros f _. unfold Prisma.slot_update. rewrite Hs. eexists. split; [reflexivity|done]. }
  destruct (truthy (us_startTime data) || truthy (us_endTime data)) eqn:Ht.
  - match goal with
    | |- context [checkSlotOverlap ?v ?s ?e ?x ?d] =>
        destruct (checkSlotOverlap_pure v s e x d) as [rc Hrc]; rewrite Hrc
    end.
    destruct rc as [[]|e]; [|left; split; [done | by eexists]].
    destruct (updateData data) as [f|] eqn:Hf; simpl; [|left; split; [done | by eexists]].
    destruct (Hwrite f eq_refl) as (resp & -> & Hid & Hrow).
    right. exists slot, f. repeat split; try done; [by exists user | by apply Hfrozen
      | by apply Hfrozen | by exists resp].
  - destruct (updateData data) as [f|] eqn:Hf; simpl; [|left; split; [done | by eexists]].
    destruct (Hwrite f eq_refl) as (resp & -> & Hid & Hrow).
    right. exists slot, f. repeat split; try done; [by exists user | by apply Hfrozen
      | by apply Hfrozen | by exists resp].
Qed.

(** X14: whatever its arguments and its outcome, [updateSlot] touches no
    table but the slots and no slot but the one named; it neither creates
    nor removes that slot nor moves it to another venue; it leaves its day
    and its two times as they are when the slot has an active booking or
    when the request gives no time, and its status when the request gives
    none. *)
Theorem updateSlot_frame (id : string) (data : UpdateSlotInput) (userId : string) (db : Db) :
  let db' := (updateSlot id data userId db).1 in
  users db' = users db /\ venues db' = venues db
  /\ bookings db' = bookings db /\ reviews db' = reviews db
  /\ (forall id', id' <> id -> slots db' !! id' = slots db !! id')
  /\ (slots db !! id = None -> slots db' !! id = None)
  /\ forall slot,
       slots db !! id = Some slot ->
       exists slot',
         slots db' !! id = Some slot'
         /\ Slot.venueId slot' = Slot.venueId slot
         /\ (has_active_booking db id
             \/ (truthy (us_startTime data) = false /\ truthy (us_endTime data) = false) ->
             Slot.date slot' = Slot.date slot
             /\ Slot.startTime slot' = Slot.startTime slot
             /\ Slot.endTime slot' = Slot.endTime slot)
         /\ (us_status data = None -> Slot.status slot' = Slot.status slot).
Proof.
  intros db'. subst db'.
  destruct (updateSlot_cases id data userId db)
    as [[-> _]|(slot & f & Hs & _ & Hf & Hfrozen & -> & _)].
  { repeat split; try done. intros slot Hs. exists slot. repeat split; done. }
  destruct (updateData_frame data f slot Hf) as (Hv & Hstart & Hend & Hstatus).
  cbn [Prisma.set_slots users venues bookings reviews slots].
  repeat match goal with |- _ /\ _ => split; [done|] end.
  split; [intros id' Hne; by apply lookup_insert_ne|].
  split; [intros Hnone; congruence|].
  intros slot0 Hs0. assert (slot0 = slot) by congruence. subst slot0.
  exists (f slot). split; [apply lookup_insert_eq|]. split; [done|]. split; [|done].
  intros Hwhy.
  assert (Hno : truthy (us_startTime data) = false /\ truthy (us_endTime data) = false).
  { destruct Hwhy as [Hact|Hno]; [by apply Hfrozen | done]. }
  destruct Hno as [H1 H2]. destruct (Hstart H1) as [Hd Hst]. by rewrite Hd, Hst, Hend.
Qed.

Lemma someActive_iff (db : Db) (slotId : string) :
  someActive db slotId = true <-> has_active_booking db slotId.
Proof.
  unfold someActive, has_active_booking, active.
  pose proof (exists_findMany
                (fun b => bool_decide (Booking.status b = BookingStatus.CONFIRMED)
                          || bool_decide (Booking.status b = BookingStatus.PENDING))
                (fun (_ : string) b => bool_decide (Booking.slotId b = slotId))
                (bookings db)) as H.
  cbv beta in H. rewrite H. clear H.
  split.
  - intros (id & b & Hb & Hs & Hst). exists id, b. split; [done|].
    apply bool_decide_eq_true in Hs. split; [done|].
    apply orb_true_iff in Hst as [H|H]; apply bool_decide_eq_true in H; auto.
  - intros (id & b & Hb & Hs & Hst). exists id, b. split; [done|].
    split; [by apply bool_decide_eq_true|].
    apply orb_true_iff. destruct Hst as [H|H]; [right | left];
      by apply bool_decide_eq_true.
Qed.

Lemma truthy_Some (s : string) : s <> "" -> truthy (Some s) = true.
Proof. intros H. simpl. by apply negb_true_iff, String.eqb_neq. Qed.



(** A call of [createSlot] that throws leaves the store as it is. *)
Lemma createSlot_throws_clean (newId : string) (data : CreateSlotInput) (userId : string)
  (db db' : Db) (e : error) :
  createSlot newId data userId db = (db', Err e) -> db' = db.
Proof.
  unfold createSlot. run_M.
  destruct (venues db !! cs_venueId data) as [venue|] eqn:Hv; simpl; [|congruence].
  destruct (users db !! userId) as [user|] eqn:Hu; simpl; [|congruence].
  destruct (bool_decide (User.role user = ADMIN)) eqn:Hr; simpl; [|congruence].
  match goal with
  | |- context [checkSlotOverlap ?v ?s ?e ?x ?d] =>
      destruct (checkSlotOverlap_pure v s e x d) as [rc Hrc]; rewrite Hrc
  end.
  destruct rc as [[]|e']; [|congruence].
  destruct (JS.Date_new (cs_startTime data)) as [st|]; [|congruence].
  unfold Prisma.slot_create.
  destruct (slots db !! newId); [congruence|]. cbn [Slot.venueId]. rewrite Hv. done.
Qed.

Lemma updateData_padded (data : UpdateSlotInput) (f : Slot.t -> Slot.t) (s : Slot.t) :
  updateData data = Some f ->
  (truthy (us_endTime data) = true ->
   is_Some (JS.Date_new (default "" (us_endTime data)))) ->
  (exists es ee, padded_time (Slot.startTime s) es /\ padded_time (Slot.endTime s) ee) ->
  exists es ee,
    padded_time (Slot.startTime (f s)) es /\ padded_time (Slot.endTime (f s)) ee.
Proof.
  intros Hf Hend (es & ee & Hes & Hee).
  assert (Hstart : exists es', padded_time (Slot.startTime (f s)) es').
  { unfold updateData in Hf. destruct (truthy (us_startTime data)).
    - destruct (JS.Date_new (default "" (us_startTime data))) as [t|]; [|done].
      injection Hf as <-. exists (minuteOfDay t).
      destruct (truthy (us_endTime data)), (us_status data); simpl;
        apply TimeOrder.toTimeString5_padded.
    - injection Hf as <-. exists es.
      destruct (truthy (us_endTime data)), (us_status data); done. }
  assert (Hend' : exists ee', padded_time (Slot.endTime (f s)) ee').
  { destruct (truthy (us_endTime data)) eqn:Ht.
    - destruct (Hend eq_refl) as [t Ht'].
      exists (minuteOfDay t). unfold updateData in Hf. rewrite Ht in Hf.
      destruct (truthy (us_startTime data)).
      + destruct (JS.Date_new (default "" (us_startTime data))); [|done].
        injection Hf as <-. rewrite Ht'.
        destruct (us_status data); simpl; apply TimeOrder.toTimeString5_padded.
      + injection Hf as <-. rewrite Ht'.
        destruct (us_status data); simpl; apply TimeOrder.toTimeString5_padded.
    - destruct (updateData_frame data f s Hf) as (_ & _ & He & _).
      exists ee. by rewrite He. }
  destruct Hstart as [es' H1]. destruct Hend' as [ee' H2]. by exists es', ee'.
Qed.

(** X16: a store in which the two times of every slot are zero-padded
    "HH:MM" strings is still such a store after [createSlot] with an end
    that parses as a date, after [updateSlot] with an end that, when given,
    parses as a date, and after [deleteSlot], whatever the other arguments
    and whatever the outcome of the call. *)
Theorem slot_times_stay_padded (db : Db) :
  padded_slots db ->
  (forall newId data userId,
     is_Some (JS.Date_new (cs_endTime data)) ->
     padded_slots (createSlot newId data userId db).1)
  /\ (forall id data userId,
        (truthy (us_endTime data) = true ->
         is_Some (JS.Date_new (default "" (us_endTime data)))) ->
        padded_slots (updateSlot id data userId db).1)
  /\ (forall id userId, padded_slots (deleteSlot id userId db).1).
Proof.
  intros Hp. split; [|split].
  - intros newId data userId [en Hen].
    destruct (createSlot newId data userId db) as [db' [resp|e]] eqn:Hr; cbn [fst].
    2:{ by rewrite (createSlot_throws_clean _ _ _ _ _ _ Hr). }
    destruct (createSlot_success _ _ _ _ _ _ Hr) as (st & _ & _ & _ & _ & _ & -> & _).
    intros id s Hs. cbn [Prisma.set_slots slots] in Hs.
    apply lookup_insert_Some in Hs as [[_ <-]|[_ Hs]]; [|by apply (Hp id)].
    exists (minuteOfDay st), (minuteOfDay en). unfold created. rewrite Hen.
    split; apply TimeOrder.toTimeString5_padded.
  - intros id data userId Hend.
    destruct (updateSlot_cases id data userId db)
      as [[-> _]|(slot & f & Hs & _ & Hf & _ & -> & _)]; [done|].
    intros id' s Hs'. cbn [Prisma.set_slots slots] in Hs'.
    apply lookup_insert_Some in Hs' as [[_ <-]|[_ Hs']]; [|by apply (Hp id')].
    apply (updateData_padded data); [done | done | by apply (Hp id)].
  - intros id userId.
    destruct (deleteSlot_cases id userId db) as [[-> _]|(slot & _ & _ & _ & ->)]; [done|].
    intros id' s Hs'. cbn [fst slots] in Hs'.
    apply lookup_delete_Some in Hs' as [_ Hs']. by apply (Hp id').
Qed.

Lemma slot_times_stay_padded_witness :
  padded_slots
    (createSlot "n0"
       (mkCreate "v1" "2025-06-15T12:00:00.000Z" "2025-06-15T14:00:00.000Z" None)
       "a1" Sample.db_free).1.
Proof.
  assert (H : padded_slots Sample.db_free).
  { intros id s Hs.
    change (({[ "s1" := Sample.s1 AVAILABLE ]} : gmap string Slot.t) !! id = Some s) in Hs.
    apply lookup_singleton_Some in Hs as [_ <-].
    exists 600, 720. split.
    - exists 10, 0. repeat split; done.
    - exists 12, 0. repeat split; done. }
  apply (proj1 (slot_times_stay_padded Sample.db_free H)). by eexists.
Defined.

(** X17: for two slots whose times are zero-padded and which both end
    after they start, the test of the overlap check does not depend on
    which of the two is the candidate: it holds exactly when each of them
    starts before the other ends. *)
Theorem overlaps_symmetric (a b : Slot.t) (sa ea sb eb : Z) :
  padded_time (Slot.startTime a) sa ->
  padded_time (Slot.endTime a) ea ->
  padded_time (Slot.startTime b) sb ->
  padded_time (Slot.endTime b) eb ->
  sa < ea -> sb < eb ->
  overlaps (Slot.startTime a) (Slot.endTime a) b
  = overlaps (Slot.startTime b) (Slot.endTime b) a
  /\ (overlaps (Slot.startTime a) (Slot.endTime a) b = true <-> sa < eb /\ sb < ea).
Proof.
  intros Hsa Hea Hsb Heb Ha Hb.
  pose proof (Overlap.overlaps_padded _ _ b sa ea sb eb Hsa Hea Hsb Heb) as Hab.
  pose proof (Overlap.overlaps_padded _ _ a sb eb sa ea Hsb Heb Hsa Hea) as Hba.
  unfold crosses_or_covers in *.
  split; [|rewrite Hab; lia].
  destruct (overlaps (Slot.startTime a) (Slot.endTime a) b) eqn:E1;
    destruct (overlaps (Slot.startTime b) (Slot.endTime b) a) eqn:E2; try done.
  - assert (H : (sa < eb /\ sb < ea) \/ (sa <= sb /\ eb <= ea)) by (by apply Hab).
    assert (H' : (sb < ea /\ sa < eb) \/ (sb <= sa /\ ea <= eb)) by lia.
    apply Hba in H'. done.
  - assert (H : (sb < ea /\ sa < eb) \/ (sb <= sa /\ ea <= eb)) by (by apply Hba).
    assert (H' : (sa < eb /\ sb < ea) \/ (sa <= sb /\ eb <= ea)) by lia.
    apply Hab in H'. done.
Qed.

Lemma overlaps_symmetric_witness :
  overlaps "10:00" "12:00" (Slot.mk "v1" 20254 "11:00" "13:00" AVAILABLE)
  = overlaps "11:00" "13:00" (Slot.mk "v1" 20254 "10:00" "12:00" AVAILABLE).
Proof.
  refine (proj1 (overlaps_symmetric (Slot.mk "v1" 20254 "10:00" "12:00" AVAILABLE)
                   (Slot.mk "v1" 20254 "11:00" "13:00" AVAILABLE) 600 720 660 780
                   _ _ _ _ _ _)); try lia.
  - exists 10, 0. repeat split; done.
  - exists 12, 0. repeat split; done.
  - exists 11, 0. repeat split; done.
  - exists 13, 0. repeat split; done.
Defined.

(** X18: [getSlotById] writes nothing and returns the stored row; its
    [isBooked] flag is set exactly when the slot has a PENDING or CONFIRMED
    booking, and whenever it is set the availability query of the slot
    answers unavailable, at any time. *)
Theorem getSlotById_isBooked (id : string) (db db' : Db) (resp : SlotResponse) :
  getSlotById id db = (db', Ok resp) ->
  db' = db
  /\ sr_id resp = id
  /\ slots db !! id = Some (sr_slot resp)
  /\ (isBooked resp = true <-> has_active_booking db id)
  /\ (isBooked resp = true ->
      forall now, exists a,
        BookingService.checkSlotAvailability now id db = (db, Ok a)
        /\ BookingService.available a = false).
Proof.
  unfold getSlotById. run_M.
  destruct (slots db !! id) as [slot|] eqn:Hs; simpl; [|done].
  destruct (venues db !! Slot.venueId slot) as [venue|]; simpl; [|done].
  intros [= <- <-]. simpl. repeat split; try done.
  - by apply someActive_iff.
  - by apply someActive_iff.
  - intros Hb now.
    destruct (Availability.checkSlotAvailability_reads now id db) as [a Ha].
    exists a. split; [done|].
    destruct (Availability.checkSlotAvailability_answer now id db a Ha) as [Htrue _].
    apply not_true_is_false. intros Hav. apply Htrue in Hav as (? & _ & _ & Hno & _).
    by apply Hno, someActive_iff.
Qed.

Lemma getSlotById_isBooked_witness :
  exists resp,
    getSlotById "s1" Sample.db_booked = (Sample.db_booked, Ok resp)
    /\ isBooked resp = true
    /\ exists a, BookingService.checkSlotAvailability 0 "s1" Sample.db_booked
                 = (Sample.db_booked, Ok a)
                 /\ BookingService.available a = false.
Proof.
  eexists.
  assert (H : getSlotById "s1" Sample.db_booked = (Sample.db_booked, Ok _))
    by (vm_compute; reflexivity).
  split; [exact H|]. split; [reflexivity|].
  destruct (getSlotById_isBooked "s1" Sample.db_booked _ _ H) as (_ & _ & _ & _ & Hb).
  apply Hb. reflexivity.
Defined.

End SlotAdmin.

(** ** ReviewService: changing, deleting and counting reviews *)

Module ReviewAdmin.
Import ReviewService Spec Invariant.

(** The conditions under which [createReview] goes through, and the store
    it leaves. *)
Lemma createReview_ok (newId : string) (data : CreateReviewInput) (userId : string)
  (db : Db) :
  is_Some (venues db !! in_venueId data) ->
  ~ has_review db userId (in_venueId data) ->
  has_completed_booking db userId (in_venueId data) ->
  is_Some (users db !! userId) ->
  reviews db !! newId = None ->
  let row := Review.mk userId (in_venueId data) (in_rating data) (in_comment data) in
  createReview newId data userId db
  = (Prisma.set_reviews (<[newId := row]> (reviews db)) db, Ok (newId, row)).
Proof.
  intros [ven Hv] Hno Hc [usr Hu] Hfresh row. subst row.
  pose proof (ReviewGate.existing_review_iff db userId (in_venueId data)) as Hrev.
  pose proof (ReviewGate.completed_booking_iff db userId (in_venueId data)) as Hcomp.
  unfold createReview. run_M. rewrite Hv.
  destruct (Prisma.findFirst _ (reviews db)) eqn:Hf; [exfalso; apply Hno, Hrev; eauto|].
  apply Hcomp in Hc as [x Hx]. rewrite Hx.
  unfold Prisma.review_create. rewrite Hfresh.
  rewrite (ReviewGate.unique_index_free db (Review.mk userId (in_venueId data) _ _) Hno).
  simpl. rewrite Hu, Hv. reflexivity.
Qed.

(** [createReview] either throws and leaves the store as it is, or met the
    conditions of [createReview_ok]. *)
Lemma createReview_cases (newId : string) (data : CreateReviewInput) (userId : string)
  (db : Db) :
  let r := createReview newId data userId db in
  (r.1 = db /\ exists e, r.2 = Err e)
  \/ (is_Some (venues db !! in_venueId data)
      /\ ~ has_review db userId (in_venueId data)
      /\ has_completed_booking db userId (in_venueId data)
      /\ is_Some (users db !! userId)
      /\ reviews db !! newId = None).
Proof.
  intros r. subst r.
  pose proof (ReviewGate.existing_review_iff db userId (in_venueId data)) as Hrev.
  pose proof (ReviewGate.completed_booking_iff db userId (in_venueId data)) as Hcomp.
  unfold createReview. run_M.
  destruct (venues db !! in_venueId data) as [ven|] eqn:Hv; simpl;
    [|left; split; [done | by eexists]].
  destruct (Prisma.findFirst _ (reviews db)) eqn:Hf; simpl;
    [left; split; [done | by eexists]|].
  destruct (Prisma.findFirst _ (bookings db)) eqn:Hg; simpl;
    [|left; split; [done | by eexists]].
  unfold Prisma.review_create.
  destruct (reviews db !! newId) eqn:Hfresh; simpl; [left; split; [done | by eexists]|].
  destruct (existsb _ _) eqn:Hidx; simpl; [left; split; [done | by eexists]|].
  destruct (users db !! userId) eqn:Hu; simpl; [|left; split; [done | by eexists]].
  right. repeat split; try done.
  - intros Hhas. apply Hrev in Hhas as [x Hx]. congruence.
  - apply Hcomp. by eexists.
Qed.

(** [updateReview] either throws and leaves the store as it is, or rewrites
    the rating and the comment of the review. *)
Lemma updateReview_cases (id : string) (data : UpdateReviewInput) (userId : string)
  (isAdmin : bool) (db : Db) :
  let r := updateReview id data userId isAdmin db in
  (r.1 = db /\ exists e, r.2 = Err e)
  \/ (exists rv,
        reviews db !! id = Some rv
        /\ (isAdmin = true \/ Review.userId rv = userId)
        /\ let rv' :=
             Review.mk (Review.userId rv) (Review.venueId rv)
               (default (Review.rating rv) (up_rating data))
               (match up_comment data with Some c => Some c | None => Review.comment rv end) in
           r = (Prisma.set_reviews (<[id := rv']> (reviews db)) db, Ok (id, rv'))).
Proof.
  intros r. subst r. unfold updateReview. run_M.
  destruct (reviews db !! id) as [rv|] eqn:Hr; simpl; [|left; split; [done | by eexists]].
  destruct isAdmin; simpl.
  { right. exists rv. split; [done|]. split; [by left|].
    unfold Prisma.review_update. rewrite Hr. reflexivity. }
  destruct (bool_decide (Review.userId rv = userId)) eqn:Ho; simpl;
    [|left; split; [done | by eexists]].
  apply bool_decide_eq_true in Ho.
  right. exists rv. split; [done|]. split; [by right|].
  unfold Prisma.review_update. rewrite Hr. reflexivity.
Qed.

(** [deleteReview] either throws and leaves the store as it is, or removes
    the review. *)
Lemma deleteReview_cases (id userId : string) (isAdmin : bool) (db : Db) :
  let r := deleteReview id userId isAdmin db in
  (r.1 = db /\ exists e, r.2 = Err e)
  \/ (exists rv,
        reviews db !! id = Some rv
        /\ (isAdmin = true \/ Review.userId rv = userId)
        /\ r = (Prisma.set_reviews (delete id (reviews db)) db, Ok tt)).
Proof.
  intros r. subst r. unfold deleteReview. run_M.
  destruct (reviews db !! id) as [rv|] eqn:Hr; simpl; [|left; split; [done | by eexists]].
  destruct (venues db !! Review.venueId rv) as [ven|] eqn:Hv; simpl;
    [|left; split; [done | by eexists]].
  destruct isAdmin; simpl.
  { right. exists rv. split; [done|]. split; [by left|].
    unfold Prisma.review_delete. rewrite Hr. reflexivity. }
  destruct (bool_decide (Review.userId rv = userId)) eqn:Ho; simpl;
    [|left; split; [done | by eexists]].
  apply bool_decide_eq_true in Ho.
  right. exists rv. split; [done|]. split; [by right|].
  unfold Prisma.review_delete. rewrite Hr. reflexivity.
Qed.

(** X19: [updateReview] answers 404 NOT_FOUND exactly when the key has no
    review and 403 FORBIDDEN exactly when the requester is neither an admin
    nor the author, and writes nothing then; otherwise it replaces the
    rating and the comment that the request gives and keeps what it does
    not give, and changes neither the author nor the venue of the review
    nor any other row. *)
Theorem updateReview_outcomes (id : string) (data : UpdateReviewInput) (userId : string)
  (isAdmin : bool) (db : Db) :
  let r := updateReview id data userId isAdmin db in
  (reviews db !! id = None <-> fails db r NotFound)
  /\ forall rv,
       reviews db !! id = Some rv ->
       (isAdmin = false /\ Review.userId rv <> userId <-> fails db r Forbidden)
       /\ (isAdmin = true \/ Review.userId rv = userId ->
           let rv' :=
             Review.mk (Review.userId rv) (Review.venueId rv)
               (default (Review.rating rv) (up_rating data))
               (match up_comment data with
                | Some c => Some c
                | None => Review.comment rv
                end) in
           r = (Prisma.set_reviews (<[id := rv']> (reviews db)) db, Ok (id, rv'))).
Proof.
  intros r. subst r. unfold fails, updateReview. run_M.
  destruct (reviews db !! id) as [rv|] eqn:Hr; simpl.
  2:{ split; [|done]. split; [|done]. intros _. split; [done|].
      eexists. split; [reflexivity|done]. }
  split.
  { split; [done|]. intros [_ (e & He & Hk)].
    destruct (negb isAdmin && _); [by injection He as <-|].
    unfold Prisma.review_update in He. rewrite Hr in He. done. }
  intros ? [= <-].
  destruct isAdmin; simpl.
  { unfold Prisma.review_update. rewrite Hr. simpl. split.
    - split; [intros [? _]; done | intros [_ (e & He & _)]; done].
    - intros _. reflexivity. }
  destruct (bool_decide (Review.userId rv = userId)) eqn:Ho; simpl.
  - apply bool_decide_eq_true in Ho.
    unfold Prisma.review_update. rewrite Hr. simpl. split.
    + split; [intros [_ ?]; done | intros [_ (e & He & _)]; done].
    + intros _. reflexivity.
  - apply bool_decide_eq_false in Ho. split.
    + split; [|done]. intros _. split; [done|]. eexists. split; [reflexivity|done].
    + intros [?|?]; done.
Qed.

(** X20: a store in which no user has two reviews of one venue is still
    such a store after any call of [createReview], of [updateReview] and of
    [deleteReview], whether the call goes through or throws. *)
Theorem reviews_stay_unique (db : Db) :
  unique_reviews db ->
  (forall newId data userId, unique_reviews (createReview newId data userId db).1)
  /\ (forall id data userId isAdmin,
        unique_reviews (updateReview id data userId isAdmin db).1)
  /\ (forall id userId isAdmin, unique_reviews (deleteReview id userId isAdmin db).1).
Proof.
  intros Hu. split; [|split].
  - intros newId data userId.
    destruct (createReview_cases newId data userId db)
      as [[-> _]|(Hv & Hno & Hc & Husr & Hfresh)]; [done|].
    rewrite (createReview_ok newId data userId db) by done.
    cbv zeta. cbn [fst Prisma.set_reviews].
    intros i j r r' Hi Hj Hsame Hven. cbn [reviews Prisma.set_reviews] in Hi, Hj.
    apply lookup_insert_Some in Hi as [[<- <-]|[Hni Hi]];
      apply lookup_insert_Some in Hj as [[<- <-]|[Hnj Hj]].
    + done.
    + exfalso. apply Hno. exists j, r'. simpl in Hsame, Hven. done.
    + exfalso. apply Hno. exists i, r. simpl in Hsame, Hven. done.
    + by apply (Hu i j r r').
  - intros id data userId isAdmin.
    destruct (updateReview_cases id data userId isAdmin db)
      as [[-> _]|(rv & Hr & _ & Hres)]; [done|].
    cbv zeta in Hres. rewrite Hres. cbn [fst Prisma.set_reviews].
    intros i j r r' Hi Hj Hsame Hven. cbn [reviews Prisma.set_reviews] in Hi, Hj.
    apply lookup_insert_Some in Hi as [[<- <-]|[Hni Hi]];
      apply lookup_insert_Some in Hj as [[<- <-]|[Hnj Hj]].
    + done.
    + simpl in Hsame, Hven. by apply (Hu id j rv r').
    + simpl in Hsame, Hven. by apply (Hu i id r rv).
    + by apply (Hu i j r r').
  - intros id userId isAdmin.
    destruct (deleteReview_cases id userId isAdmin db)
      as [[-> _]|(rv & Hr & _ & ->)]; [done|].
    cbn [fst Prisma.set_reviews].
    intros i j r r' Hi Hj Hsame Hven. cbn [reviews Prisma.set_reviews] in Hi, Hj.
    apply lookup_delete_Some in Hi as [_ Hi]. apply lookup_delete_Some in Hj as [_ Hj].
    by apply (Hu i j r r').
Qed.

Lemma reviews_stay_unique_witness :
  unique_reviews
    (createReview "r1" (mkInput "v1" 5 (Some "Great pitch")) "u1" Sample.db_completed).1.
Proof.
  assert (H : unique_reviews Sample.db_completed).
  { intros i j r r' Hi. vm_compute in Hi. done. }
  apply (proj1 (reviews_stay_unique Sample.db_completed H)).
Defined.

(** X21: in a store where no user has two reviews of one venue, the author
    of a review can delete it, and may then, given the completed booking
    that the first review needed, review the same venue again: the deletion
    removes that review and nothing else, and [createReview] for the venue
    goes through afterwards. *)
Theorem delete_then_review_again (id userId : string) (rv : Review.t) (db : Db) :
  unique_reviews db ->
  reviews db !! id = Some rv ->
  Review.userId rv = userId ->
  is_Some (venues db !! Review.venueId rv) ->
  is_Some (users db !! userId) ->
  has_completed_booking db userId (Review.venueId rv) ->
  exists db',
    deleteReview id userId false db = (db', Ok tt)
    /\ db' = Prisma.set_reviews (delete id (reviews db)) db
    /\ forall newId data,
         in_venueId data = Review.venueId rv ->
         reviews db' !! newId = None ->
         exists db'',
           createReview newId data userId db'
           = (db'', Ok (newId, Review.mk userId (Review.venueId rv) (in_rating data)
                                 (in_comment data))).
Proof.
  intros Hu Hr Hown [ven Hv] Husr Hc.
  assert (Hd : deleteReview id userId false db
               = (Prisma.set_reviews (delete id (reviews db)) db, Ok tt)).
  { unfold deleteReview. run_M. rewrite Hr. simpl. rewrite Hv. simpl.
    rewrite bool_decide_eq_true_2 by done. simpl.
    unfold Prisma.review_delete. rewrite Hr. reflexivity. }
  eexists. split; [exact Hd|]. split; [reflexivity|].
  intros newId data Hven Hfresh. eexists.
  rewrite (createReview_ok newId data userId _); [by rewrite Hven | | | | done | done].
  - rewrite Hven. by exists ven.
  - rewrite Hven. intros (j & r' & Hj & Hsame & Hven'). cbn [Prisma.set_reviews reviews] in Hj.
    apply lookup_delete_Some in Hj as [Hne Hj]. apply Hne.
    apply (Hu id j rv r'); congruence.
  - rewrite Hven. exact Hc.
Qed.

Lemma delete_then_review_again_witness :
  exists db' db'',
    deleteReview "r1" "u1" false Cases.db_reviewed = (db', Ok tt)
    /\ reviews db' !! "r1" = None
    /\ createReview "r3" (mkInput "v1" 2 None) "u1" db'
       = (db'', Ok ("r3", Review.mk "u1" "v1" 2 None)).
Proof.
  assert (Hu : unique_reviews Cases.db_reviewed).
  { intros i j r r' Hi Hj Hsame _.
    change (({[ "r1" := Review.mk "u1" "v1" 4 None;
                "r2" := Review.mk "u2" "v1" 5 (Some "Good lighting") ]}
             : gmap string Review.t) !! i = Some r) in Hi.
    change (({[ "r1" := Review.mk "u1" "v1" 4 None;
                "r2" := Review.mk "u2" "v1" 5 (Some "Good lighting") ]}
             : gmap string Review.t) !! j = Some r') in Hj.
    apply lookup_insert_Some in Hi as [[<- <-]|[_ Hi]];
      [|apply lookup_singleton_Some in Hi as [<- <-]];
      (apply lookup_insert_Some in Hj as [[<- <-]|[_ Hj]];
       [|apply lookup_singleton_Some in Hj as [<- <-]]); done. }
  assert (Hc : has_completed_booking Cases.db_reviewed "u1" "v1").
  { exists "b1", (Sample.b1 BookingStatus.COMPLETED), (Sample.s1 AVAILABLE).
    repeat split; reflexivity. }
  destruct (delete_then_review_again "r1" "u1" (Review.mk "u1" "v1" 4 None)
              Cases.db_reviewed Hu eq_refl eq_refl ltac:(by eexists) ltac:(by eexists) Hc)
    as (db' & Hd & Hdb & Hagain).
  destruct (Hagain "r3" (mkInput "v1" 2 None) eq_refl) as [db'' Hcr].
  { rewrite Hdb. reflexivity. }
  exists db', db''. split; [exact Hd|]. split; [by rewrite Hdb | exact Hcr].
Defined.

Import ReviewTerms.

Lemma stars_setCount (k : Z) (d : Distribution) (r : Z) (n : nat) :
  1 <= k <= 5 ->
  stars k (setCount d (r, n)) = if bool_decide (r = k) then n else stars k d.
Proof.
  intros Hk. unfold setCount. cbn [fst snd].
  destruct ((1 <=? r) && (r <=? 5)) eqn:Hr.
  - apply andb_true_iff in Hr as [H1 H2]. apply Z.leb_le in H1, H2.
    assert (Hr : r = 1 \/ r = 2 \/ r = 3 \/ r = 4 \/ r = 5) by lia.
    assert (Hk' : k = 1 \/ k = 2 \/ k = 3 \/ k = 4 \/ k = 5) by lia.
    destruct Hr as [->|[->|[->|[->| ->]]]];
      destruct Hk' as [->|[->|[->|[->| ->]]]]; reflexivity.
  - rewrite bool_decide_eq_false_2; [done|].
    intros ->. apply andb_false_iff in Hr as [H|H]; apply Z.leb_gt in H; lia.
Qed.

Lemma foldl_setCount (k : Z) (c : Z -> nat) (keys : list Z) :
  1 <= k <= 5 ->
  NoDup keys ->
  forall d,
    stars k (foldl setCount d (map (fun r => (r, c r)) keys))
    = if bool_decide (k ∈ keys) then c k else stars k d.
Proof.
  intros Hk. induction keys as [|r keys IH]; intros Hnd d.
  - cbn [map foldl]. rewrite bool_decide_eq_false_2; [done|]. apply not_elem_of_nil.
  - apply NoDup_cons in Hnd as [Hr Hnd]. cbn [map foldl]. rewrite (IH Hnd).
    rewrite stars_setCount by done.
    destruct (decide (k ∈ keys)) as [Hin|Hin].
    + rewrite !bool_decide_eq_true_2; [done | by right | done].
    + rewrite (bool_decide_eq_false_2 (k ∈ keys)) by done.
      destruct (decide (r = k)) as [->|Hne].
      * rewrite !bool_decide_eq_true_2; [done | by left | done].
      * rewrite !bool_decide_eq_false_2; [done | | done].
        intros H. apply elem_of_cons in H as [->|H]; done.
Qed.

Lemma stars_groupBy (k : Z) (l : list Z) :
  1 <= k <= 5 ->
  stars k (foldl setCount (mkDist 0 0 0 0 0) (groupBy l)) = count_occ Z.eq_dec l k.
Proof.
  intros Hk. unfold groupBy.
  rewrite (foldl_setCount k (count_occ Z.eq_dec l)) by (done || apply NoDup_remove_dups).
  destruct (decide (k ∈ remove_dups l)) as [Hin|Hin].
  - by rewrite bool_decide_eq_true_2.
  - rewrite bool_decide_eq_false_2 by done.
    assert (H0 : stars k (mkDist 0 0 0 0 0) = 0%nat).
    { assert (Hk' : k = 1 \/ k = 2 \/ k = 3 \/ k = 4 \/ k = 5) by lia.
      destruct Hk' as [->|[->|[->|[->| ->]]]]; reflexivity. }
    rewrite H0. symmetry. apply count_occ_not_In.
    intros H. apply Hin, elem_of_remove_dups, list_elem_of_In, H.
Qed.

Lemma count_all (l : list Z) :
  (forall x, x ∈ l -> 1 <= x <= 5) ->
  (count_occ Z.eq_dec l 1%Z + count_occ Z.eq_dec l 2%Z + count_occ Z.eq_dec l 3%Z
   + count_occ Z.eq_dec l 4%Z + count_occ Z.eq_dec l 5%Z)%nat = length l.
Proof.
  induction l as [|x l IH]; intros Hl; [reflexivity|].
  assert (Hx : 1 <= x <= 5) by (apply Hl; left).
  assert (IH' := IH (fun y Hy => Hl y (list_elem_of_further _ _ _ Hy))).
  cbn [count_occ length].
  repeat destruct (Z.eq_dec x _); lia.
Qed.

Lemma sum_bounds (l : list Z) :
  (forall x, x ∈ l -> 1 <= x <= 5) ->
  Z.of_nat (length l) <= foldr Z.add 0 l <= 5 * Z.of_nat (length l).
Proof.
  induction l as [|x l IH]; intros Hl; [simpl; lia|].
  assert (Hx : 1 <= x <= 5) by (apply Hl; left).
  assert (IH' := IH (fun y Hy => Hl y (list_elem_of_further _ _ _ Hy))).
  cbn [foldr length]. lia.
Qed.

Lemma ratingsOf_elem (db : Db) (venueId : string) (x : Z) :
  x ∈ ratingsOf db venueId
  <-> exists id r, reviews db !! id = Some r /\ Review.venueId r = venueId
                   /\ Review.rating r = x.
Proof.
  unfold ratingsOf. rewrite list_elem_of_In, in_map_iff. split.
  - intros ([id r] & Hx & Hin). apply list_elem_of_In, findMany_elem in Hin as [Hr Hv].
    apply bool_decide_eq_true in Hv. by exists id, r.
  - intros (id & r & Hr & Hv & Hx). exists (id, r). split; [done|].
    apply list_elem_of_In, findMany_elem. split; [done|]. by apply bool_decide_eq_true.
Qed.

Lemma mean_bounds (l : list Z) :
  l <> [] ->
  (forall x, x ∈ l -> 1 <= x <= 5) ->
  (1 <= mean l)%Q /\ (mean l <= 5)%Q.
Proof.
  intros Hne Hl. pose proof (sum_bounds l Hl) as [Hlo Hhi].
  assert (Hn : 0 < Z.of_nat (length l)) by (destruct l; [done | simpl; lia]).
  assert (Hn' : (0 < inject_Z (Z.of_nat (length l)))%Q).
  { change 0%Q with (inject_Z 0). by rewrite <- Zlt_Qlt. }
  unfold mean. split.
  - apply Qle_shift_div_l; [done|]. rewrite Qmult_1_l. by rewrite <- Zle_Qle.
  - apply Qle_shift_div_r; [done|]. change 5%Q with (inject_Z 5).
    rewrite <- inject_Z_mult. by rewrite <- Zle_Qle.
Qed.

(** Rounding to one decimal, as [getReviewStats] does it. *)
Lemma round1_near (q : Q) :
  (1 <= q)%Q -> (q <= 5)%Q ->
  let r := (inject_Z (Qfloor (q * inject_Z 10 + (1 # 2))) / inject_Z 10)%Q in
  (1 <= r)%Q /\ (r <= 5)%Q /\ (q - (1 # 20) < r)%Q /\ (r <= q + (1 # 20))%Q.
Proof.
  intros Hlo Hhi r.
  change (inject_Z 10) with 10%Q in *.
  pose proof (Qfloor_le (q * 10 + (1 # 2))) as Hle.
  pose proof (Qlt_floor (q * 10 + (1 # 2))) as Hlt.
  rewrite inject_Z_plus in Hlt. change (inject_Z 1) with 1%Q in Hlt.
  assert (H10 : Qfloor 10 <= Qfloor (q * 10 + (1 # 2))).
  { apply Qfloor_resp_le. lra. }
  assert (H50 : Qfloor (q * 10 + (1 # 2)) <= Qfloor (50 + (1 # 2))).
  { apply Qfloor_resp_le. lra. }
  change (Qfloor 10) with 10 in H10. change (Qfloor (50 + (1 # 2))) with 50 in H50.
  rewrite Zle_Qle in H10, H50.
  change (inject_Z 10) with 10%Q in H10. change (inject_Z 50) with 50%Q in H50.
  assert (Hr : (r * 10 == inject_Z (Qfloor (q * 10 + (1 # 2))))%Q) by (subst r; field).
  set (f := inject_Z (Qfloor (q * 10 + (1 # 2)))) in *. clearbody f r.
  repeat split; lra.
Qed.

(** X22: [getReviewStats] writes nothing.  When every review of the venue
    carries a rating from 1 to 5, the count it reports for each rating is
    the number of reviews of the venue with that rating, the five counts add
    up to [totalReviews], and [averageRating] is 0 for a venue without a
    review and otherwise a number from 1 to 5 within 0.05 of the mean of the
    ratings. *)
Theorem getReviewStats_totals (venueId : string) (db db' : Db) (stats : ReviewStats) :
  getReviewStats venueId db = (db', Ok stats) ->
  ratings_in_range db venueId ->
  let ratings := ratingsOf db venueId in
  db' = db
  /\ totalReviews stats = length ratings
  /\ (forall k, 1 <= k <= 5 ->
                stars k (ratingDistribution stats) = count_occ Z.eq_dec ratings k)
  /\ allStars (ratingDistribution stats) = totalReviews stats
  /\ exists q,
       averageRating stats = Some q
       /\ (ratings = [] -> (q == 0)%Q)
       /\ (ratings <> [] ->
           (1 <= q)%Q /\ (q <= 5)%Q
           /\ (mean ratings - (1 # 20) < q)%Q /\ (q <= mean ratings + (1 # 20))%Q).
Proof.
  intros Hr Hrange ratings.
  assert (Hl : forall x, x ∈ ratings -> 1 <= x <= 5).
  { intros x Hx. apply ratingsOf_elem in Hx as (id & r & Hid & Hv & <-).
    by apply (Hrange id). }
  unfold getReviewStats in Hr. run_M.
  destruct (venues db !! venueId) as [ven|]; simpl in Hr; [|done].
  fold ratings in Hr.
  destruct (length ratings =? 0)%nat eqn:Hn.
  - apply Nat.eqb_eq in Hn. injection Hr as <- <-. simpl.
    assert (Hnil : ratings = []) by (by destruct ratings).
    rewrite Hnil. repeat split; try done.
    + intros k Hk.
      assert (Hk' : k = 1 \/ k = 2 \/ k = 3 \/ k = 4 \/ k = 5) by lia.
      destruct Hk' as [->|[->|[->|[->| ->]]]]; reflexivity.
    + exists 0%Q. repeat split; done.
  - apply Nat.eqb_neq in Hn. injection Hr as <- <-.
    cbn [totalReviews ratingDistribution averageRating].
    assert (Hne : ratings <> []) by (intros H; rewrite H in Hn; done).
    split; [done|]. split; [done|]. split; [intros k Hk; by apply stars_groupBy|].
    split.
    { unfold allStars.
      change (stars1 ?d) with (stars 1 d). change (stars2 ?d) with (stars 2 d).
      change (stars3 ?d) with (stars 3 d). change (stars4 ?d) with (stars 4 d).
      change (stars5 ?d) with (stars 5 d).
      rewrite !stars_groupBy by lia. by apply count_all. }
    destruct (mean_bounds ratings Hne Hl) as [Hlo Hhi].
    assert (Havg : avg ratings = Some (mean ratings)) by (by destruct ratings).
    rewrite Havg.
    assert (Hq0 : exists q0,
              (if Qeq_bool (mean ratings) 0 then JS.num 0 else Some (mean ratings))
              = Some q0 /\ (q0 == mean ratings)%Q).
    { destruct (Qeq_bool (mean ratings) 0) eqn:Hz.
      - apply Qeq_bool_iff in Hz. exists (inject_Z 0). split; [done|]. by rewrite Hz.
      - by exists (mean ratings). }
    destruct Hq0 as (q0 & -> & Hq0).
    eexists. split; [reflexivity|]. split; [done|]. intros _.
    rewrite <- Hq0 in Hlo, Hhi.
    destruct (round1_near q0 Hlo Hhi) as (H1 & H2 & H3 & H4).
    rewrite <- Hq0. done.
Qed.

Lemma getReviewStats_totals_witness :
  exists stats q,
    getReviewStats "v1" Cases.db_reviewed = (Cases.db_reviewed, Ok stats)
    /\ totalReviews stats = 2%nat
    /\ ratingDistribution stats = mkDist 0 0 0 1 1
    /\ averageRating stats = Some q /\ (q == 45 # 10)%Q.
Proof.
  eexists _, _.
  assert (H : getReviewStats "v1" Cases.db_reviewed = (Cases.db_reviewed, Ok _))
    by (vm_compute; reflexivity).
  assert (Hr : ratings_in_range Cases.db_reviewed "v1").
  { intros id r Hid _.
    change (({[ "r1" := Review.mk "u1" "v1" 4 None;
                "r2" := Review.mk "u2" "v1" 5 (Some "Good lighting") ]}
             : gmap string Review.t) !! id = Some r) in Hid.
    apply lookup_insert_Some in Hid as [[_ <-]|[_ Hid]];
      [|apply lookup_singleton_Some in Hid as [_ <-]]; simpl; lia. }
  destruct (getReviewStats_totals "v1" Cases.db_reviewed _ _ H Hr)
    as (_ & Htot & _ & _ & _).
  split; [exact H|]. split; [exact Htot|]. split; [reflexivity|].
  split; reflexivity.
Defined.

End ReviewAdmin.

(** ** The foreign keys of the store *)

Module Integrity.
Import Spec Invariant.

Lemma referential_insert_slot (db : Db) (id : string) (s : Slot.t) :
  referential db ->
  is_Some (venues db !! Slot.venueId s) ->
  referential (Prisma.set_slots (<[id := s]> (slots db)) db).
Proof.
  intros (Hb & Hs & Hr) Hv. split; [|split]; simpl.
  - intros i b Hi. destruct (Hb i b Hi) as [Hu Hsl]. split; [done|].
    apply lookup_insert_is_Some'. by right.
  - intros i s' Hi. apply lookup_insert_Some in Hi as [[_ <-]|[_ Hi]]; [done|].
    by apply (Hs i).
  - done.
Qed.

Lemma referential_insert_booking (db : Db) (id : string) (b : Booking.t) :
  referential db ->
  is_Some (users db !! Booking.userId b) ->
  is_Some (slots db !! Booking.slotId b) ->
  referential (Prisma.set_bookings (<[id := b]> (bookings db)) db).
Proof.
  intros (Hb & Hs & Hr) Hu Hsl. split; [|split]; simpl; [|done..].
  intros i b' Hi. apply lookup_insert_Some in Hi as [[_ <-]|[_ Hi]]; [done|].
  by apply (Hb i).
Qed.

Lemma referential_insert_review (db : Db) (id : string) (r : Review.t) :
  referential db ->
  is_Some (users db !! Review.userId r) ->
  is_Some (venues db !! Review.venueId r) ->
  referential (Prisma.set_reviews (<[id := r]> (reviews db)) db).
Proof.
  intros (Hb & Hs & Hr) Hu Hv. split; [|split]; simpl; [done..|].
  intros i r' Hi. apply lookup_insert_Some in Hi as [[_ <-]|[_ Hi]]; [done|].
  by apply (Hr i).
Qed.

Lemma referential_delete_review (db : Db) (id : string) :
  referential db ->
  referential (Prisma.set_reviews (delete id (reviews db)) db).
Proof.
  intros (Hb & Hs & Hr). split; [|split]; simpl; [done..|].
  intros i r' Hi. apply lookup_delete_Some in Hi as [_ Hi]. by apply (Hr i).
Qed.

Lemma referential_insert_both (db : Db) (sid bid : string) (s : Slot.t) (b : Booking.t) :
  referential db ->
  is_Some (venues db !! Slot.venueId s) ->
  is_Some (users db !! Booking.userId b) ->
  Booking.slotId b = sid ->
  referential (mkDb (users db) (venues db) (<[sid := s]> (slots db))
                 (<[bid := b]> (bookings db)) (reviews db)).
Proof.
  intros (Hb & Hs & Hr) Hv Hu Hsl. split; [|split]; simpl.
  - intros i b' Hi. apply lookup_insert_Some in Hi as [[_ <-]|[_ Hi]].
    + split; [done|]. apply lookup_insert_is_Some'. by left.
    + destruct (Hb i b' Hi) as [Hu' Hsl']. split; [done|].
      apply lookup_insert_is_Some'. by right.
  - intros i s' Hi. apply lookup_insert_Some in Hi as [[_ <-]|[_ Hi]]; [done|].
    by apply (Hs i).
  - done.
Qed.

Lemma updateBookingStatus_cases (id : string) (st : BookingStatus.t) (db : Db) :
  let r := BookingService.updateBookingStatus id st db in
  (r.1 = db /\ exists e, r.2 = Err e)
  \/ (exists b,
        bookings db !! id = Some b
        /\ r.1 = Prisma.set_bookings
                   (<[id := BookingService.status_update st b]> (bookings db)) db).
Proof.
  intros r. subst r.
  unfold BookingService.updateBookingStatus, BookingService.findBookingWithSlot,
    Prisma.booking_update. run_M.
  destruct (bookings db !! id) as [b|] eqn:Hb; simpl; [|left; split; [done | by eexists]].
  destruct (slots db !! Booking.slotId b); simpl; [|left; split; [done | by eexists]].
  rewrite Hb. simpl. right. by exists b.
Qed.

Lemma createOne_referential (newId : string) (c : SlotService.SlotData)
  (ov : result bool) (db : Db) :
  referential db -> referential (SlotService.createOne newId c ov db).1.
Proof.
  intros Hdb. unfold SlotService.createOne.
  destruct ov as [[]|e]; [done| |done].
  destruct (SlotService.row c) as [r|]; [|done].
  unfold Prisma.slot_create. run_M.
  destruct (slots db !! newId); [done|].
  destruct (venues db !! Slot.venueId r) eqn:Hv; [|done].
  simpl. apply referential_insert_slot; [done | by rewrite Hv].
Qed.

Lemma settle_referential (newId : nat -> string)
  (l : list (SlotService.SlotData * result bool)) :
  forall (i : nat) (db : Db),
    referential db -> referential (SlotService.settle newId i l db).1.
Proof.
  induction l as [|[c ov] l IH]; intros i db Hdb; [done|].
  cbn [SlotService.settle].
  pose proof (createOne_referential (newId i) c ov db Hdb) as H1.
  destruct (SlotService.createOne (newId i) c ov db) as [db1 r].
  pose proof (IH (S i) db1 H1) as H2.
  destruct (SlotService.settle newId (S i) l db1) as [db2 rs]. done.
Qed.

(** X23: a store in which every foreign key points to a row (the user and
    the slot of a booking, the venue of a slot, the user and the venue of a
    review) is still such a store after any call of a writing method of the
    three services, whether the call goes through or throws. *)
Theorem foreign_keys_stay_valid (db : Db) :
  referential db ->
  (forall now newId slotId userId,
     referential (BookingService.createBooking now newId slotId userId db).1)
  /\ (forall now id userId isAdmin,
        referential (BookingService.cancelBooking now id userId isAdmin db).1)
  /\ (forall id st, referential (BookingService.updateBookingStatus id st db).1)
  /\ (forall newId data userId, referential (SlotService.createSlot newId data userId db).1)
  /\ (forall newId data userId,
        referential (SlotService.createBulkSlots newId data userId db).1)
  /\ (forall id data userId, referential (SlotService.updateSlot id data userId db).1)
  /\ (forall newId data userId,
        referential (ReviewService.createReview newId data userId db).1)
  /\ (forall id data userId isAdmin,
        referential (ReviewService.updateReview id data userId isAdmin db).1)
  /\ (forall id userId isAdmin,
        referential (ReviewService.deleteReview id userId isAdmin db).1).
Proof.
  intros Hdb. pose proof Hdb as (Hb & Hs & Hr).
  repeat match goal with |- _ /\ _ => split end.
  - intros now newId slotId userId.
    destruct (Lifecycle.createBooking_cases now newId slotId userId db)
      as [[-> _]|(slot & venue & Hsl & Hst & Hno & Hd & Hv & Hfresh & Hu)]; [done|].
    rewrite (Lifecycle.createBooking_ok now newId slotId userId db slot venue) by done.
    cbv zeta. cbn [fst].
    apply referential_insert_both; [done | simpl; by rewrite Hv | done | done].
  - intros now id userId isAdmin.
    destruct (Lifecycle.cancelBooking_cases now id userId isAdmin db)
      as [[-> _]|(b & slot & Hbk & Hsl & Hauth & Hact)]; [done|].
    rewrite (Lifecycle.cancelBooking_ok now id userId isAdmin db b slot) by done.
    cbn [fst]. destruct (Hb id b Hbk) as [Hu _].
    apply referential_insert_both;
      [done | simpl; by apply (Hs (Booking.slotId b)) | done | done].
  - intros id st.
    destruct (updateBookingStatus_cases id st db) as [[-> _]|(b & Hbk & ->)]; [done|].
    destruct (Hb id b Hbk) as [Hu Hsl]. by apply referential_insert_booking.
  - intros newId data userId.
    destruct (SlotService.createSlot newId data userId db) as [db' [resp|e]] eqn:Hc;
      cbn [fst].
    2:{ by rewrite (SlotAdmin.createSlot_throws_clean _ _ _ _ _ _ Hc). }
    destruct (SlotAdmin.createSlot_success _ _ _ _ _ _ Hc)
      as (st & Hv & _ & _ & _ & _ & -> & _).
    by apply referential_insert_slot.
  - intros newId data userId. unfold SlotService.createBulkSlots. run_M.
    destruct (venues db !! SlotService.in_venueId data); simpl; [|done].
    destruct (users db !! userId) as [user|]; simpl; [|done].
    destruct (negb (bool_decide (User.role user = ADMIN))); simpl; [done|].
    match goal with
    | |- context [SlotService.settle ?n ?i ?l ?d] =>
        pose proof (settle_referential n l i d Hdb) as Hset;
        destruct (SlotService.settle n i l d) as [db' results]
    end.
    destruct (SlotService.Promise_all results); done.
  - intros id data userId.
    destruct (SlotAdmin.updateSlot_cases id data userId db)
      as [[-> _]|(slot & f & Hsl & _ & Hf & _ & -> & _)]; [done|].
    apply referential_insert_slot; [done|].
    destruct (SlotAdmin.updateData_frame data f slot Hf) as [-> _].
    by apply (Hs id).
  - intros newId data userId.
    destruct (ReviewAdmin.createReview_cases newId data userId db)
      as [[-> _]|(Hv & Hno & Hc & Husr & Hfresh)]; [done|].
    rewrite (ReviewAdmin.createReview_ok newId data userId db) by done.
    cbv zeta. cbn [fst]. by apply referential_insert_review.
  - intros id data userId isAdmin.
    destruct (ReviewAdmin.updateReview_cases id data userId isAdmin db)
      as [[-> _]|(rv & Hrv & _ & Hres)]; [done|].
    cbv zeta in Hres. rewrite Hres. cbn [fst].
    destruct (Hr id rv Hrv) as [Hu Hv]. by apply referential_insert_review.
  - intros id userId isAdmin.
    destruct (ReviewAdmin.deleteReview_cases id userId isAdmin db)
      as [[-> _]|(rv & Hrv & _ & ->)]; [done|].
    by apply referential_delete_review.
Qed.

Lemma foreign_keys_stay_valid_witness :
  referential (BookingService.createBooking 0 "b1" "s1" "u1" Sample.db_free).1
  /\ referential (SlotService.createBulkSlots Sample.newId Sample.bulk "a1" Sample.db_free).1.
Proof.
  assert (H : referential Sample.db_free).
  { split; [|split].
    - intros id b Hb. vm_compute in Hb. done.
    - intros id s Hs.
      change (({[ "s1" := Sample.s1 AVAILABLE ]} : gmap string Slot.t) !! id = Some s) in Hs.
      apply lookup_singleton_Some in Hs as [_ <-]. by eexists.
    - intros id r Hr. vm_compute in Hr. done. }
  destruct (foreign_keys_stay_valid Sample.db_free H) as (H1 & _ & _ & _ & H5 & _).
  split; [apply H1 | apply H5].
Defined.

End Integrity.

(** ** BookingService: calls that do not interleave *)

Module Sequential.
Import BookingService Race Spec.

(** A slot that is BOOKED refuses every booking. *)
Lemma booked_slot_conflict (now : Z) (newId slotId userId : string) (db : Db)
  (slot : Slot.t) :
  slots db !! slotId = Some slot ->
  Slot.status slot = BOOKED ->
  createBooking now newId slotId userId db
  = (db, Err (AppError 409 "CONFLICT" "Slot is booked")).
Proof.
  intros Hs Hst.
  assert (Ha : checkSlotAvailability now slotId db
               = (db, Ok (mkAvail false (Some "Slot is booked")
                            (Some (view slotId slot))))).
  { unfold checkSlotAvailability. run_M. rewrite Hs, Hst. reflexivity. }
  rewrite (Lifecycle.createBooking_checked _ _ _ _ _ _ Ha). reflexivity.
Qed.

Lemma run_app (now : Z) (s1 s2 : list nat) :
  forall (db : Db) (calls : list Call),
    run now (s1 ++ s2) db calls
    = let '(db', calls') := run now s1 db calls in run now s2 db' calls'.
Proof.
  induction s1 as [|i s1 IH]; intros db calls; [reflexivity|].
  cbn [app run]. destruct (calls !! i) as [c|]; [|apply IH].
  destruct (step now c db) as [db' c']. apply IH.
Qed.

Lemma findSlotWithVenue_reads (slotId : string) (db : Db) :
  exists r, findSlotWithVenue slotId db = (db, r).
Proof.
  unfold findSlotWithVenue. run_M.
  destruct (slots db !! slotId) as [slot|]; [|by eexists].
  destruct (venues db !! Slot.venueId slot); by eexists.
Qed.

Lemma one_turn (now : Z) (i : nat) (s : list nat) (calls : list Call) (c : Call)
  (db : Db) :
  calls !! i = Some c ->
  run now (i :: s) db calls
  = let '(db', c') := step now c db in run now s db' (<[i := c']> calls).
Proof. intros Hi. cbn [run]. rewrite Hi. reflexivity. Qed.

(** Three turns in a row take a call from its start to its end. *)
Lemma three_turns (now : Z) (i : nat) (calls : list Call) (newId slotId userId : string)
  (db : Db) :
  calls !! i = Some (Start newId slotId userId) ->
  run now [i; i; i] db calls
  = let '(db', r) := createBooking now newId slotId userId db in
    (db', <[i := Done r]> calls).
Proof.
  intros Hi.
  assert (Hlen : (i < length calls)%nat) by (apply lookup_lt_is_Some; by eexists).
  assert (Hget : forall (c : Call) (cs : list Call),
            length cs = length calls -> <[i := c]> cs !! i = Some c).
  { intros c cs Hcs. apply list_lookup_insert_eq. by rewrite Hcs. }
  assert (Hdone : forall r db0 (s : list nat) (cs : list Call),
            length cs = length calls ->
            run now (i :: s) db0 (<[i := Done r]> cs)
            = run now s db0 (<[i := Done r]> cs)).
  { intros r db0 s cs Hcs. rewrite (one_turn now i s _ (Done r) db0) by (by apply Hget).
    cbn [step]. by rewrite list_insert_insert_eq. }
  destruct (Availability.checkSlotAvailability_reads now slotId db) as [a Ha].
  rewrite (Lifecycle.createBooking_checked _ _ _ _ _ _ Ha).
  rewrite (one_turn now i _ calls _ db Hi). unfold step at 1. rewrite Ha.
  destruct (available a); cbn [negb].
  2:{ by rewrite !Hdone. }
  rewrite (one_turn now i _ _ (Checked newId slotId userId) db) by (by apply Hget).
  unfold step at 1. unfold mbind, M_bind.
  destruct (findSlotWithVenue_reads slotId db) as [found ->].
  destruct found as [[[slot venue]|]|e]; cbv beta iota zeta.
  2:{ rewrite list_insert_insert_eq. by rewrite Hdone. }
  2:{ rewrite list_insert_insert_eq. by rewrite Hdone. }
  rewrite list_insert_insert_eq.
  rewrite (one_turn now i _ _ (Priced newId slotId userId _) db) by (by apply Hget).
  cbn [step]. destruct (createBooking_tx _ _ _ _ db) as [db' r].
  cbn [run]. by rewrite list_insert_insert_eq.
Qed.

(** X24: when two calls of [createBooking] for the same slot run one after
    the other, in either order, each is the plain call on the store the
    other has left, and the second is refused with 409 CONFLICT "Slot is
    booked" whenever the first has returned a booking: at most one of them
    succeeds. *)
Theorem calls_in_turn_never_double_book (now : Z) (slotId id1 id2 user1 user2 : string)
  (db : Db) :
  let calls := [Start id1 slotId user1; Start id2 slotId user2] in
  let conflict := Err (AppError 409 "CONFLICT" "Slot is booked") in
  (exists db' r1 r2,
     run now [0; 0; 0; 1; 1; 1]%nat db calls = (db', [Done r1; Done r2])
     /\ r1 = (createBooking now id1 slotId user1 db).2
     /\ (succeeded (Done r1) = true -> r2 = conflict))
  /\ (exists db' r1 r2,
        run now [1; 1; 1; 0; 0; 0]%nat db calls = (db', [Done r1; Done r2])
        /\ r2 = (createBooking now id2 slotId user2 db).2
        /\ (succeeded (Done r2) = true -> r1 = conflict)).
Proof.
  intros calls conflict.
  assert (Hblock : forall newId userId db1 b newId' userId',
            createBooking now newId slotId userId db = (db1, Ok b) ->
            createBooking now newId' slotId userId' db1 = (db1, conflict)).
  { intros newId userId db1 b newId' userId' Hr.
    destruct (Lifecycle.createBooking_success _ _ _ _ _ _ _ Hr)
      as (slot & venue & Hs & _ & _ & _ & _ & _ & _ & _ & ->).
    apply (booked_slot_conflict now newId' slotId userId' _ (Slot.set_status BOOKED slot));
      [apply lookup_insert_eq | reflexivity]. }
  split.
  - change [0; 0; 0; 1; 1; 1]%nat with (app [0; 0; 0] [1; 1; 1])%nat.
    rewrite run_app, (three_turns now 0 calls id1 slotId user1 db eq_refl).
    destruct (createBooking now id1 slotId user1 db) as [db1 r1] eqn:H1.
    change (<[0%nat := Done r1]> calls) with [Done r1; Start id2 slotId user2].
    rewrite (three_turns now 1 [Done r1; Start id2 slotId user2] id2 slotId user2 db1
               eq_refl).
    destruct (createBooking now id2 slotId user2 db1) as [db2 r2] eqn:H2.
    exists db2, r1, r2. split; [reflexivity|]. split; [reflexivity|].
    intros Hok. destruct r1 as [b|e]; [|done].
    rewrite (Hblock _ _ _ _ id2 user2 H1) in H2. congruence.
  - change [1; 1; 1; 0; 0; 0]%nat with (app [1; 1; 1] [0; 0; 0])%nat.
    rewrite run_app, (three_turns now 1 calls id2 slotId user2 db eq_refl).
    destruct (createBooking now id2 slotId user2 db) as [db1 r2] eqn:H2.
    change (<[1%nat := Done r2]> calls) with [Start id1 slotId user1; Done r2].
    rewrite (three_turns now 0 [Start id1 slotId user1; Done r2] id1 slotId user1 db1
               eq_refl).
    destruct (createBooking now id1 slotId user1 db1) as [db2 r1] eqn:H1.
    exists db2, r1, r2. split; [reflexivity|]. split; [reflexivity|].
    intros Hok. destruct r2 as [b|e]; [|done].
    rewrite (Hblock _ _ _ _ id1 user1 H2) in H1. congruence.
Qed.

End Sequential.

(** ** SlotService: what a bulk creation leaves alone *)

Module BulkFrame.
Import SlotService Spec.

Lemma createOne_adds (newId : string) (c : SlotData) (ov : result bool) (db : Db) :
  let db' := (createOne newId c ov db).1 in
  (users db' = users db /\ venues db' = venues db
   /\ bookings db' = bookings db /\ reviews db' = reviews db)
  /\ (forall id s, slots db !! id = Some s -> slots db' !! id = Some s)
  /\ (forall id s, slots db' !! id = Some s -> slots db !! id = Some s \/ row c = Some s).
Proof.
  intros db'. subst db'. unfold createOne.
  destruct ov as [[]|e]; [by auto| |by auto].
  destruct (row c) as [r|]; [|by auto].
  unfold Prisma.slot_create. run_M.
  destruct (slots db !! newId) eqn:Hfresh; [by auto|].
  destruct (venues db !! Slot.venueId r); [|by auto].
  simpl. split; [done|]. split.
  - intros id s Hs. rewrite lookup_insert_ne; [done|]. intros <-. congruence.
  - intros id s Hs. apply lookup_insert_Some in Hs as [[_ <-]|[_ Hs]]; auto.
Qed.

Lemma settle_adds (newId : nat -> string) (l : list (SlotData * result bool)) :
  forall (i : nat) (db : Db),
    let db' := (settle newId i l db).1 in
    (users db' = users db /\ venues db' = venues db
     /\ bookings db' = bookings db /\ reviews db' = reviews db)
    /\ (forall id s, slots db !! id = Some s -> slots db' !! id = Some s)
    /\ (forall id s, slots db' !! id = Some s ->
                     slots db !! id = Some s \/ exists c, c ∈ map fst l /\ row c = Some s).
Proof.
  induction l as [|[c ov] l IH]; intros i db db'; subst db'.
  { simpl. auto. }
  cbn [settle].
  pose proof (createOne_adds (newId i) c ov db) as H1. cbv zeta in H1.
  destruct (createOne (newId i) c ov db) as [db1 r]. cbn [fst] in H1.
  pose proof (IH (S i) db1) as H2. cbv zeta in H2.
  destruct (settle newId (S i) l db1) as [db2 rs]. cbn [fst] in *.
  destruct H1 as ((Hu1 & Hv1 & Hb1 & Hr1) & Hkeep1 & Hnew1).
  destruct H2 as ((Hu2 & Hv2 & Hb2 & Hr2) & Hkeep2 & Hnew2).
  split; [repeat split; congruence|]. split.
  - intros id s Hs. by apply Hkeep2, Hkeep1.
  - intros id s Hs. destruct (Hnew2 id s Hs) as [Hs1|(c' & Hin & Hrow)].
    + destruct (Hnew1 id s Hs1) as [Hs0|Hrow]; [by left|].
      right. exists c. split; [left | done].
    + right. exists c'. split; [by right | done].
Qed.

(** X25: whatever its arguments and its outcome, [createBulkSlots] touches
    no table but the slots, and changes or removes no slot that is stored;
    every row it adds belongs to the venue of the request, carries the
    status asked for (AVAILABLE by default), the calendar day of one of the
    dates and the two times of one of the templates, spelled as given. *)
Theorem createBulkSlots_only_adds (newId : nat -> string) (data : CreateBulkSlotsInput)
  (userId : string) (db : Db) :
  let db' := (createBulkSlots newId data userId db).1 in
  (users db' = users db /\ venues db' = venues db
   /\ bookings db' = bookings db /\ reviews db' = reviews db)
  /\ (forall id s, slots db !! id = Some s -> slots db' !! id = Some s)
  /\ (forall id s,
        slots db' !! id = Some s ->
        slots db !! id = Some s
        \/ (Slot.venueId s = in_venueId data
            /\ Slot.status s = default AVAILABLE (in_status data)
            /\ exists d t ms,
                 d ∈ in_dates data /\ t ∈ in_timeSlots data
                 /\ JS.Date_new d = Some ms /\ Slot.date s = dayOf ms
                 /\ Slot.startTime s = ts_startTime t
                 /\ Slot.endTime s = ts_endTime t)).
Proof.
  intros db'. subst db'. unfold createBulkSlots. run_M.
  destruct (venues db !! in_venueId data) as [ven|]; simpl; [|by auto].
  destruct (users db !! userId) as [user|]; simpl; [|by auto].
  destruct (negb (bool_decide (User.role user = ADMIN))); simpl; [by auto|].
  match goal with
  | |- context [settle ?n ?i ?l ?d] =>
      pose proof (settle_adds n l i d) as Hset;
      destruct (settle n i l d) as [db' results]
  end.
  cbv zeta in Hset. cbn [fst] in Hset. destruct Hset as (Hsame & Hkeep & Hnew).
  assert (Hgoal :
            (users db' = users db /\ venues db' = venues db
             /\ bookings db' = bookings db /\ reviews db' = reviews db)
            /\ (forall id s, slots db !! id = Some s -> slots db' !! id = Some s)
            /\ (forall id s,
                  slots db' !! id = Some s ->
                  slots db !! id = Some s
                  \/ (Slot.venueId s = in_venueId data
                      /\ Slot.status s = default AVAILABLE (in_status data)
                      /\ exists d t ms,
                           d ∈ in_dates data /\ t ∈ in_timeSlots data
                           /\ JS.Date_new d = Some ms /\ Slot.date s = dayOf ms
                           /\ Slot.startTime s = ts_startTime t
                           /\ Slot.endTime s = ts_endTime t))).
  { split; [done|]. split; [done|].
    intros id s Hs. destruct (Hnew id s Hs) as [H0|(c & Hin & Hrow)]; [by left|]. right.
    rewrite map_map in Hin. cbn [fst] in Hin. rewrite map_id in Hin.
    rewrite Bulk.slotsToCreate_product in Hin.
    apply Bulk.product_elem in Hin as (d & t & Hd & Ht & ->).
    unfold row, candidate in Hrow. cbn in Hrow.
    destruct (JS.Date_new d) as [ms|] eqn:Hms; [|done].
    injection Hrow as <-. cbn. split; [done|]. split; [done|].
    exists d, t, ms. repeat split; done. }
  destruct (Promise_all results); exact Hgoal.
Qed.

End BulkFrame.

(** ** BookingService: the status overwrite and the slot *)

Module Overwrite.
Import BookingService Spec Invariant.

(** X26: when an admin overwrites the status of the one active booking of
    a BOOKED slot with CANCELLED or COMPLETED, [updateBookingStatus] leaves
    the slot without any active booking and still BOOKED: every later
    [createBooking] for the slot is refused with 409 CONFLICT "Slot is
    booked", which [cancelBooking] would not have caused. *)
Theorem overwritten_booking_keeps_slot_blocked (id : string) (st : BookingStatus.t)
  (db : Db) (b : Booking.t) (slot : Slot.t) :
  bookings db !! id = Some b ->
  slots db !! Booking.slotId b = Some slot ->
  Slot.status slot = BOOKED ->
  one_active db ->
  active b ->
  st = BookingStatus.CANCELLED \/ st = BookingStatus.COMPLETED ->
  exists db' b',
    updateBookingStatus id st db = (db', Ok (id, b'))
    /\ Booking.status b' = st
    /\ ~ has_active_booking db' (Booking.slotId b)
    /\ slots db' !! Booking.slotId b = Some slot
    /\ forall now newId userId,
         createBooking now newId (Booking.slotId b) userId db'
         = (db', Err (AppError 409 "CONFLICT" "Slot is booked")).
Proof.
  intros Hb Hs Hst Hone Hact Hto.
  assert (Hr : updateBookingStatus id st db
               = (Prisma.set_bookings (<[id := status_update st b]> (bookings db)) db,
                  Ok (id, status_update st b))).
  { unfold updateBookingStatus, findBookingWithSlot, Prisma.booking_update. run_M.
    rewrite Hb. simpl. rewrite Hs. simpl. rewrite Hb. reflexivity. }
  eexists _, _. split; [exact Hr|]. split; [reflexivity|]. split; [|split].
  - intros (j & b' & Hj & Hslot & Hact'). simpl in Hj.
    apply lookup_insert_Some in Hj as [[_ <-]|[Hne Hj]].
    + simpl in Hact'. destruct Hto as [-> | ->], Hact' as [H|H]; done.
    + apply Hne. by apply (Hone id j b b').
  - exact Hs.
  - intros now newId userId.
    by apply (Sequential.booked_slot_conflict now newId _ userId _ slot).
Qed.

Lemma overwritten_booking_keeps_slot_blocked_witness :
  exists db' b',
    updateBookingStatus "b1" BookingStatus.CANCELLED Sample.db_booked = (db', Ok ("b1", b'))
    /\ ~ has_active_booking db' "s1"
    /\ createBooking 0 "b2" "s1" "u2" db'
       = (db', Err (AppError 409 "CONFLICT" "Slot is booked")).
Proof.
  assert (Hone : one_active Sample.db_booked).
  { intros i j b b' Hi Hj _ _ _.
    change (({[ "b1" := Sample.b1 BookingStatus.PENDING ]} : gmap string Booking.t) !! i
            = Some b) in Hi.
    change (({[ "b1" := Sample.b1 BookingStatus.PENDING ]} : gmap string Booking.t) !! j
            = Some b') in Hj.
    apply lookup_singleton_Some in Hi as [<- _].
    apply lookup_singleton_Some in Hj as [<- _]. reflexivity. }
  destruct (overwritten_booking_keeps_slot_blocked "b1" BookingStatus.CANCELLED
              Sample.db_booked (Sample.b1 BookingStatus.PENDING) (Sample.s1 BOOKED)
              eq_refl eq_refl eq_refl Hone ltac:(by left) ltac:(by left))
    as (db' & b' & Hr & _ & Hno & _ & Hc).
  exists db', b'. split; [exact Hr|]. split; [exact Hno | apply Hc].
Defined.

End Overwrite.
